(** * Task API: access control, query scoping and task life cycle

    A shallow embedding of the task controller (createTask, getTasks,
    getTask, updateTask, deleteTask, addComment, getTaskStats), of the Task
    model (schema validators, pre-save middleware, canModify, addComment)
    and of the authentication middleware (extractToken, verifyToken,
    authenticate).

    Conventions.
    - Dates are milliseconds since the epoch, in [Z]; [new Date()] is the
      argument [now] of every handler.
    - ObjectIds are opaque keys, in [Z]; [a.equals(b)] is [Z.eqb].
    - JavaScript objects used as dictionaries (the Mongo filter, the request
      body, the update document) are [gmap string _]: assigning to a key that
      is already there overwrites it, exactly as in the source.
    - The collection is a list of documents in insertion order. *)

From Stdlib Require Import ZArith List Bool Ascii String Lia Permutation Sorted.
From stdpp Require Import gmap strings list fin_maps.

Local Open Scope string_scope.
Local Open Scope Z_scope.

(** ** Documents *)

Record comment := mkComment {
  content : string;
  author : Z;
  comment_createdAt : Z
}.

Record attachment := mkAttachment {
  filename : string;
  url : string;
  uploadedAt : Z
}.

(** The Task schema, field by field. *)
Record task := mkTask {
  _id : Z;
  title : string;
  description : option string;
  status : string;
  priority : string;
  category : string;
  dueDate : option Z;
  completedAt : option Z;
  assignedTo : Z;
  createdBy : Z;
  tags : list string;
  attachments : list attachment;
  comments : list comment;
  isArchived : bool;
  createdAt : Z;
  updatedAt : Z
}.

(** The part of [req.user] the handlers read. *)
Record user := mkUser {
  user_id : Z;
  role : string;
  isActive : bool;
  passwordChangedAt : option Z;
  lastLogin : option Z
}.

(** ** Values stored in documents and used in filters *)

Inductive bson :=
| BNull
| BStr (s : string)
| BId (i : Z)
| BBool (b : bool)
| BDate (d : Z).

Definition bson_eqb (a b : bson) : bool :=
  match a, b with
  | BNull, BNull => true
  | BStr x, BStr y => String.eqb x y
  | BId x, BId y => Z.eqb x y
  | BBool x, BBool y => Bool.eqb x y
  | BDate x, BDate y => Z.eqb x y
  | _, _ => false
  end.

(** [doc[path]] for the paths of the Task schema; a path the schema does not
    have reads as missing. *)
Definition field_of (t : task) (path : string) : bson :=
  if String.eqb path "_id" then BId (_id t)
  else if String.eqb path "title" then BStr (title t)
  else if String.eqb path "description" then
    match description t with Some s => BStr s | None => BNull end
  else if String.eqb path "status" then BStr (status t)
  else if String.eqb path "priority" then BStr (priority t)
  else if String.eqb path "category" then BStr (category t)
  else if String.eqb path "dueDate" then
    match dueDate t with Some d => BDate d | None => BNull end
  else if String.eqb path "completedAt" then
    match completedAt t with Some d => BDate d | None => BNull end
  else if String.eqb path "assignedTo" then BId (assignedTo t)
  else if String.eqb path "createdBy" then BId (createdBy t)
  else if String.eqb path "isArchived" then BBool (isArchived t)
  else if String.eqb path "createdAt" then BDate (createdAt t)
  else if String.eqb path "updatedAt" then BDate (updatedAt t)
  else BNull.

(** ** Mongo filters *)

(** What the handlers put under a field key. *)
Inductive cond :=
| Eq (v : bson)                  (* field: v *)
| Lt (d : Z)                     (* field: { $lt: d } *)
| GteLt (lo hi : Z)              (* field: { $gte: lo, $lt: hi } *)
| Nin (vs : list string)         (* field: { $nin: vs } *)
| Regex (pat opts : string).     (* field: { $regex: pat, $options: opts } *)

(** A top-level entry of a filter object: a condition on the field named by
    the key, or (under the key "$or") a list of one-field alternatives. *)
Inductive fval :=
| Cond (c : cond)
| AnyOf (alts : list (string * cond)).

Definition str_in (s : string) (l : list string) : bool :=
  existsb (String.eqb s) l.

Section Engine.

(** The regular-expression engine of the database: [regex_test pat opts s]
    says whether [s] has a match of [pat] under the options [opts]. *)
Variable regex_test : string -> string -> string -> bool.

Definition cond_holds (c : cond) (v : bson) : bool :=
  match c with
  | Eq w => bson_eqb v w
  | Lt d => match v with BDate x => x <? d | _ => false end
  | GteLt lo hi =>
      match v with BDate x => (lo <=? x) && (x <? hi) | _ => false end
  | Nin vs => match v with BStr s => negb (str_in s vs) | _ => true end
  | Regex pat opts =>
      match v with BStr s => regex_test pat opts s | _ => false end
  end.

Definition entry_holds (t : task) (key : string) (v : fval) : bool :=
  match v with
  | Cond c => cond_holds c (field_of t key)
  | AnyOf alts =>
      existsb (fun a => cond_holds (snd a) (field_of t (fst a))) alts
  end.

(** A document matches a filter object when every entry holds. *)
Definition matches (f : gmap string fval) (t : task) : bool :=
  forallb (fun kv => entry_holds t (fst kv) (snd kv)) (map_to_list f).

(** [Task.countDocuments(filter)] *)
Definition countDocuments (f : gmap string fval) (db : list task) : Z :=
  Z.of_nat (length (List.filter (matches f) db)).

End Engine.

(** ** Sorting, skip and limit *)

Definition bson_rank (v : bson) : Z :=
  match v with
  | BNull => 0 | BStr _ => 1 | BId _ => 2 | BBool _ => 3 | BDate _ => 4
  end.

(** The comparison order of the database across and within types. *)
Definition bson_leb (a b : bson) : bool :=
  match a, b with
  | BStr x, BStr y => String.leb x y
  | BId x, BId y => x <=? y
  | BBool x, BBool y => implb x y
  | BDate x, BDate y => x <=? y
  | _, _ => bson_rank a <=? bson_rank b
  end.

(** [sortBy] is the one-key object { [field]: dir } with dir 1 or -1. *)
Definition sort_leb (sortBy : string * Z) (a b : task) : bool :=
  if snd sortBy =? -1
  then bson_leb (field_of b (fst sortBy)) (field_of a (fst sortBy))
  else bson_leb (field_of a (fst sortBy)) (field_of b (fst sortBy)).

Fixpoint sort_insert (sortBy : string * Z) (x : task) (l : list task)
  : list task :=
  match l with
  | [] => [x]
  | y :: r =>
      if sort_leb sortBy x y then x :: y :: r
      else y :: sort_insert sortBy x r
  end.

Definition sort_docs (sortBy : string * Z) (l : list task) : list task :=
  fold_right (sort_insert sortBy) [] l.

(** [Task.find(filter).sort(sortBy).skip(skip).limit(limit)]. A negative
    skip is an error of the database; a limit of 0 means no limit and a
    negative one is taken by its absolute value. *)
Definition find (regex_test : string -> string -> string -> bool)
    (f : gmap string fval) (sortBy : string * Z) (skip limit : Z)
    (db : list task) : option (list task) :=
  if skip <? 0 then None
  else
    let hits := drop (Z.to_nat skip)
                  (sort_docs sortBy (List.filter (matches regex_test f) db)) in
    Some (if limit =? 0 then hits else take (Z.to_nat (Z.abs limit)) hits).

(** ** Requests and replies *)

(** [req.query]. [q_page] and [q_limit] hold [parseInt(req.query.page)] and
    [parseInt(req.query.limit)], with [None] for NaN; the identifiers are
    already ObjectIds; the other parameters are the raw strings. *)
Record query := mkQuery {
  q_page : option Z;
  q_limit : option Z;
  q_status : option string;
  q_priority : option string;
  q_category : option string;
  q_assignedTo : option Z;
  q_createdBy : option Z;
  q_isArchived : option string;
  q_dueDate : option string;
  q_search : option string;
  q_sortBy : option string
}.

(** What a handler does with the response. *)
Inductive reply (A : Type) :=
| Json (code : Z) (message : string) (data : A)
    (* res.status(code).json({ success: true, message, data }) *)
| Refuse (code : Z) (message : string)
    (* res.status(code).json({ success: false, message }) *)
| Throw (message : string).
    (* an exception, handed to the error handler by asyncHandler *)

Arguments Json {A} code message data.
Arguments Refuse {A} code message.
Arguments Throw {A} message.

Record pagination := mkPagination {
  current : Z;
  pages : Z;
  total : Z;
  limit : Z
}.

(** [x || d] for a number [x] that may be NaN. *)
Definition num_or (x : option Z) (d : Z) : Z :=
  match x with
  | Some n => if n =? 0 then d else n
  | None => d
  end.

(** Truthiness of an optional string parameter. *)
Definition given (x : option string) : bool :=
  match x with
  | Some s => negb (String.eqb s "")
  | None => false
  end.

(** [Math.ceil(a / b)] on integers, [b] not 0. *)
Definition ceil_div (a b : Z) : Z := - ((- a) / b).

Fixpoint split_on (sep : ascii) (s : string) : list string :=
  match s with
  | EmptyString => [EmptyString]
  | String c r =>
      if Ascii.eqb c sep then EmptyString :: split_on sep r
      else match split_on sep r with
           | h :: tl => String c h :: tl
           | [] => [String c EmptyString]
           end
  end.

Definition day_ms : Z := 86400000.

(** ** getTasks *)

(** Lines 51-61 of getTasks and 294-304 of getTaskStats build the same
    object: empty for an admin, the two ownership alternatives otherwise. *)
Definition matchQuery (u : user) : gmap string fval :=
  if negb (String.eqb (role u) "admin")
  then {[ "$or" := AnyOf [("assignedTo", Eq (BId (user_id u)));
                          ("createdBy", Eq (BId (user_id u)))] ]}
  else empty.

(** Lines 64-66: [if (req.query.key) filter.key = req.query.key]. *)
Definition apply_string (key : string) (x : option string)
    (filter : gmap string fval) : gmap string fval :=
  match x with
  | Some s => if given (Some s) then <[key := Cond (Eq (BStr s))]> filter
              else filter
  | None => filter
  end.

(** Lines 67-68. *)
Definition apply_id (key : string) (x : option Z)
    (filter : gmap string fval) : gmap string fval :=
  match x with
  | Some i => <[key := Cond (Eq (BId i))]> filter
  | None => filter
  end.

(** Line 69. *)
Definition apply_isArchived (x : option string)
    (filter : gmap string fval) : gmap string fval :=
  match x with
  | Some s => <["isArchived" := Cond (Eq (BBool (String.eqb s "true")))]> filter
  | None => filter
  end.

(** Lines 72-82. *)
Definition apply_dueDate (now : Z) (x : option string)
    (filter : gmap string fval) : gmap string fval :=
  if given x then
    if bool_decide (x = Some "overdue") then
      <["status" := Cond (Nin ["completed"; "cancelled"])]>
        (<["dueDate" := Cond (Lt now)]> filter)
    else if bool_decide (x = Some "today") then
      <["dueDate" := Cond (GteLt now (now + day_ms))]> filter
    else filter
  else filter.

(** Lines 85-91. *)
Definition apply_search (x : option string)
    (filter : gmap string fval) : gmap string fval :=
  match x with
  | Some s =>
      if given (Some s) then
        <["$or" := AnyOf [("title", Regex s "i");
                          ("description", Regex s "i");
                          ("category", Regex s "i")]]> filter
      else filter
  | None => filter
  end.

(** Lines 50-91: the filter object, built by successive assignments. *)
Definition getTasks_filter (now : Z) (u : user) (q : query)
  : gmap string fval :=
  let filter := matchQuery u in
  let filter := apply_string "status" (q_status q) filter in
  let filter := apply_string "priority" (q_priority q) filter in
  let filter := apply_string "category" (q_category q) filter in
  let filter := apply_id "assignedTo" (q_assignedTo q) filter in
  let filter := apply_id "createdBy" (q_createdBy q) filter in
  let filter := apply_isArchived (q_isArchived q) filter in
  let filter := apply_dueDate now (q_dueDate q) filter in
  apply_search (q_search q) filter.

(** Lines 93-98. *)
Definition getTasks_sort (q : query) : string * Z :=
  match q_sortBy q with
  | Some s =>
      if given (Some s) then
        match split_on ":" s with
        | p0 :: p1 :: _ => (p0, if String.eqb p1 "desc" then -1 else 1)
        | p0 :: [] => (p0, 1)
        | [] => ("", 1)
        end
      else ("createdAt", -1)
  | None => ("createdAt", -1)
  end.

Definition getTasks (regex_test : string -> string -> string -> bool)
    (now : Z) (u : user) (q : query) (db : list task)
  : reply (list task * pagination) :=
  let page := num_or (q_page q) 1 in
  let limit := num_or (q_limit q) 10 in
  let skip := (page - 1) * limit in
  let filter := getTasks_filter now u q in
  let sortBy := getTasks_sort q in
  match find regex_test filter sortBy skip limit db with
  | None => Throw "Skip value must be non-negative"
  | Some tasks =>
      let total := countDocuments regex_test filter db in
      Json 200 "Tasks retrieved successfully"
        (tasks, {| current := page; pages := ceil_div total limit;
                   total := total; limit := limit |})
  end.

(** ** The request body and the Task schema *)

(** Values of a parsed JSON body. A string that denotes an ObjectId or a date
    carries the identifier or the date it denotes. *)
Inductive jsval :=
| JNull
| JStr (s : string)
| JBool (b : bool)
| JId (i : Z)
| JDate (d : Z)
| JStrs (l : list string).

(** Truthiness of [body[key]]; a key that is absent reads as undefined. *)
Definition truthy (v : option jsval) : bool :=
  match v with
  | None | Some JNull => false
  | Some (JStr s) => negb (String.eqb s "")
  | Some (JBool b) => b
  | Some (JId _) | Some (JDate _) | Some (JStrs _) => true
  end.

(** [id.equals(v)] for a value of the body. *)
Definition id_equals (id : Z) (v : option jsval) : bool :=
  match v with
  | Some (JId i) => id =? i
  | _ => false
  end.

(** Outcome of casting and validating: the value, or the message of the
    error that is thrown. *)
Inductive res (A : Type) :=
| Ok (a : A)
| Err (message : string).

Arguments Ok {A} a.
Arguments Err {A} message.

Definition res_bind {A B : Type} (c : res A) (k : A -> res B) : res B :=
  match c with
  | Ok a => k a
  | Err m => Err m
  end.

Notation "'do' x <- c ; k" := (res_bind c (fun x => k))
  (at level 10, x name, c at level 100, k at level 200).

Definition is_space (c : ascii) : bool :=
  let n := nat_of_ascii c in
  ((9 <=? n) && (n <=? 13))%nat || (n =? 32)%nat.

Fixpoint ltrim (s : string) : string :=
  match s with
  | EmptyString => EmptyString
  | String c r => if is_space c then ltrim r else s
  end.

Fixpoint rtrim (s : string) : string :=
  match s with
  | EmptyString => EmptyString
  | String c r =>
      match rtrim r with
      | EmptyString => if is_space c then EmptyString else String c EmptyString
      | r' => String c r'
      end
  end.

(** The [trim: true] setter. *)
Definition trim (s : string) : string := rtrim (ltrim s).

Definition longer_than (n : nat) (s : string) : bool :=
  (n <? String.length s)%nat.

Definition statuses : list string :=
  ["pending"; "in-progress"; "completed"; "cancelled"].
Definition priorities : list string := ["low"; "medium"; "high"; "urgent"].

Definition cast_error : string := "Cast failed".

(** One function per path of the schema: setter, then validators. A value of
    another kind than the type of the path is reported as a cast error.
    Mongoose stores a null that is given for status, priority, category, tags
    or isArchived as it is (the enumerations and the lengths are not checked
    on a null); the record [task] has no null at these paths, so the
    functions below report such a null as a cast error as well, and the
    statements that depend on what is stored there are about bodies without
    such a null ([no_null]). *)
Definition title_path (v : jsval) : res string :=
  match v with
  | JStr s =>
      let s := trim s in
      if String.eqb s "" then Err "Task title is required"
      else if longer_than 200 s
           then Err "Task title cannot exceed 200 characters"
           else Ok s
  | JNull => Err "Task title is required"
  | _ => Err cast_error
  end.

Definition description_path (v : jsval) : res (option string) :=
  match v with
  | JStr s =>
      let s := trim s in
      if longer_than 1000 s
      then Err "Task description cannot exceed 1000 characters"
      else Ok (Some s)
  | JNull => Ok None
  | _ => Err cast_error
  end.

Definition status_path (v : jsval) : res string :=
  match v with
  | JStr s =>
      if str_in s statuses then Ok s
      else Err "Status must be one of: pending, in-progress, completed, cancelled"
  | _ => Err cast_error
  end.

Definition priority_path (v : jsval) : res string :=
  match v with
  | JStr s =>
      if str_in s priorities then Ok s
      else Err "Priority must be one of: low, medium, high, urgent"
  | _ => Err cast_error
  end.

Definition category_path (v : jsval) : res string :=
  match v with
  | JStr s =>
      let s := trim s in
      if longer_than 50 s then Err "Category cannot exceed 50 characters"
      else Ok s
  | _ => Err cast_error
  end.

(** The validator of dueDate: [!value || value > new Date()]. *)
Definition dueDate_valid (now : Z) (d : option Z) : bool :=
  match d with
  | None => true
  | Some x => now <? x
  end.

Definition dueDate_path (now : Z) (v : jsval) : res (option Z) :=
  match v with
  | JDate d =>
      if dueDate_valid now (Some d) then Ok (Some d)
      else Err "Due date must be in the future"
  | JNull => Ok None
  | _ => Err cast_error
  end.

Definition completedAt_path (v : jsval) : res (option Z) :=
  match v with
  | JDate d => Ok (Some d)
  | JNull => Ok None
  | _ => Err cast_error
  end.

Definition ref_path (required : string) (v : jsval) : res Z :=
  match v with
  | JId i => Ok i
  | JNull => Err required
  | _ => Err cast_error
  end.

Definition tags_path (v : jsval) : res (list string) :=
  match v with
  | JStrs l =>
      let l := List.map trim l in
      if existsb (longer_than 30) l then Err "Tag cannot exceed 30 characters"
      else Ok l
  | _ => Err cast_error
  end.

Definition isArchived_path (v : jsval) : res bool :=
  match v with
  | JBool b => Ok b
  | _ => Err cast_error
  end.

Definition comment_content_path (v : option jsval) : res string :=
  match v with
  | Some (JStr s) =>
      if String.eqb s "" then Err "Path `content` is required."
      else if longer_than 500 s then Err "Comment cannot exceed 500 characters"
           else Ok s
  | None | Some JNull => Err "Path `content` is required."
  | _ => Err cast_error
  end.

(** A body that gives no null for the paths of [paths]. *)
Definition no_null (body : gmap string jsval) (paths : list string) : Prop :=
  forall k, In k paths -> body !! k <> Some JNull.

(** A path that is absent keeps [dflt]: the default of the schema when a
    document is built, the stored value when one is updated. *)
Definition path_or {A : Type} (v : option jsval) (check : jsval -> res A)
    (dflt : A) : res A :=
  match v with
  | Some x => check x
  | None => Ok dflt
  end.

(** A required path: absent is an error. *)
Definition path_required {A : Type} (v : option jsval)
    (check : jsval -> res A) (required : string) : res A :=
  match v with
  | Some x => check x
  | None => Err required
  end.

(** ** Saving a document *)

(** Validation of a whole document, as [save] runs it. *)
Definition validate (now : Z) (t : task) : res unit :=
  if String.eqb (title t) "" then Err "Task title is required"
  else if longer_than 200 (title t)
  then Err "Task title cannot exceed 200 characters"
  else if match description t with
          | Some s => longer_than 1000 s | None => false end
  then Err "Task description cannot exceed 1000 characters"
  else if negb (str_in (status t) statuses)
  then Err "Status must be one of: pending, in-progress, completed, cancelled"
  else if negb (str_in (priority t) priorities)
  then Err "Priority must be one of: low, medium, high, urgent"
  else if longer_than 50 (category t)
  then Err "Category cannot exceed 50 characters"
  else if negb (dueDate_valid now (dueDate t))
  then Err "Due date must be in the future"
  else if existsb (longer_than 30) (tags t)
  then Err "Tag cannot exceed 30 characters"
  else if existsb (fun c => String.eqb (content c) "") (comments t)
  then Err "Path `content` is required."
  else if existsb (fun c => longer_than 500 (content c)) (comments t)
  then Err "Comment cannot exceed 500 characters"
  else Ok tt.

Definition set_completedAt (c : option Z) (t : task) : task :=
  {| _id := _id t; title := title t; description := description t;
     status := status t; priority := priority t; category := category t;
     dueDate := dueDate t; completedAt := c; assignedTo := assignedTo t;
     createdBy := createdBy t; tags := tags t; attachments := attachments t;
     comments := comments t; isArchived := isArchived t;
     createdAt := createdAt t; updatedAt := updatedAt t |}.

Definition set_comments (c : list comment) (t : task) : task :=
  {| _id := _id t; title := title t; description := description t;
     status := status t; priority := priority t; category := category t;
     dueDate := dueDate t; completedAt := completedAt t;
     assignedTo := assignedTo t; createdBy := createdBy t; tags := tags t;
     attachments := attachments t; comments := c;
     isArchived := isArchived t; createdAt := createdAt t;
     updatedAt := updatedAt t |}.

Definition set_updatedAt (d : Z) (t : task) : task :=
  {| _id := _id t; title := title t; description := description t;
     status := status t; priority := priority t; category := category t;
     dueDate := dueDate t; completedAt := completedAt t;
     assignedTo := assignedTo t; createdBy := createdBy t; tags := tags t;
     attachments := attachments t; comments := comments t;
     isArchived := isArchived t; createdAt := createdAt t; updatedAt := d |}.

(** taskSchema.pre('save'), first hook: completedAt follows status.
    [status_modified] is [this.isModified('status')]. *)
Definition pre_save_completedAt (now : Z) (status_modified : bool) (t : task)
  : task :=
  if status_modified then
    if String.eqb (status t) "completed"
       && negb (bool_decide (is_Some (completedAt t)))
    then set_completedAt (Some now) t
    else if negb (String.eqb (status t) "completed")
    then set_completedAt None t
    else t
  else t.

(** taskSchema.pre('save'), second hook: the due date. [next] is called with
    the error first; the call without error that follows it is ignored. *)
Definition pre_save_dueDate (now : Z) (t : task) : res task :=
  match dueDate t with
  | Some d => if d <=? now then Err "Due date must be in the future" else Ok t
  | None => Ok t
  end.

(** [doc.save()]: validation, then the hooks in the order of registration,
    then the timestamp. The validator, the hooks and the timestamps each read
    the clock; [now] stands for each of these readings of one save, and a
    statement about a date that is stored or about a comparison with the
    clock is about the reading that stores or compares it. *)
Definition save_doc (now : Z) (status_modified : bool) (t : task) : res task :=
  do _ <- validate now t;
  do t' <- pre_save_dueDate now (pre_save_completedAt now status_modified t);
  Ok (set_updatedAt now t').

(** ** The collection *)

(** [Task.findById(id)] *)
Definition findById (id : Z) (db : list task) : option task :=
  List.find (fun t => _id t =? id) db.

(** [User.findById(id)] *)
Definition findUser (id : Z) (users : list user) : option user :=
  List.find (fun u => user_id u =? id) users.

(** [populate(path)] on a reference: the user that it names, and null when
    the collection of users has no such document. *)
Definition populate (users : list user) (ref : Z) : option user :=
  findUser ref users.

(** Replace the stored document that has the identifier of [t']. *)
Fixpoint store (t' : task) (db : list task) : list task :=
  match db with
  | [] => []
  | t :: r => if _id t =? _id t' then t' :: r else t :: store t' r
  end.

Fixpoint remove (id : Z) (db : list task) : list task :=
  match db with
  | [] => []
  | t :: r => if _id t =? id then r else t :: remove id r
  end.

(** [Task.create(data)]: cast the paths, fill in the defaults, save, insert.
    [new_id] is the ObjectId generated for the document. *)
Definition build_doc (now new_id : Z) (data : gmap string jsval) : res task :=
  do title' <- path_required (data !! "title") title_path
                 "Task title is required";
  do description' <- path_or (data !! "description") description_path None;
  do status' <- path_or (data !! "status") status_path "pending";
  do priority' <- path_or (data !! "priority") priority_path "medium";
  do category' <- path_or (data !! "category") category_path "general";
  do dueDate' <- path_or (data !! "dueDate") (dueDate_path now) None;
  do assignedTo' <- path_required (data !! "assignedTo")
                      (ref_path "Task must be assigned to a user")
                      "Task must be assigned to a user";
  do createdBy' <- path_required (data !! "createdBy")
                     (ref_path "Task must have a creator")
                     "Task must have a creator";
  do tags' <- path_or (data !! "tags") tags_path [];
  Ok {| _id := new_id; title := title'; description := description';
        status := status'; priority := priority'; category := category';
        dueDate := dueDate'; completedAt := None;
        assignedTo := assignedTo'; createdBy := createdBy'; tags := tags';
        attachments := []; comments := []; isArchived := false;
        createdAt := now; updatedAt := now |}.

Definition Task_create (now new_id : Z) (data : gmap string jsval)
    (db : list task) : res (task * list task) :=
  do doc <- build_doc now new_id data;
  do doc' <- save_doc now (bool_decide (is_Some (data !! "status"))) doc;
  Ok (doc', (db ++ [doc'])%list).

(** [Task.findByIdAndUpdate(id, updates, { new: true, runValidators: true })]
    on the stored document [t]: the paths of [updates] are cast, validated and
    set, updatedAt is refreshed; the save middleware does not run. Paths that
    [jsval] cannot hold a value for (_id, comments, attachments) and the
    immutable createdAt are not written. *)
Definition update_doc (now : Z) (updates : gmap string jsval) (t : task)
  : res task :=
  do title' <- path_or (updates !! "title") title_path (title t);
  do description' <- path_or (updates !! "description") description_path
                       (description t);
  do status' <- path_or (updates !! "status") status_path (status t);
  do priority' <- path_or (updates !! "priority") priority_path (priority t);
  do category' <- path_or (updates !! "category") category_path (category t);
  do dueDate' <- path_or (updates !! "dueDate") (dueDate_path now) (dueDate t);
  do completedAt' <- path_or (updates !! "completedAt") completedAt_path
                       (completedAt t);
  do assignedTo' <- path_or (updates !! "assignedTo")
                      (ref_path "Task must be assigned to a user")
                      (assignedTo t);
  do createdBy' <- path_or (updates !! "createdBy")
                     (ref_path "Task must have a creator") (createdBy t);
  do tags' <- path_or (updates !! "tags") tags_path (tags t);
  do isArchived' <- path_or (updates !! "isArchived") isArchived_path
                      (isArchived t);
  Ok {| _id := _id t; title := title'; description := description';
        status := status'; priority := priority'; category := category';
        dueDate := dueDate'; completedAt := completedAt';
        assignedTo := assignedTo'; createdBy := createdBy'; tags := tags';
        attachments := attachments t; comments := comments t;
        isArchived := isArchived'; createdAt := createdAt t;
        updatedAt := now |}.

(** ** The Task model: instance methods *)

(** taskSchema.methods.canModify *)
Definition canModify (t : task) (userId : Z) (userRole : string) : bool :=
  if String.eqb userRole "admin" then true
  else (createdBy t =? userId) || (assignedTo t =? userId).

(** taskSchema.methods.addComment: push, then save. *)
Definition Task_addComment (now : Z) (t : task) (content : option jsval)
    (authorId : Z) : res task :=
  do c <- comment_content_path content;
  save_doc now false
    (set_comments
       (comments t ++ [{| content := c; author := authorId;
                          comment_createdAt := now |}])%list t).

(** ** The controller *)

(** Copy [body[key]] when it is defined. *)
Definition copy_key (body : gmap string jsval) (key : string)
    (data : gmap string jsval) : gmap string jsval :=
  match body !! key with
  | Some v => <[key := v]> data
  | None => data
  end.

Definition createTask (now new_id : Z) (u : user) (body : gmap string jsval)
    (db : list task) : reply task * list task :=
  let assignedTo := body !! "assignedTo" in
  let taskData : gmap string jsval :=
    <["createdBy" := JId (user_id u)]>
      (<["assignedTo" := match assignedTo with
                         | Some v => if truthy assignedTo then v
                                     else JId (user_id u)
                         | None => JId (user_id u)
                         end]>
         (copy_key body "title"
            (copy_key body "description"
               (copy_key body "status"
                  (copy_key body "priority"
                     (copy_key body "category"
                        (copy_key body "dueDate"
                           (copy_key body "tags" empty)))))))) in
  if truthy assignedTo && negb (id_equals (user_id u) assignedTo)
     && negb (String.eqb (role u) "admin")
  then (Refuse 403 "Only admins can assign tasks to other users", db)
  else
    match Task_create now new_id taskData db with
    | Err m => (Throw m, db)
    | Ok (task, db') => (Json 201 "Task created successfully" task, db')
    end.

(** The test of addComment (lines 269-271), on the references as they are
    stored. *)
Definition access_denied (u : user) (t : task) : bool :=
  negb (String.eqb (role u) "admin")
  && negb (assignedTo t =? user_id u)
  && negb (createdBy t =? user_id u).

(** What reading [_id] of null throws. *)
Definition type_error : string :=
  "Cannot read properties of null (reading '_id')".

(** getTask populates assignedTo and createdBy (lines 129-132) before the
    test of lines 142-144, which reads [_id] of what the two paths then hold:
    a reference to a user that does not exist is null after populate, and
    the read throws. The conjuncts are evaluated from left to right up to
    the first that is false. The reply carries the task; the users that
    populate has put in it are not part of the model. *)
Definition getTask (u : user) (id : Z) (users : list user) (db : list task)
  : reply task :=
  match findById id db with
  | None => Refuse 404 "Task not found"
  | Some task =>
      if negb (String.eqb (role u) "admin") then
        match populate users (assignedTo task) with
        | None => Throw type_error
        | Some assignee =>
            if negb (user_id assignee =? user_id u) then
              match populate users (createdBy task) with
              | None => Throw type_error
              | Some creator =>
                  if negb (user_id creator =? user_id u)
                  then Refuse 403 "Access denied"
                  else Json 200 "Task retrieved successfully" task
              end
            else Json 200 "Task retrieved successfully" task
        end
      else Json 200 "Task retrieved successfully" task
  end.

Definition allowedUpdates (u : user) : list string :=
  (["title"; "description"; "status"; "priority";
    "category"; "dueDate"; "tags"; "isArchived"]
   ++ (if String.eqb (role u) "admin" then ["assignedTo"] else []))%list.

Definition updateTask (now : Z) (u : user) (id : Z)
    (body : gmap string jsval) (db : list task) : reply task * list task :=
  match findById id db with
  | None => (Refuse 404 "Task not found", db)
  | Some task =>
      if negb (canModify task (user_id u) (role u)) then
        (Refuse 403
           "Access denied. You can only modify tasks you created or are assigned to",
         db)
      else if truthy (body !! "assignedTo")
              && negb (String.eqb (role u) "admin")
              && negb (id_equals (assignedTo task) (body !! "assignedTo"))
      then (Refuse 403 "Only admins can reassign tasks", db)
      else
        let updates : gmap string jsval :=
          filter (fun kv => str_in (fst kv) (allowedUpdates u) = true) body in
        match update_doc now updates task with
        | Err m => (Throw m, db)
        | Ok task' => (Json 200 "Task updated successfully" task',
                       store task' db)
        end
  end.

Definition deleteTask (u : user) (id : Z) (db : list task)
  : reply unit * list task :=
  match findById id db with
  | None => (Refuse 404 "Task not found", db)
  | Some task =>
      if negb (canModify task (user_id u) (role u)) then
        (Refuse 403
           "Access denied. You can only delete tasks you created or are assigned to",
         db)
      else (Json 200 "Task deleted successfully" tt, remove id db)
  end.

Definition addComment (now : Z) (u : user) (id : Z)
    (body : gmap string jsval) (db : list task) : reply comment * list task :=
  match findById id db with
  | None => (Refuse 404 "Task not found", db)
  | Some task =>
      if access_denied u task then (Refuse 403 "Access denied", db)
      else
        match Task_addComment now task (body !! "content") (user_id u) with
        | Err m => (Throw m, db)
        | Ok task' =>
            match last (comments task') with
            | Some c => (Json 201 "Comment added successfully" c,
                         store task' db)
            | None => (Throw "no comment", store task' db)
            end
        end
  end.

(** ** Dates of the calendar

    [getFullYear], [getMonth] and [new Date(year, monthIndex, day)] on
    millisecond timestamps, for a server whose time zone is UTC (proleptic
    Gregorian calendar, days counted from 1970-01-01). *)

(** Days from the epoch to the given day; month from 1 to 12. *)
Definition days_from_civil (y m d : Z) : Z :=
  let y' := if m <=? 2 then y - 1 else y in
  let era := y' / 400 in
  let yoe := y' - era * 400 in
  let doy := (153 * (if 2 <? m then m - 3 else m + 9) + 2) / 5 + d - 1 in
  let doe := yoe * 365 + yoe / 4 - yoe / 100 + doy in
  era * 146097 + doe - 719468.

(** Year and month (from 1 to 12) of a day counted from the epoch. *)
Definition civil_from_days (z : Z) : Z * Z :=
  let z' := z + 719468 in
  let era := z' / 146097 in
  let doe := z' - era * 146097 in
  let yoe := (doe - doe / 1460 + doe / 36524 - doe / 146096) / 365 in
  let doy := doe - (365 * yoe + yoe / 4 - yoe / 100) in
  let mp := (5 * doy + 2) / 153 in
  let m := if mp <? 10 then mp + 3 else mp - 9 in
  (yoe + era * 400 + (if m <=? 2 then 1 else 0), m).

Definition getFullYear (t : Z) : Z := fst (civil_from_days (t / day_ms)).

(** The month index, from 0 to 11. *)
Definition getMonth (t : Z) : Z := snd (civil_from_days (t / day_ms)) - 1.

(** [new Date(year, monthIndex, day)]; a month index outside 0..11 carries
    into the year. *)
Definition mkDate (year monthIndex day : Z) : Z :=
  days_from_civil (year + monthIndex / 12) (monthIndex mod 12 + 1) day
  * day_ms.

(** The first day of the month number [k], months counted from January of
    the year 0, and the month number of a day. *)
Definition month_day (k : Z) : Z := days_from_civil (k / 12) (k mod 12 + 1) 1.
Definition month_number (z : Z) : Z :=
  12 * fst (civil_from_days z) + snd (civil_from_days z) - 1.

(** Lines 337 and 338: the first instant of the month of [now],
    [new Date(now.getFullYear(), now.getMonth(), 1)], and of the month
    after, [new Date(now.getFullYear(), now.getMonth() + 1, 1)]. *)
Definition month_start (now : Z) : Z :=
  mkDate (getFullYear now) (getMonth now) 1.
Definition next_month_start (now : Z) : Z :=
  mkDate (getFullYear now) (getMonth now + 1) 1.

(** ** getTaskStats *)

Record stats := mkStats {
  statusStats : list (bson * Z);
  priorityStats : list (bson * Z);
  overdueTasks : Z;
  completedThisMonth : Z
}.

(** One more document in the group of key [k]. *)
Fixpoint bump (k : bson) (groups : list (bson * Z)) : list (bson * Z) :=
  match groups with
  | [] => [(k, 1)]
  | (k', n) :: r =>
      if bson_eqb k k' then (k', n + 1) :: r else (k', n) :: bump k r
  end.

(** The stage { $group: { _id: '$path', count: { $sum: 1 } } }. *)
Definition group_count (path : string) (docs : list task) : list (bson * Z) :=
  fold_left (fun groups t => bump (field_of t path) groups) docs [].

(** The count of the group of key [k]; 0 when there is no such group. *)
Definition count_of (k : bson) (groups : list (bson * Z)) : Z :=
  match List.find (fun g => bson_eqb k (fst g)) groups with
  | Some g => snd g
  | None => 0
  end.

Definition getTaskStats (regex_test : string -> string -> string -> bool)
    (now : Z) (u : user) (db : list task) : reply stats :=
  let matchQuery := matchQuery u in
  let stats :=
    group_count "status"
      (List.filter
         (matches regex_test
            (<["isArchived" := Cond (Eq (BBool false))]> matchQuery)) db) in
  let priorityStats :=
    group_count "priority"
      (List.filter
         (matches regex_test
            (<["isArchived" := Cond (Eq (BBool false))]> matchQuery)) db) in
  let overdueTasks :=
    countDocuments regex_test
      (<["isArchived" := Cond (Eq (BBool false))]>
         (<["status" := Cond (Nin ["completed"; "cancelled"])]>
            (<["dueDate" := Cond (Lt now)]> matchQuery))) db in
  let completedThisMonth :=
    countDocuments regex_test
      (<["completedAt" :=
           Cond (GteLt (month_start now) (next_month_start now))]>
         (<["status" := Cond (Eq (BStr "completed"))]> matchQuery)) db in
  Json 200 "Task statistics retrieved successfully"
    {| statusStats := stats; priorityStats := priorityStats;
       overdueTasks := overdueTasks;
       completedThisMonth := completedThisMonth |}.

(** ** Authentication *)

(** The claims of a verified token that the middleware reads. *)
Record jwt_payload := mkPayload {
  jwt_id : Z;
  jwt_iat : Z
}.

(** utils/jwt.js, extractToken *)
Definition extractToken (authHeader : option string) : res string :=
  match authHeader with
  | None => Err "Authorization header is required"
  | Some h =>
      if String.eqb h "" then Err "Authorization header is required"
      else if negb (String.prefix "Bearer " h)
      then Err "Authorization header must start with Bearer"
      else
        let token := String.substring 7 (String.length h - 7) h in
        if String.eqb token "" then Err "Token is required" else Ok token
  end.

Fixpoint store_user (u' : user) (users : list user) : list user :=
  match users with
  | [] => []
  | u :: r => if user_id u =? user_id u' then u' :: r
              else u :: store_user u' r
  end.

Definition set_lastLogin (d : Z) (u : user) : user :=
  {| user_id := user_id u; role := role u; isActive := isActive u;
     passwordChangedAt := passwordChangedAt u; lastLogin := Some d |}.

(** Modelled from the spec: the method changedPasswordAfter of the User
    model, whose file is not among the sources. The spec compares the time
    the token was issued with the watermark of the last change of secret: the
    token is stale when it was issued strictly before the watermark, and
    never when there is no watermark. Both are in the same unit here. *)
Definition changedPasswordAfter (u : user) (iat : Z) : bool :=
  match passwordChangedAt u with
  | Some changed => iat <? changed
  | None => false
  end.

(** Outcome of the middleware: [next()] with [req.user] set, or the 401. *)
Inductive auth :=
| Next (req_user : user)
| Unauthorized (message : string).

(** The rejections, by the names the spec gives them. *)
Definition MissingAuth : auth :=
  Unauthorized "Authorization header is required".
Definition InvalidToken : auth := Unauthorized "Invalid or expired token".
Definition UnknownSubject : auth := Unauthorized "User no longer exists".
Definition Deactivated : auth := Unauthorized "User account is deactivated".
Definition StaleCredential : auth :=
  Unauthorized "User recently changed password. Please log in again".

Section Auth.

(** [jwt.verify] with the secret, the issuer and the audience of the server:
    the payload of a token that is well signed and has not expired at [now],
    nothing otherwise. *)
Variable jwt_verify : Z -> string -> option jwt_payload.

(** utils/jwt.js, verifyToken *)
Definition verifyToken (now : Z) (token : string) : res jwt_payload :=
  match jwt_verify now token with
  | Some decoded => Ok decoded
  | None => Err "Invalid or expired token"
  end.

(** middleware/auth.js, authenticate; an exception becomes the 401 of the
    catch block, with the message of the error, or 'Authentication failed'
    when the message is empty. *)
Definition authenticate (now : Z) (authHeader : option string)
    (users : list user) : auth * list user :=
  match
    (do token <- extractToken authHeader;
     verifyToken now token)
  with
  | Err m =>
      (Unauthorized (if String.eqb m "" then "Authentication failed" else m),
       users)
  | Ok decoded =>
      match findUser (jwt_id decoded) users with
      | None => (Unauthorized "User no longer exists", users)
      | Some user =>
          if negb (isActive user)
          then (Unauthorized "User account is deactivated", users)
          else if changedPasswordAfter user (jwt_iat decoded)
          then (Unauthorized
                  "User recently changed password. Please log in again",
                users)
          else
            let user := set_lastLogin now user in
            (Next user, store_user user users)
      end
  end.

End Auth.

(** ** Instances used to run the handlers *)

Definition lower (c : ascii) : ascii :=
  let n := nat_of_ascii c in
  if ((65 <=? n) && (n <=? 90))%nat then ascii_of_nat (n + 32) else c.

Fixpoint lower_string (s : string) : string :=
  match s with
  | EmptyString => EmptyString
  | String c r => String (lower c) (lower_string r)
  end.

Fixpoint contains (pat s : string) : bool :=
  String.prefix pat s
  || match s with
     | EmptyString => false
     | String _ r => contains pat r
     end.

(** A regular-expression engine for patterns without metacharacters: the
    pattern matches where it occurs, in any case under the option "i". *)
Definition literal_regex (pat opts s : string) : bool :=
  if contains "i" opts then contains (lower_string pat) (lower_string s)
  else contains pat s.

(** A token verifier for tokens that are their own subject: the token "7"
    is well signed, issued at 1000 to the subject 7 and expires at 9000. *)
Definition toy_jwt (now : Z) (token : string) : option jwt_payload :=
  if String.eqb token "7" && (now <? 9000)
  then Some {| jwt_id := 7; jwt_iat := 1000 |}
  else None.

(** ** What the specification says, in its own words *)

(** The ownership scope of a caller: every task for an admin, the tasks the
    caller is assigned to or has created otherwise. *)
Definition ownership_scope (u : user) (t : task) : bool :=
  String.eqb (role u) "admin"
  || (assignedTo t =? user_id u) || (createdBy t =? user_id u).

(** Overdue at [now]: due before [now], neither completed nor cancelled. *)
Definition overdue_at (now : Z) (t : task) : bool :=
  match dueDate t with
  | Some d => d <? now
  | None => false
  end
  && negb (String.eqb (status t) "completed")
  && negb (String.eqb (status t) "cancelled").

(** Two dates of the same calendar month: same year, same month. *)
Definition same_month (a b : Z) : bool :=
  (getFullYear a =? getFullYear b) && (getMonth a =? getMonth b).

(** Completed within the calendar month of [now]. *)
Definition completed_in_month_of (now : Z) (t : task) : bool :=
  String.eqb (status t) "completed"
  && match completedAt t with
     | Some c => same_month c now
     | None => false
     end.

(** The status and completedAt of a task agree. *)
Definition completedAt_agrees (t : task) : Prop :=
  is_Some (completedAt t) <-> status t = "completed".

(** ** Reading replies, and the data of the examples *)

Definition set_page (p : Z) (q : query) : query :=
  {| q_page := Some p; q_limit := q_limit q; q_status := q_status q;
     q_priority := q_priority q; q_category := q_category q;
     q_assignedTo := q_assignedTo q; q_createdBy := q_createdBy q;
     q_isArchived := q_isArchived q; q_dueDate := q_dueDate q;
     q_search := q_search q; q_sortBy := q_sortBy q |}.

Definition reply_tasks (r : reply (list task * pagination)) : list task :=
  match r with
  | Json _ _ (tasks, _) => tasks
  | _ => []
  end.

Definition reply_pagination (r : reply (list task * pagination))
  : option pagination :=
  match r with
  | Json _ _ (_, p) => Some p
  | _ => None
  end.

Definition is_json {A : Type} (r : reply A) : bool :=
  match r with
  | Json _ _ _ => true
  | _ => false
  end.

Definition no_query : query :=
  {| q_page := None; q_limit := None; q_status := None; q_priority := None;
     q_category := None; q_assignedTo := None; q_createdBy := None;
     q_isArchived := None; q_dueDate := None; q_search := None;
     q_sortBy := None |}.

Definition alice : user :=
  {| user_id := 1; role := "user"; isActive := true;
     passwordChangedAt := None; lastLogin := None |}.
Definition bob : user :=
  {| user_id := 2; role := "user"; isActive := true;
     passwordChangedAt := None; lastLogin := None |}.
Definition root : user :=
  {| user_id := 3; role := "admin"; isActive := true;
     passwordChangedAt := None; lastLogin := None |}.

(** A pending task of bob, due at 50. *)
Definition bobs_report : task :=
  {| _id := 11; title := "Quarterly report"; description := None;
     status := "pending"; priority := "medium"; category := "general";
     dueDate := Some 50; completedAt := None; assignedTo := 2;
     createdBy := 2; tags := []; attachments := []; comments := [];
     isArchived := false; createdAt := 10; updatedAt := 10 |}.

(** A task of bob completed at 30. *)
Definition bobs_done : task :=
  {| _id := 12; title := "Backup"; description := None;
     status := "completed"; priority := "low"; category := "ops";
     dueDate := None; completedAt := Some 30; assignedTo := 2;
     createdBy := 2; tags := []; attachments := []; comments := [];
     isArchived := false; createdAt := 20; updatedAt := 30 |}.

(** A task of bob that was due at 50 and was completed at 60. *)
Definition late_done : task :=
  {| _id := 14; title := "Tax return"; description := None;
     status := "completed"; priority := "high"; category := "general";
     dueDate := Some 50; completedAt := Some 60; assignedTo := 2;
     createdBy := 2; tags := []; attachments := []; comments := [];
     isArchived := false; createdAt := 15; updatedAt := 60 |}.

(** The requests of the examples. *)
Definition search_report : query :=
  {| q_page := None; q_limit := None; q_status := None; q_priority := None;
     q_category := None; q_assignedTo := None; q_createdBy := None;
     q_isArchived := None; q_dueDate := None; q_search := Some "report";
     q_sortBy := None |}.

Definition completed_and_overdue : query :=
  {| q_page := None; q_limit := None; q_status := Some "completed";
     q_priority := None; q_category := None; q_assignedTo := None;
     q_createdBy := None; q_isArchived := None; q_dueDate := Some "overdue";
     q_search := None; q_sortBy := None |}.

Definition medium_only : query :=
  {| q_page := None; q_limit := None; q_status := None;
     q_priority := Some "medium"; q_category := None; q_assignedTo := None;
     q_createdBy := None; q_isArchived := None; q_dueDate := None;
     q_search := None; q_sortBy := None |}.

(** The bodies of the examples. *)
Definition body_reassign : gmap string jsval := {[ "assignedTo" := JId 1 ]}.
Definition body_complete : gmap string jsval :=
  {[ "status" := JStr "completed" ]}.
Definition body_reopen : gmap string jsval := {[ "status" := JStr "pending" ]}.
Definition body_comment : gmap string jsval :=
  {[ "content" := JStr "any news?" ]}.
Definition body_retitle : gmap string jsval :=
  {[ "title" := JStr "Annual report" ]}.
Definition body_retitle_reassign : gmap string jsval :=
  <["assignedTo" := JId 1]> body_retitle.
Definition body_overreach : gmap string jsval :=
  <["createdBy" := JId 1]>
    (<["completedAt" := JDate 5]> (<["colour" := JStr "red"]> body_retitle)).

(** Subjects of the token "7": carol, whose secret changed at 2000, and the
    same account once deactivated. *)
Definition carol : user :=
  {| user_id := 7; role := "user"; isActive := true;
     passwordChangedAt := Some 2000; lastLogin := None |}.
Definition carol_off : user :=
  {| user_id := 7; role := "user"; isActive := false;
     passwordChangedAt := Some 2000; lastLogin := None |}.

(** A task that bob has created and that is assigned to the user 9, who is
    not among the accounts. *)
Definition accounts : list user := [alice; bob; root].
Definition bobs_orphan : task :=
  {| _id := 13; title := "Hand-over"; description := None;
     status := "pending"; priority := "medium"; category := "general";
     dueDate := None; completedAt := None; assignedTo := 9;
     createdBy := 2; tags := []; attachments := []; comments := [];
     isArchived := false; createdAt := 10; updatedAt := 10 |}.

(** The matching documents in the order of the sort, and the page [p]. *)
Definition all_hits (regex_test : string -> string -> string -> bool)
    (now : Z) (u : user) (q : query) (db : list task) : list task :=
  sort_docs (getTasks_sort q)
    (List.filter (matches regex_test (getTasks_filter now u q)) db).


Definition one_per_page : query :=
  {| q_page := None; q_limit := Some 1; q_status := None; q_priority := None;
     q_category := None; q_assignedTo := None; q_createdBy := None;
     q_isArchived := None; q_dueDate := None; q_search := None;
     q_sortBy := None |}.


(** 5 March 2024, and two tasks of bob: one completed on 20 February 2024,
    one completed on 2 March 2024 and archived since. *)
Definition march_5 : Z := 1709596800000.
Definition done_in_february : task :=
  {| _id := 21; title := "Invoices"; description := None;
     status := "completed"; priority := "high"; category := "general";
     dueDate := None; completedAt := Some 1708387200000; assignedTo := 2;
     createdBy := 2; tags := []; attachments := []; comments := [];
     isArchived := false; createdAt := 1706745600000;
     updatedAt := 1708387200000 |}.
Definition done_in_march : task :=
  {| _id := 22; title := "Payroll"; description := None;
     status := "completed"; priority := "high"; category := "general";
     dueDate := None; completedAt := Some 1709337600000; assignedTo := 2;
     createdBy := 2; tags := []; attachments := []; comments := [];
     isArchived := true; createdAt := 1706745600000;
     updatedAt := 1709337600000 |}.

(** ** getMyTasks *)

(** Lines 362-370: the object literal, then the three optional equalities. *)
Definition getMyTasks_filter (u : user) (q : query) : gmap string fval :=
  let filter : gmap string fval :=
    <["isArchived" := Cond (Eq (BBool false))]>
      {[ "assignedTo" := Cond (Eq (BId (user_id u))) ]} in
  let filter := apply_string "status" (q_status q) filter in
  let filter := apply_string "priority" (q_priority q) filter in
  apply_string "category" (q_category q) filter.

Definition getMyTasks (regex_test : string -> string -> string -> bool)
    (u : user) (q : query) (db : list task)
  : reply (list task * pagination) :=
  let page := num_or (q_page q) 1 in
  let limit := num_or (q_limit q) 10 in
  let skip := (page - 1) * limit in
  let filter := getMyTasks_filter u q in
  match find regex_test filter ("createdAt", -1) skip limit db with
  | None => Throw "Skip value must be non-negative"
  | Some tasks =>
      let total := countDocuments regex_test filter db in
      Json 200 "Your tasks retrieved successfully"
        (tasks, {| current := page; pages := ceil_div total limit;
                   total := total; limit := limit |})
  end.

(** ** The Task model: virtuals and statics *)

(** taskSchema.virtual('duration'): days from creation to completion. *)
Definition duration (t : task) : option Z :=
  match completedAt t with
  | Some c => Some (ceil_div (c - createdAt t) day_ms)
  | None => None
  end.

(** taskSchema.virtual('isOverdue') *)
Definition isOverdue (now : Z) (t : task) : bool :=
  match dueDate t with
  | Some d =>
      if negb (String.eqb (status t) "completed")
         && negb (String.eqb (status t) "cancelled")
      then d <? now
      else false
  | None => false
  end.

(** taskSchema.virtual('daysUntilDue') *)
Definition daysUntilDue (now : Z) (t : task) : option Z :=
  match dueDate t with
  | Some d =>
      if negb (String.eqb (status t) "completed")
         && negb (String.eqb (status t) "cancelled")
      then Some (ceil_div (d - now) day_ms)
      else None
  | None => None
  end.

(** taskSchema.statics.findByUser; [filters] has the keys status, priority,
    category and dueDate of a request. *)
Definition findByUser (regex_test : string -> string -> string -> bool)
    (now : Z) (userId : Z) (filters : query) (db : list task) : list task :=
  let conditions : gmap string fval :=
    <["isArchived" := Cond (Eq (BBool false))]>
      {[ "assignedTo" := Cond (Eq (BId userId)) ]} in
  let conditions := apply_string "status" (q_status filters) conditions in
  let conditions := apply_string "priority" (q_priority filters) conditions in
  let conditions := apply_string "category" (q_category filters) conditions in
  let conditions := apply_dueDate now (q_dueDate filters) conditions in
  sort_docs ("createdAt", -1)
    (List.filter (matches regex_test conditions) db).

(** ** Authorization middleware *)

(** A middleware either calls [next()] or answers with a code. *)
Inductive gate :=
| Pass
| Deny (code : Z) (message : string).

(** middleware/auth.js, authorize(...roles) *)
Definition authorize (roles : list string) (req_user : option user) : gate :=
  match req_user with
  | None => Deny 401 "Authentication required"
  | Some u =>
      if negb (str_in (role u) roles)
      then Deny 403 "Insufficient permissions to access this resource"
      else Pass
  end.

(** ** updateProfile: the update document *)

Definition profile_allowedUpdates : list string :=
  ["username"; "email"; "profile.firstName"; "profile.lastName";
   "profile.avatar"].

(** [updates]: the keys of the top level, and [updates.profile] once it has
    been created. *)
Record profile_updates := mkProfileUpdates {
  top : gmap string jsval;
  profile : option (gmap string jsval)
}.

(** One round of the [forEach] of lines 116-127, for the key [kv.1] of the
    body and its value [kv.2]. *)
Definition updateProfile_step (updates : profile_updates)
    (kv : string * jsval) : profile_updates :=
  if str_in (fst kv) profile_allowedUpdates then
    if String.prefix "profile." (fst kv) then
      let profileKey := nth 1 (split_on "." (fst kv)) "" in
      {| top := top updates;
         profile := Some (<[profileKey := snd kv]>
                            (match profile updates with
                             | Some p => p
                             | None => empty
                             end)) |}
    else {| top := <[fst kv := snd kv]> (top updates);
            profile := profile updates |}
  else updates.

Definition updateProfile_updates (body : gmap string jsval)
  : profile_updates :=
  fold_left updateProfile_step (map_to_list body)
    {| top := empty; profile := None |}.

(** ** CORS *)

(** app.js, corsOptions.origin: [true] for [callback(null, true)], [false]
    for the error 'Not allowed by CORS'. [production] says whether NODE_ENV
    is 'production', [allowed_env] is ALLOWED_ORIGINS. *)
Definition cors_origin (production : bool) (allowed_env : option string)
    (origin : option string) : bool :=
  let allowedOrigins :=
    if given allowed_env
    then match allowed_env with
         | Some s => split_on "," s
         | None => []
         end
    else ["http://localhost:3000"; "http://localhost:3001";
          "http://localhost:5173"; "http://localhost:5174";
          "https://localhost:3000"] in
  match origin with
  | Some o =>
      if production && negb (String.eqb o "")
         && (contains ".netlify.app" o || contains ".netlify.com" o)
      then true
      else if String.eqb o "" then true
      else str_in o allowedOrigins
  | None => true
  end.

(** ** Constraints of the schema that do not depend on the clock *)

Definition schema_ok (t : task) : bool :=
  negb (String.eqb (title t) "")
  && negb (longer_than 200 (title t))
  && match description t with
     | Some s => negb (longer_than 1000 s)
     | None => true
     end
  && str_in (status t) statuses
  && str_in (priority t) priorities
  && negb (longer_than 50 (category t))
  && negb (existsb (longer_than 30) (tags t))
  && negb (existsb (fun c => String.eqb (content c) "") (comments t))
  && negb (existsb (fun c => longer_than 500 (content c)) (comments t)).

(** Newest first. *)
Definition newest_first (a b : task) : Prop := createdAt b <= createdAt a.

Definition overdue_only : query :=
  {| q_page := None; q_limit := None; q_status := None; q_priority := None;
     q_category := None; q_assignedTo := None; q_createdBy := None;
     q_isArchived := None; q_dueDate := Some "overdue"; q_search := None;
     q_sortBy := None |}.

(** A string parameter that is given is matched exactly; one that is absent
    or empty is not looked at. *)
Definition wanted (x : option string) (v : string) : bool :=
  match x with
  | Some s => if given (Some s) then String.eqb v s else true
  | None => true
  end.

(** What [limit(n)] keeps of the documents after [skip]. *)
Definition limited (limit : Z) (hits : list task) : list task :=
  if limit =? 0 then hits else take (Z.to_nat (Z.abs limit)) hits.

Definition due_today : query :=
  {| q_page := None; q_limit := None; q_status := Some "pending";
     q_priority := None; q_category := None; q_assignedTo := None;
     q_createdBy := None; q_isArchived := None; q_dueDate := Some "today";
     q_search := None; q_sortBy := None |}.

(** The sum of the counts of the groups of a [$group] stage. *)
Definition total_of (groups : list (bson * Z)) : Z :=
  fold_right Z.add 0 (List.map snd groups).

(** Whether the character [c] occurs in [s]. *)
Fixpoint occurs (c : ascii) (s : string) : bool :=
  match s with
  | EmptyString => false
  | String x r => Ascii.eqb x c || occurs c r
  end.

Definition sorted_by (s : string) : query :=
  {| q_page := None; q_limit := None; q_status := None; q_priority := None;
     q_category := None; q_assignedTo := None; q_createdBy := None;
     q_isArchived := None; q_dueDate := None; q_search := None;
     q_sortBy := Some s |}.

(** A body that asks for more than a profile may change. *)
Definition body_profile : gmap string jsval :=
  <["role" := JStr "admin"]>
    (<["profile.firstName" := JStr "Bob"]>
       (<["email" := JStr "bob@example.org"]>
          {[ "isActive" := JBool true ]})).

(** ** Properties of the query engine *)

Lemma bson_eqb_eq (a b : bson) : bson_eqb a b = true <-> a = b.
Proof.
  destruct a, b; simpl; split; intros H; try congruence; try reflexivity.
  - apply String.eqb_eq in H. congruence.
  - inversion H. apply String.eqb_refl.
  - apply Z.eqb_eq in H. congruence.
  - inversion H. apply Z.eqb_refl.
  - apply Bool.eqb_prop in H. congruence.
  - inversion H. apply Bool.eqb_reflx.
  - apply Z.eqb_eq in H. congruence.
  - inversion H. apply Z.eqb_refl.
Qed.

Section EngineFacts.

Variable regex_test : string -> string -> string -> bool.

Lemma matches_spec (f : gmap string fval) (t : task) :
  matches regex_test f t = true <->
  forall k v, f !! k = Some v -> entry_holds regex_test t k v = true.
Proof.
  unfold matches. rewrite forallb_forall. split.
  - intros H k v Hkv. apply (H (k, v)).
    apply list_elem_of_In, elem_of_map_to_list. exact Hkv.
  - intros H [k v] Hin. simpl. apply H.
    apply elem_of_map_to_list, list_elem_of_In. exact Hin.
Qed.

Lemma matches_empty (t : task) : matches regex_test empty t = true.
Proof. apply matches_spec. intros k v H. by rewrite lookup_empty in H. Qed.

(** Inserting under a fresh or an old key: the new entry holds, and so does
    every entry under another key. *)
Lemma matches_insert (f : gmap string fval) (k : string) (v : fval)
    (t : task) :
  matches regex_test (<[k := v]> f) t
  = entry_holds regex_test t k v && matches regex_test (delete k f) t.
Proof.
  apply eq_true_iff_eq. rewrite andb_true_iff, !matches_spec. split.
  - intros H. split.
    + apply H. apply lookup_insert_eq.
    + intros k' v' Hk'. apply lookup_delete_Some in Hk' as [Hne Hk'].
      apply H. by rewrite lookup_insert_ne.
  - intros [Hv H] k' v' Hk'. destruct (decide (k = k')) as [<- | Hne].
    + rewrite lookup_insert_eq in Hk'. injection Hk' as <-. exact Hv.
    + rewrite lookup_insert_ne in Hk' by done. apply H.
      by apply lookup_delete_Some.
Qed.

End EngineFacts.

(** *** The stages of the filter, key by key *)

Lemma apply_string_other (key k : string) (x : option string)
    (f : gmap string fval) :
  key <> k -> apply_string key x f !! k = f !! k.
Proof.
  intros Hne. unfold apply_string. destruct x as [s|]; [|done].
  destruct (given (Some s)); [|done]. by rewrite lookup_insert_ne.
Qed.

Lemma apply_string_given (key s : string) (f : gmap string fval) :
  s <> "" -> apply_string key (Some s) f !! key = Some (Cond (Eq (BStr s))).
Proof.
  intros Hs. unfold apply_string, given.
  apply String.eqb_neq in Hs. rewrite Hs. simpl. apply lookup_insert_eq.
Qed.

Lemma apply_id_other (key k : string) (x : option Z) (f : gmap string fval) :
  key <> k -> apply_id key x f !! k = f !! k.
Proof.
  intros Hne. unfold apply_id. destruct x; [|done].
  by rewrite lookup_insert_ne.
Qed.

Lemma apply_id_given (key : string) (i : Z) (f : gmap string fval) :
  apply_id key (Some i) f !! key = Some (Cond (Eq (BId i))).
Proof. apply lookup_insert_eq. Qed.

Lemma apply_isArchived_other (k : string) (x : option string)
    (f : gmap string fval) :
  "isArchived" <> k -> apply_isArchived x f !! k = f !! k.
Proof.
  intros Hne. unfold apply_isArchived. destruct x; [|done].
  by rewrite lookup_insert_ne.
Qed.

Lemma apply_isArchived_given (s : string) (f : gmap string fval) :
  apply_isArchived (Some s) f !! "isArchived"
  = Some (Cond (Eq (BBool (String.eqb s "true")))).
Proof. apply lookup_insert_eq. Qed.

Lemma apply_dueDate_other (now : Z) (k : string) (x : option string)
    (f : gmap string fval) :
  "status" <> k -> "dueDate" <> k -> apply_dueDate now x f !! k = f !! k.
Proof.
  intros H1 H2. unfold apply_dueDate.
  destruct (given x); [|done].
  destruct (bool_decide (x = Some "overdue")).
  - by rewrite !lookup_insert_ne.
  - destruct (bool_decide (x = Some "today")); [|done].
    by rewrite lookup_insert_ne.
Qed.

(** The keyword 'overdue' assigns to the key "status" whatever is there. *)
Lemma apply_dueDate_overdue (now : Z) (f : gmap string fval) :
  apply_dueDate now (Some "overdue") f
  = <["status" := Cond (Nin ["completed"; "cancelled"])]>
      (<["dueDate" := Cond (Lt now)]> f).
Proof. reflexivity. Qed.

Lemma apply_dueDate_status (now : Z) (x : option string)
    (f : gmap string fval) :
  x <> Some "overdue" -> apply_dueDate now x f !! "status" = f !! "status".
Proof.
  intros Hx. unfold apply_dueDate.
  destruct (given x); [|done].
  rewrite bool_decide_eq_false_2 by done.
  destruct (bool_decide (x = Some "today")); [|done].
  by rewrite lookup_insert_ne.
Qed.

Lemma apply_search_other (k : string) (x : option string)
    (f : gmap string fval) :
  "$or" <> k -> apply_search x f !! k = f !! k.
Proof.
  intros Hne. unfold apply_search. destruct x as [s|]; [|done].
  destruct (given (Some s)); [|done]. by rewrite lookup_insert_ne.
Qed.

Lemma apply_search_absent (x : option string) (f : gmap string fval) :
  given x = false -> apply_search x f = f.
Proof.
  intros H. unfold apply_search. destruct x as [s|]; [|done]. by rewrite H.
Qed.

(** The search term assigns to the key "$or" whatever is there. *)
Lemma apply_search_given (s : string) (f : gmap string fval) :
  s <> "" ->
  apply_search (Some s) f !! "$or"
  = Some (AnyOf [("title", Regex s "i"); ("description", Regex s "i");
                 ("category", Regex s "i")]).
Proof.
  intros Hs. unfold apply_search, given.
  apply String.eqb_neq in Hs. rewrite Hs. simpl. apply lookup_insert_eq.
Qed.

Lemma matchQuery_or (u : user) :
  matchQuery u !! "$or"
  = if String.eqb (role u) "admin" then None
    else Some (AnyOf [("assignedTo", Eq (BId (user_id u)));
                      ("createdBy", Eq (BId (user_id u)))]).
Proof.
  unfold matchQuery. destruct (String.eqb (role u) "admin"); simpl.
  - apply lookup_empty.
  - apply lookup_singleton_eq.
Qed.

Lemma matchQuery_other (u : user) (k : string) :
  "$or" <> k -> matchQuery u !! k = None.
Proof.
  intros Hne. unfold matchQuery. destruct (negb _).
  - by rewrite lookup_singleton_ne.
  - apply lookup_empty.
Qed.

(** Without a search term the key "$or" still holds what lines 54-61 put
    there. *)
Lemma getTasks_filter_or_no_search (now : Z) (u : user) (q : query) :
  given (q_search q) = false ->
  getTasks_filter now u q !! "$or" = matchQuery u !! "$or".
Proof.
  intros Hs. unfold getTasks_filter. cbv zeta.
  rewrite apply_search_absent by done.
  rewrite apply_dueDate_other, apply_isArchived_other by done.
  rewrite !apply_id_other, !apply_string_other by done.
  reflexivity.
Qed.

(** With a search term the key "$or" holds the three patterns, for every
    caller: the ownership alternatives are gone. *)
Lemma getTasks_filter_or_search (now : Z) (u : user) (q : query) (s : string) :
  q_search q = Some s -> s <> "" ->
  getTasks_filter now u q !! "$or"
  = Some (AnyOf [("title", Regex s "i"); ("description", Regex s "i");
                 ("category", Regex s "i")]).
Proof.
  intros Hq Hs. unfold getTasks_filter. cbv zeta. rewrite Hq.
  by apply apply_search_given.
Qed.

(** *** Sorting permutes, and the page is part of the matching documents *)

Lemma sort_insert_perm (sortBy : string * Z) (x : task) (l : list task) :
  Permutation (sort_insert sortBy x l) (x :: l).
Proof.
  induction l as [|y r IH]; simpl; [reflexivity|].
  destruct (sort_leb sortBy x y); [reflexivity|].
  rewrite IH. apply perm_swap.
Qed.

Lemma sort_docs_perm (sortBy : string * Z) (l : list task) :
  Permutation (sort_docs sortBy l) l.
Proof.
  induction l as [|x r IH]; simpl; [reflexivity|].
  rewrite sort_insert_perm. by apply perm_skip.
Qed.

Lemma sort_docs_length (sortBy : string * Z) (l : list task) :
  length (sort_docs sortBy l) = length l.
Proof. apply Permutation_length, sort_docs_perm. Qed.

Lemma In_take {A : Type} (n : nat) (l : list A) (x : A) :
  In x (take n l) -> In x l.
Proof.
  intros H. rewrite <- (firstn_skipn n l). apply in_or_app. by left.
Qed.

Lemma In_drop {A : Type} (n : nat) (l : list A) (x : A) :
  In x (drop n l) -> In x l.
Proof.
  intros H. rewrite <- (firstn_skipn n l). apply in_or_app. by right.
Qed.

Lemma find_In (regex_test : string -> string -> string -> bool)
    (f : gmap string fval) (sortBy : string * Z) (skip limit : Z)
    (db tasks : list task) (t : task) :
  find regex_test f sortBy skip limit db = Some tasks -> In t tasks ->
  In t db /\ matches regex_test f t = true.
Proof.
  unfold find. destruct (skip <? 0); [discriminate|].
  intros [= <-] Hin. apply filter_In.
  apply (Permutation_in _ (sort_docs_perm sortBy _)).
  apply (In_drop (Z.to_nat skip)).
  destruct (limit =? 0); [exact Hin|]. by apply In_take in Hin.
Qed.

(** Every task of a page is in the collection and matches the filter. *)
Lemma getTasks_In (regex_test : string -> string -> string -> bool)
    (now : Z) (u : user) (q : query) (db : list task) (t : task) :
  In t (reply_tasks (getTasks regex_test now u q db)) ->
  In t db /\ matches regex_test (getTasks_filter now u q) t = true.
Proof.
  unfold getTasks. cbv zeta.
  destruct (find _ _ _ _ _ db) as [tasks|] eqn:Hfind; simpl; [|tauto].
  intros Hin. eapply find_In; eassumption.
Qed.

(** *** getTasks: ownership scope *)

Lemma field_of_status (t : task) : field_of t "status" = BStr (status t).
Proof. reflexivity. Qed.
Lemma field_of_priority (t : task) : field_of t "priority" = BStr (priority t).
Proof. reflexivity. Qed.
Lemma field_of_category (t : task) : field_of t "category" = BStr (category t).
Proof. reflexivity. Qed.
Lemma field_of_assignedTo (t : task) :
  field_of t "assignedTo" = BId (assignedTo t).
Proof. reflexivity. Qed.
Lemma field_of_createdBy (t : task) :
  field_of t "createdBy" = BId (createdBy t).
Proof. reflexivity. Qed.
Lemma field_of_isArchived (t : task) :
  field_of t "isArchived" = BBool (isArchived t).
Proof. reflexivity. Qed.
Lemma field_of_dueDate (t : task) :
  field_of t "dueDate"
  = match dueDate t with Some d => BDate d | None => BNull end.
Proof. reflexivity. Qed.
Lemma field_of_completedAt (t : task) :
  field_of t "completedAt"
  = match completedAt t with Some d => BDate d | None => BNull end.
Proof. reflexivity. Qed.

(** The two ownership alternatives hold exactly on the tasks of the scope. *)
Lemma matchQuery_scope (regex_test : string -> string -> string -> bool)
    (u : user) (t : task) :
  matches regex_test (matchQuery u) t = ownership_scope u t.
Proof.
  unfold matchQuery, ownership_scope.
  destruct (String.eqb (role u) "admin"); simpl.
  - apply matches_empty.
  - unfold matches. rewrite map_to_list_singleton. simpl.
    destruct (assignedTo t =? user_id u), (createdBy t =? user_id u);
      reflexivity.
Qed.

(** Without a search term the list is within the ownership scope of the
    caller, whatever the other parameters are. *)
Lemma getTasks_scope_without_search
    (regex_test : string -> string -> string -> bool)
    (now : Z) (u : user) (q : query) (db : list task) (t : task) :
  given (q_search q) = false ->
  In t (reply_tasks (getTasks regex_test now u q db)) ->
  ownership_scope u t = true.
Proof.
  intros Hs Hin. apply getTasks_In in Hin as [_ Hm].
  pose proof (getTasks_filter_or_no_search now u q Hs) as Hor.
  rewrite matchQuery_or in Hor. unfold ownership_scope.
  destruct (String.eqb (role u) "admin"); [done|]. simpl.
  rewrite matches_spec in Hm. specialize (Hm _ _ Hor). simpl in Hm.
  by rewrite orb_false_r in Hm.
Qed.

(** For an admin no entry of the filter mentions ownership unless the
    request asks for it: without parameters every task is listed. *)
Lemma getTasks_admin_unrestricted
    (regex_test : string -> string -> string -> bool)
    (now : Z) (u : user) (t : task) :
  role u = "admin" ->
  matches regex_test (getTasks_filter now u no_query) t = true.
Proof.
  intros Hr. unfold getTasks_filter, matchQuery. rewrite Hr. simpl.
  apply matches_empty.
Qed.

(** C1, as the code has it: alice, who is not an admin, searches for
    "report" and gets the task that bob created and is assigned to. The
    search term has replaced the ownership alternatives under the key "$or",
    so the list is not restricted to the tasks of the caller. *)
Theorem getTasks_search_lists_foreign_task :
  role alice <> "admin" /\
  ownership_scope alice bobs_report = false /\
  getTasks literal_regex 100 alice search_report [bobs_report]
  = Json 200 "Tasks retrieved successfully"
      ([bobs_report],
       {| current := 1; pages := 1; total := 1; limit := 10 |}).
Proof. split; [discriminate|]. split; vm_compute; reflexivity. Qed.

(** *** getTasks: equality filters *)

Ltac peel_stages :=
  rewrite ?apply_search_other by done;
  rewrite ?apply_dueDate_other by done;
  rewrite ?apply_isArchived_other by done;
  rewrite ?apply_id_other by done;
  rewrite ?apply_string_other by done.

Lemma getTasks_filter_priority (now : Z) (u : user) (q : query) (s : string) :
  q_priority q = Some s -> s <> "" ->
  getTasks_filter now u q !! "priority" = Some (Cond (Eq (BStr s))).
Proof.
  intros Hq Hs. unfold getTasks_filter. cbv zeta. peel_stages.
  rewrite Hq. by apply apply_string_given.
Qed.

Lemma getTasks_filter_category (now : Z) (u : user) (q : query) (s : string) :
  q_category q = Some s -> s <> "" ->
  getTasks_filter now u q !! "category" = Some (Cond (Eq (BStr s))).
Proof.
  intros Hq Hs. unfold getTasks_filter. cbv zeta. peel_stages.
  rewrite Hq. by apply apply_string_given.
Qed.

Lemma getTasks_filter_assignedTo (now : Z) (u : user) (q : query) (i : Z) :
  q_assignedTo q = Some i ->
  getTasks_filter now u q !! "assignedTo" = Some (Cond (Eq (BId i))).
Proof.
  intros Hq. unfold getTasks_filter. cbv zeta. peel_stages.
  rewrite Hq. apply apply_id_given.
Qed.

Lemma getTasks_filter_createdBy (now : Z) (u : user) (q : query) (i : Z) :
  q_createdBy q = Some i ->
  getTasks_filter now u q !! "createdBy" = Some (Cond (Eq (BId i))).
Proof.
  intros Hq. unfold getTasks_filter. cbv zeta. peel_stages.
  rewrite Hq. apply apply_id_given.
Qed.

Lemma getTasks_filter_isArchived (now : Z) (u : user) (q : query)
    (s : string) :
  q_isArchived q = Some s ->
  getTasks_filter now u q !! "isArchived"
  = Some (Cond (Eq (BBool (String.eqb s "true")))).
Proof.
  intros Hq. unfold getTasks_filter. cbv zeta. peel_stages.
  rewrite Hq. apply apply_isArchived_given.
Qed.

Lemma getTasks_filter_status (now : Z) (u : user) (q : query) (s : string) :
  q_status q = Some s -> s <> "" -> q_dueDate q <> Some "overdue" ->
  getTasks_filter now u q !! "status" = Some (Cond (Eq (BStr s))).
Proof.
  intros Hq Hs Hd. unfold getTasks_filter. cbv zeta.
  rewrite apply_search_other by done.
  rewrite apply_dueDate_status by done. peel_stages.
  rewrite Hq. by apply apply_string_given.
Qed.

(** Under the keyword 'overdue' the key "status" holds the exclusion of the
    closed statuses, whatever status the request asked for. *)
Lemma getTasks_filter_overdue (now : Z) (u : user) (q : query) :
  q_dueDate q = Some "overdue" ->
  getTasks_filter now u q !! "status"
  = Some (Cond (Nin ["completed"; "cancelled"]))
  /\ getTasks_filter now u q !! "dueDate" = Some (Cond (Lt now)).
Proof.
  intros Hd. unfold getTasks_filter. cbv zeta.
  rewrite !apply_search_other by done.
  rewrite Hd, apply_dueDate_overdue. split.
  - apply lookup_insert_eq.
  - rewrite lookup_insert_ne by done. apply lookup_insert_eq.
Qed.

(** X25: in every list that getTasks returns, each task has the priority,
    the category, the assignee, the creator and the archive flag that the
    request gives (a parameter that is an empty string is not given),
    whatever other parameters are present; it has the status that the
    request gives when the due-date keyword is not 'overdue', and under
    'overdue' it is due before now and neither completed nor cancelled. *)
Theorem getTasks_equality_filters
    (regex_test : string -> string -> string -> bool)
    (now : Z) (u : user) (q : query) (db : list task) (t : task) :
  In t (reply_tasks (getTasks regex_test now u q db)) ->
  (forall s, q_priority q = Some s -> s <> "" -> priority t = s) /\
  (forall s, q_category q = Some s -> s <> "" -> category t = s) /\
  (forall i, q_assignedTo q = Some i -> assignedTo t = i) /\
  (forall i, q_createdBy q = Some i -> createdBy t = i) /\
  (forall s, q_isArchived q = Some s -> isArchived t = String.eqb s "true") /\
  (forall s, q_status q = Some s -> s <> "" ->
             q_dueDate q <> Some "overdue" -> status t = s) /\
  (q_dueDate q = Some "overdue" -> overdue_at now t = true).
Proof.
  intros Hin. apply getTasks_In in Hin as [_ Hm].
  rewrite matches_spec in Hm.
  repeat split.
  - intros s Hq Hs.
    specialize (Hm _ _ (getTasks_filter_priority now u q s Hq Hs)).
    simpl in Hm. by apply String.eqb_eq.
  - intros s Hq Hs.
    specialize (Hm _ _ (getTasks_filter_category now u q s Hq Hs)).
    simpl in Hm. by apply String.eqb_eq.
  - intros i Hq.
    specialize (Hm _ _ (getTasks_filter_assignedTo now u q i Hq)).
    simpl in Hm. by apply Z.eqb_eq.
  - intros i Hq.
    specialize (Hm _ _ (getTasks_filter_createdBy now u q i Hq)).
    simpl in Hm. by apply Z.eqb_eq.
  - intros s Hq.
    specialize (Hm _ _ (getTasks_filter_isArchived now u q s Hq)).
    simpl in Hm. by apply Bool.eqb_prop.
  - intros s Hq Hs Hd.
    specialize (Hm _ _ (getTasks_filter_status now u q s Hq Hs Hd)).
    simpl in Hm. by apply String.eqb_eq.
  - intros Hd. destruct (getTasks_filter_overdue now u q Hd) as [H1 H2].
    pose proof (Hm _ _ H1) as Hs. pose proof (Hm _ _ H2) as Hdue.
    unfold entry_holds, cond_holds in Hs, Hdue.
    rewrite field_of_status in Hs. rewrite field_of_dueDate in Hdue.
    simpl in Hs. unfold overdue_at.
    destruct (dueDate t) as [d|]; [|discriminate]. rewrite Hdue. simpl.
    rewrite orb_false_r in Hs. apply negb_true_iff, orb_false_iff in Hs.
    destruct Hs as [-> ->]. reflexivity.
Qed.

Lemma getTasks_equality_filters_witness :
  In bobs_report
     (reply_tasks (getTasks literal_regex 100 root medium_only [bobs_report]))
  /\ priority bobs_report = "medium".
Proof.
  assert (Hin : In bobs_report
                  (reply_tasks
                     (getTasks literal_regex 100 root medium_only
                        [bobs_report]))).
  { vm_compute. left. reflexivity. }
  split; [exact Hin|].
  destruct (getTasks_equality_filters literal_regex 100 root medium_only
              [bobs_report] bobs_report Hin) as (Hp & _).
  apply (Hp "medium"); [reflexivity | discriminate].
Defined.

(** C5, as the code has it: the admin asks for the tasks of status
    'completed' that are overdue. Line 64 puts the equality under the key
    "status" and line 75 assigns to the same key, so the filter that is
    run has the exclusion of the closed statuses there and no equality: the
    answer 200 lists a pending task, and the completed task that is due
    before now is left out. The status that the request gives is not
    conjoined into the predicate in the presence of the keyword. *)
Theorem status_equality_lost_under_overdue :
  q_status completed_and_overdue = Some "completed" /\
  q_dueDate completed_and_overdue = Some "overdue" /\
  getTasks_filter 100 root completed_and_overdue !! "status"
  = Some (Cond (Nin ["completed"; "cancelled"])) /\
  status bobs_report = "pending" /\
  status late_done = "completed" /\ dueDate late_done = Some 50 /\
  getTasks literal_regex 100 root completed_and_overdue
    [bobs_report; late_done]
  = Json 200 "Tasks retrieved successfully"
      ([bobs_report],
       {| current := 1; pages := 1; total := 1; limit := 10 |}).
Proof. repeat split; vm_compute; reflexivity. Qed.

(** ** Access control *)


(** C6, as the code has it: bob, of role 'user', has created the task 13,
    which is assigned to a user that does not exist. canModify grants, and
    bob can update the task, comment on it and delete it; but getTask reads
    [_id] of the assignee that populate has made null, and throws where the
    ownership gate answers 200. For every caller who is not an admin, a
    task whose assignee does not exist cannot be read, and neither can one
    whose creator does not exist unless the caller is its assignee. *)
Theorem getTask_throws_where_canModify_grants :
  (role bob <> "admin" /\
   createdBy bobs_orphan = user_id bob /\
   findUser (assignedTo bobs_orphan) accounts = None /\
   canModify bobs_orphan (user_id bob) (role bob) = true /\
   access_denied bob bobs_orphan = false /\
   getTask bob 13 accounts [bobs_orphan] = Throw type_error /\
   is_json (fst (updateTask 20 bob 13 body_retitle [bobs_orphan])) = true /\
   is_json (fst (addComment 20 bob 13 body_comment [bobs_orphan])) = true /\
   deleteTask bob 13 [bobs_orphan]
   = (Json 200 "Task deleted successfully" tt, [])) /\
  (forall (u : user) (id : Z) (users : list user) (db : list task)
          (t : task),
     findById id db = Some t ->
     role u <> "admin" ->
     (findUser (assignedTo t) users = None ->
      getTask u id users db = Throw type_error) /\
     (findUser (createdBy t) users = None ->
      is_Some (findUser (assignedTo t) users) ->
      assignedTo t <> user_id u ->
      getTask u id users db = Throw type_error)).
Proof.
  split.
  - split; [discriminate|]. repeat split; vm_compute; reflexivity.
  - intros u id users db t Hf Hr. apply String.eqb_neq in Hr.
    unfold getTask, populate. rewrite Hf, Hr. simpl. split.
    + by intros ->.
    + intros -> [a Ha] Hne. rewrite Ha.
      apply find_some in Ha as [_ Ha]. apply Z.eqb_eq in Ha. rewrite Ha.
      apply Z.eqb_neq in Hne. by rewrite Hne.
Qed.

(** C3: a caller who is not an admin and submits an assignedTo that names
    another identity than the caller (createTask) or than the assignee of
    the stored task (updateTask) is answered 403, and the collection is what
    it was: nothing is created, nothing is updated. *)
Theorem reassignment_by_non_admin_forbidden
    (now new_id id : Z) (u : user) (body : gmap string jsval)
    (db : list task) (task : task) (i : Z) :
  role u <> "admin" ->
  body !! "assignedTo" = Some (JId i) ->
  (i <> user_id u ->
   createTask now new_id u body db
   = (Refuse 403 "Only admins can assign tasks to other users", db)) /\
  (findById id db = Some task -> i <> assignedTo task ->
   exists m, updateTask now u id body db = (Refuse 403 m, db)).
Proof.
  intros Hrole Hbody. apply String.eqb_neq in Hrole. split.
  - intros Hne. unfold createTask. cbv zeta. rewrite Hbody, Hrole. simpl.
    assert ((user_id u =? i) = false) as -> by (apply Z.eqb_neq; congruence).
    reflexivity.
  - intros Hfind Hne. unfold updateTask. rewrite Hfind, Hbody, Hrole.
    destruct (canModify task (user_id u) (role u)); simpl.
    + assert ((assignedTo task =? i) = false) as ->
        by (apply Z.eqb_neq; congruence).
      simpl. eauto.
    + eauto.
Qed.

Lemma reassignment_by_non_admin_forbidden_witness :
  createTask 100 99 bob body_reassign [bobs_report]
  = (Refuse 403 "Only admins can assign tasks to other users", [bobs_report])
  /\ exists m, updateTask 100 bob 11 body_reassign [bobs_report]
               = (Refuse 403 m, [bobs_report]).
Proof.
  assert (Hrole : role bob <> "admin") by discriminate.
  assert (Hbody : body_reassign !! "assignedTo" = Some (JId 1))
    by reflexivity.
  destruct (reassignment_by_non_admin_forbidden 100 99 11 bob body_reassign
              [bobs_report] bobs_report 1 Hrole Hbody) as [Hc Hu].
  split.
  - apply Hc. simpl. lia.
  - apply Hu; [reflexivity | simpl; lia].
Defined.

(** ** Saving and the middleware of the schema *)

Lemma res_bind_Ok {A B : Type} (c : res A) (k : A -> res B) (b : B) :
  res_bind c k = Ok b -> exists a, c = Ok a /\ k a = Ok b.
Proof. destruct c as [a|m]; simpl; [eauto | discriminate]. Qed.

Lemma pre_save_completedAt_dueDate (now : Z) (sm : bool) (t : task) :
  dueDate (pre_save_completedAt now sm t) = dueDate t.
Proof.
  unfold pre_save_completedAt. destruct sm; [|reflexivity].
  destruct (_ && _); [reflexivity|]. by destruct (negb _).
Qed.

(** The second hook refuses every save of a task whose due date is not
    strictly in the future. *)
Lemma save_doc_due (now : Z) (sm : bool) (t : task) (d : Z) :
  dueDate t = Some d -> d <= now -> exists m, save_doc now sm t = Err m.
Proof.
  intros Hd Hle. unfold save_doc.
  destruct (validate now t) as [[]|m]; simpl; [|eauto].
  unfold pre_save_dueDate. rewrite pre_save_completedAt_dueDate, Hd.
  assert ((d <=? now) = true) as -> by (by apply Z.leb_le).
  simpl. eauto.
Qed.

(** The first hook makes completedAt agree with a status that was set. *)
Lemma pre_save_completedAt_agrees (now : Z) (t : task) :
  completedAt_agrees (pre_save_completedAt now true t).
Proof.
  unfold pre_save_completedAt, completedAt_agrees.
  destruct (String.eqb (status t) "completed") eqn:Hs; simpl.
  - apply String.eqb_eq in Hs.
    destruct (completedAt t) as [c|] eqn:Hc; simpl.
    + rewrite Hc. split; [done | eauto].
    + split; [done | eauto].
  - apply String.eqb_neq in Hs. simpl. split; [|done].
    intros [c Hc]. discriminate.
Qed.

(** ** addComment *)

(** C10: when the stored task has a due date that is not strictly in the
    future at the time of the call, addComment does not succeed: the answer
    is not a success, and it is an exception when the caller has access to
    the task; the collection, and with it the list of comments of the task,
    is unchanged. *)
Theorem addComment_fails_once_due
    (now : Z) (u : user) (id : Z) (body : gmap string jsval)
    (db : list task) (task : task) (d : Z) :
  findById id db = Some task ->
  dueDate task = Some d ->
  d <= now ->
  is_json (fst (addComment now u id body db)) = false /\
  snd (addComment now u id body db) = db /\
  findById id (snd (addComment now u id body db)) = Some task /\
  (access_denied u task = false ->
   exists m, fst (addComment now u id body db) = Throw m).
Proof.
  intros Hfind Hd Hle.
  assert (Hadd : exists m,
             Task_addComment now task (body !! "content") (user_id u) = Err m).
  { unfold Task_addComment.
    destruct (comment_content_path (body !! "content")) as [c|m]; simpl;
      [|eauto].
    eapply save_doc_due; [|exact Hle]. exact Hd. }
  destruct Hadd as [m Hadd].
  unfold addComment. rewrite Hfind, Hadd.
  destruct (access_denied u task); simpl; rewrite ?Hfind; repeat split;
    try done; eauto.
Qed.

Lemma addComment_fails_once_due_witness :
  is_json (fst (addComment 100 bob 11 body_comment [bobs_report])) = false /\
  snd (addComment 100 bob 11 body_comment [bobs_report]) = [bobs_report] /\
  findById 11 (snd (addComment 100 bob 11 body_comment [bobs_report]))
  = Some bobs_report /\
  (access_denied bob bobs_report = false ->
   exists m, fst (addComment 100 bob 11 body_comment [bobs_report]) = Throw m).
Proof.
  apply (addComment_fails_once_due 100 bob 11 body_comment [bobs_report]
           bobs_report 50).
  - reflexivity.
  - reflexivity.
  - lia.
Defined.

(** While the due date is in the future, the same request succeeds and the
    comment is appended. *)
Lemma addComment_before_due :
  addComment 40 bob 11 body_comment [bobs_report]
  = (Json 201 "Comment added successfully"
       {| content := "any news?"; author := 2; comment_createdAt := 40 |},
     [set_updatedAt 40
        (set_comments
           [{| content := "any news?"; author := 2;
               comment_createdAt := 40 |}] bobs_report)]).
Proof. vm_compute. reflexivity. Qed.

(** ** createTask and updateTask: status and completedAt *)

Ltac bind_inv H :=
  repeat (let a := fresh "v" in
          let Ha := fresh "Hv" in
          apply res_bind_Ok in H as (a & Ha & H)).

Lemma build_doc_inv (now new_id : Z) (data : gmap string jsval) (doc : task) :
  build_doc now new_id data = Ok doc ->
  completedAt doc = None /\
  path_or (data !! "status") status_path "pending" = Ok (status doc) /\
  dueDate_valid now (dueDate doc) = true.
Proof.
  intros H. unfold build_doc in H. bind_inv H. injection H as <-. simpl.
  repeat split; try assumption.
  unfold path_or, dueDate_path in Hv4.
  destruct (data !! "dueDate") as [[]|]; try discriminate;
    try (injection Hv4 as <-; reflexivity).
  destruct (dueDate_valid now (Some d)) eqn:E; [|discriminate].
  by injection Hv4 as <-.
Qed.

Lemma save_doc_inv (now : Z) (sm : bool) (t t' : task) :
  save_doc now sm t = Ok t' ->
  t' = set_updatedAt now (pre_save_completedAt now sm t).
Proof.
  unfold save_doc. intros H. bind_inv H. injection H as <-.
  unfold pre_save_dueDate in Hv0.
  destruct (dueDate _) as [d|]; [|congruence].
  destruct (d <=? now); [discriminate|congruence].
Qed.

(** On the path of createTask the derivation holds: the task that is
    created has a completedAt exactly when its status is 'completed'. *)
Lemma createTask_completedAt_agrees (now new_id : Z) (u : user)
    (body : gmap string jsval) (db : list task) (code : Z) (m : string)
    (t : task) (db' : list task) :
  createTask now new_id u body db = (Json code m t, db') ->
  completedAt_agrees t /\ db' = (db ++ [t])%list.
Proof.
  unfold createTask. cbv zeta. destruct (_ && _ && _); [discriminate|].
  match goal with
  | |- context [Task_create now new_id ?d db] => set (data := d)
  end.
  unfold Task_create.
  destruct (build_doc now new_id data) as [doc|e] eqn:Hb; simpl;
    [|discriminate].
  destruct (save_doc now _ doc) as [doc'|e] eqn:Hs; simpl; [|discriminate].
  intros [= _ _ <- <-]. split; [|reflexivity].
  apply save_doc_inv in Hs. subst doc'.
  apply build_doc_inv in Hb as (Hc & Hst & _).
  destruct (data !! "status") as [v|] eqn:Hv.
  - rewrite bool_decide_eq_true_2 by eauto.
    apply (pre_save_completedAt_agrees now doc).
  - rewrite bool_decide_eq_false_2 by (intros [? ?]; discriminate).
    simpl in *. injection Hst as Hst. unfold completedAt_agrees. simpl.
    rewrite Hc, <- Hst. split; [intros [? ?]|]; discriminate.
Qed.

(** C2, as the code has it: bob sets the status of his pending task to
    'completed' through updateTask; the stored task is completed and its
    completedAt is still null. He then sets the status of a completed task
    back to 'pending'; its completedAt is still the date of completion.
    updateTask writes through findByIdAndUpdate, which does not run the
    pre-save hook that derives completedAt, and completedAt is not a field
    the caller can write. *)
Theorem updateTask_status_without_completedAt :
  (exists t',
     updateTask 100 bob 11 body_complete [bobs_report]
     = (Json 200 "Task updated successfully" t', [t'])
     /\ status t' = "completed" /\ completedAt t' = None) /\
  (exists t',
     updateTask 100 bob 12 body_reopen [bobs_done]
     = (Json 200 "Task updated successfully" t', [t'])
     /\ status t' = "pending" /\ completedAt t' = Some 30).
Proof.
  split; eexists; (split; [vm_compute; reflexivity|]);
    split; reflexivity.
Qed.

(** ** updateTask: the fields that are written *)

Lemma update_doc_inv (now : Z) (updates : gmap string jsval) (t t' : task) :
  update_doc now updates t = Ok t' ->
  (path_or (updates !! "title") title_path (title t) = Ok (title t') /\
   path_or (updates !! "description") description_path (description t)
   = Ok (description t') /\
   path_or (updates !! "status") status_path (status t) = Ok (status t') /\
   path_or (updates !! "priority") priority_path (priority t)
   = Ok (priority t') /\
   path_or (updates !! "category") category_path (category t)
   = Ok (category t') /\
   path_or (updates !! "dueDate") (dueDate_path now) (dueDate t)
   = Ok (dueDate t')) /\
  (path_or (updates !! "completedAt") completedAt_path (completedAt t)
   = Ok (completedAt t') /\
   path_or (updates !! "assignedTo")
     (ref_path "Task must be assigned to a user") (assignedTo t)
   = Ok (assignedTo t') /\
   path_or (updates !! "createdBy") (ref_path "Task must have a creator")
     (createdBy t)
   = Ok (createdBy t') /\
   path_or (updates !! "tags") tags_path (tags t) = Ok (tags t') /\
   path_or (updates !! "isArchived") isArchived_path (isArchived t)
   = Ok (isArchived t')) /\
  (_id t' = _id t /\ attachments t' = attachments t /\
   comments t' = comments t /\ createdAt t' = createdAt t /\
   updatedAt t' = now).
Proof.
  intros H. unfold update_doc in H. bind_inv H. injection H as <-. simpl.
  repeat split; assumption.
Qed.

Lemma path_or_absent {A : Type} (check : jsval -> res A) (old v : A) :
  path_or None check old = Ok v -> v = old.
Proof. simpl. congruence. Qed.

(** [updates] has the keys of the body that are in the allow-list. *)
Lemma updates_lookup (allowed : list string) (body : gmap string jsval)
    (k : string) :
  filter (fun kv : string * jsval => str_in (fst kv) allowed = true) body !! k
  = if str_in k allowed then body !! k else None.
Proof.
  destruct (str_in k allowed) eqn:Hk.
  - destruct (body !! k) as [v|] eqn:Hb.
    + apply map_lookup_filter_Some. by split.
    + apply map_lookup_filter_None. by left.
  - apply map_lookup_filter_None. right. intros v _. simpl. congruence.
Qed.

Lemma updates_idempotent (allowed : list string) (body : gmap string jsval) :
  filter (fun kv : string * jsval => str_in (fst kv) allowed = true)
    (filter (fun kv : string * jsval => str_in (fst kv) allowed = true) body)
  = filter (fun kv : string * jsval => str_in (fst kv) allowed = true) body.
Proof.
  apply map_eq. intros k. rewrite !updates_lookup.
  by destruct (str_in k allowed).
Qed.

Lemma allowedUpdates_frame (u : user) :
  str_in "_id" (allowedUpdates u) = false /\
  str_in "completedAt" (allowedUpdates u) = false /\
  str_in "createdBy" (allowedUpdates u) = false /\
  str_in "createdAt" (allowedUpdates u) = false /\
  str_in "updatedAt" (allowedUpdates u) = false /\
  str_in "comments" (allowedUpdates u) = false /\
  str_in "attachments" (allowedUpdates u) = false /\
  str_in "assignedTo" (allowedUpdates u) = String.eqb (role u) "admin".
Proof.
  unfold allowedUpdates. by destruct (String.eqb (role u) "admin").
Qed.

Ltac field_case k E :=
  match goal with
  | |- context [String.eqb k ?lit] =>
      destruct (String.eqb k lit) eqn:E;
      [apply String.eqb_eq in E; subst k | clear E]
  end.

(** A path that is not in [updates] keeps its stored value. *)
Lemma update_doc_keeps (now : Z) (updates : gmap string jsval) (t t' : task)
    (k : string) :
  update_doc now updates t = Ok t' ->
  k <> "updatedAt" -> updates !! k = None ->
  field_of t' k = field_of t k.
Proof.
  intros H Hk Hup.
  apply update_doc_inv in H
    as ((H1 & H2 & H3 & H4 & H5 & H6) & (H7 & H8 & H9 & H10 & H11)
        & (I1 & I2 & I3 & I4 & I5)).
  unfold field_of.
  field_case k E. { by rewrite I1. }
  field_case k E. { rewrite Hup in H1. by rewrite (path_or_absent _ _ _ H1). }
  field_case k E. { rewrite Hup in H2. by rewrite (path_or_absent _ _ _ H2). }
  field_case k E. { rewrite Hup in H3. by rewrite (path_or_absent _ _ _ H3). }
  field_case k E. { rewrite Hup in H4. by rewrite (path_or_absent _ _ _ H4). }
  field_case k E. { rewrite Hup in H5. by rewrite (path_or_absent _ _ _ H5). }
  field_case k E. { rewrite Hup in H6. by rewrite (path_or_absent _ _ _ H6). }
  field_case k E. { rewrite Hup in H7. by rewrite (path_or_absent _ _ _ H7). }
  field_case k E. { rewrite Hup in H8. by rewrite (path_or_absent _ _ _ H8). }
  field_case k E. { rewrite Hup in H9. by rewrite (path_or_absent _ _ _ H9). }
  field_case k E.
  { rewrite Hup in H11. by rewrite (path_or_absent _ _ _ H11). }
  field_case k E. { by rewrite I4. }
  field_case k E. { done. }
  reflexivity.
Qed.

(** C9, as amended. For a task that is found:
    - unless the request is refused because a caller who is not an admin
      submits another assignee, the reply and the collection are those of
      the same request with every key outside the allow-list removed from
      the body: such keys are dropped without an error;
    - when the update succeeds, the stored task is replaced by the returned
      one; its identifier, creator, completedAt, attachments, comments and
      createdAt are those it had, and so is its assignee when the caller is
      not an admin; every path but updatedAt that is not submitted, or is
      outside the allow-list, keeps its value;
    - when the update does not succeed the collection is unchanged. *)
Theorem updateTask_writes_only_allowed_fields
    (now : Z) (u : user) (id : Z) (body : gmap string jsval)
    (db : list task) (t : task) :
  findById id db = Some t ->
  ((role u = "admin" \/ truthy (body !! "assignedTo") = false
    \/ id_equals (assignedTo t) (body !! "assignedTo") = true) ->
   updateTask now u id body db
   = updateTask now u id
       (filter (fun kv : string * jsval =>
                  str_in (fst kv) (allowedUpdates u) = true) body) db) /\
  (forall code m t',
     fst (updateTask now u id body db) = Json code m t' ->
     snd (updateTask now u id body db) = store t' db /\
     _id t' = _id t /\ createdBy t' = createdBy t /\
     completedAt t' = completedAt t /\ attachments t' = attachments t /\
     comments t' = comments t /\ createdAt t' = createdAt t /\
     (role u <> "admin" -> assignedTo t' = assignedTo t) /\
     (body !! "tags" = None -> tags t' = tags t) /\
     (forall k, k <> "updatedAt" ->
        body !! k = None \/ str_in k (allowedUpdates u) = false ->
        field_of t' k = field_of t k)) /\
  (is_json (fst (updateTask now u id body db)) = false ->
   snd (updateTask now u id body db) = db).
Proof.
  intros Hfind.
  destruct (allowedUpdates_frame u)
    as (A1 & A2 & A3 & A4 & A5 & A6 & A7 & A8).
  split; [|split].
  - intros Hguard. unfold updateTask. rewrite Hfind.
    destruct (negb (canModify t (user_id u) (role u))); [reflexivity|].
    rewrite updates_idempotent, (updates_lookup _ body "assignedTo"), A8.
    destruct (String.eqb (role u) "admin") eqn:Hr.
    + simpl. rewrite !andb_false_r. reflexivity.
    + simpl. rewrite !andb_true_r.
      destruct Hguard as [Hadm | [Hf | Heq]].
      * apply String.eqb_eq in Hadm. congruence.
      * by rewrite Hf.
      * by rewrite Heq, andb_false_r.
  - intros code m t'. unfold updateTask. rewrite Hfind.
    destruct (negb (canModify t (user_id u) (role u))); [discriminate|].
    destruct (_ && _ && _); [discriminate|].
    destruct (update_doc now _ t) as [t''|e] eqn:Hup; [|discriminate].
    simpl. intros [= _ _ <-].
    assert (Hkeep : forall k, k <> "updatedAt" ->
              body !! k = None \/ str_in k (allowedUpdates u) = false ->
              field_of t'' k = field_of t k).
    { intros k Hk Hcase. apply (update_doc_keeps _ _ _ _ _ Hup Hk).
      rewrite updates_lookup.
      destruct Hcase as [-> | ->];
        [by destruct (str_in k (allowedUpdates u)) | done]. }
    pose proof (Hkeep "createdBy" ltac:(done) (or_intror A3)) as K1.
    pose proof (Hkeep "completedAt" ltac:(done) (or_intror A2)) as K2.
    unfold field_of in K1, K2. simpl in K1, K2.
    apply update_doc_inv in Hup
      as (_ & (_ & _ & _ & H10 & _) & (I1 & I2 & I3 & I4 & _)).
    repeat split; try assumption.
    + congruence.
    + destruct (completedAt t''), (completedAt t); congruence.
    + intros Hr. apply String.eqb_neq in Hr.
      pose proof (Hkeep "assignedTo" ltac:(done)
                    (or_intror (eq_trans A8 Hr))) as K3.
      unfold field_of in K3. simpl in K3. congruence.
    + intros Ht. rewrite updates_lookup, Ht in H10.
      destruct (str_in "tags" _); by apply path_or_absent in H10.
  - unfold updateTask. rewrite Hfind.
    destruct (negb (canModify t (user_id u) (role u))); [reflexivity|].
    destruct (_ && _ && _); [reflexivity|].
    destruct (update_doc now _ t); [discriminate | reflexivity].
Qed.

Lemma updateTask_writes_only_allowed_fields_witness :
  findById 11 [bobs_report] = Some bobs_report /\
  updateTask 100 bob 11 body_overreach [bobs_report]
  = updateTask 100 bob 11
      (filter (fun kv : string * jsval =>
                 str_in (fst kv) (allowedUpdates bob) = true) body_overreach)
      [bobs_report].
Proof.
  assert (Hfind : findById 11 [bobs_report] = Some bobs_report)
    by reflexivity.
  split; [exact Hfind|].
  destruct (updateTask_writes_only_allowed_fields 100 bob 11 body_overreach
              [bobs_report] bobs_report Hfind) as [Hdrop _].
  apply Hdrop. right. left. reflexivity.
Defined.

(** The keys createdBy, completedAt and colour of the body are dropped: the
    update is that of the title alone. *)
Lemma updateTask_overreach_is_retitle :
  updateTask 100 bob 11 body_overreach [bobs_report]
  = updateTask 100 bob 11 body_retitle [bobs_report].
Proof. vm_compute. reflexivity. Qed.

(** C9, as stated, fails twice. For bob, who is not an admin, assignedTo is
    outside the allow-list; when he submits it with the identifier of alice
    next to a new title the request is refused with 403 instead of the key
    being dropped, although the same request without the key succeeds. And
    updatedAt, which is outside the allow-list, is 10 before the update of
    the title and 100 after it. *)
Lemma updateTask_refuses_assignee_and_touches_updatedAt :
  str_in "assignedTo" (allowedUpdates bob) = false /\
  str_in "updatedAt" (allowedUpdates bob) = false /\
  updateTask 100 bob 11 body_retitle_reassign [bobs_report]
  = (Refuse 403 "Only admins can reassign tasks", [bobs_report]) /\
  exists t',
    updateTask 100 bob 11 body_retitle [bobs_report]
    = (Json 200 "Task updated successfully" t', [t'])
    /\ updatedAt bobs_report = 10 /\ updatedAt t' = 100.
Proof.
  split; [reflexivity|]. split; [reflexivity|].
  split; [vm_compute; reflexivity|].
  eexists. split; [vm_compute; reflexivity|]. split; reflexivity.
Qed.

(** ** Authentication *)

Section AuthFacts.

Variable jwt_verify : Z -> string -> option jwt_payload.

(** C4, as amended: take a request whose token is extracted and verified
    and whose subject is found. If the token was issued strictly before the
    watermark of the subject, the request is not authenticated and the users
    are unchanged; the rejection is the one for a stale credential when the
    subject is active, and the one for a deactivated account otherwise. If
    the subject is active and the token was issued at or after the watermark,
    or there is no watermark, the request is authenticated. *)
Theorem authenticate_watermark
    (now : Z) (authHeader : option string) (users : list user)
    (token : string) (decoded : jwt_payload) (u : user) :
  extractToken authHeader = Ok token ->
  jwt_verify now token = Some decoded ->
  findUser (jwt_id decoded) users = Some u ->
  (forall changed,
     passwordChangedAt u = Some changed -> jwt_iat decoded < changed ->
     authenticate jwt_verify now authHeader users
     = (if isActive u then StaleCredential else Deactivated, users)) /\
  (isActive u = true ->
   (forall changed,
      passwordChangedAt u = Some changed -> changed <= jwt_iat decoded) ->
   authenticate jwt_verify now authHeader users
   = (Next (set_lastLogin now u), store_user (set_lastLogin now u) users)).
Proof.
  intros Hx Hv Hf. unfold authenticate, verifyToken.
  rewrite Hx. simpl. rewrite Hv, Hf. split.
  - intros changed Hc Hlt. destruct (isActive u); simpl; [|reflexivity].
    unfold changedPasswordAfter. rewrite Hc.
    assert ((jwt_iat decoded <? changed) = true) as ->
      by (by apply Z.ltb_lt).
    reflexivity.
  - intros Ha Hge. rewrite Ha. simpl. unfold changedPasswordAfter.
    destruct (passwordChangedAt u) as [changed|]; [|reflexivity].
    assert ((jwt_iat decoded <? changed) = false) as ->
      by (apply Z.ltb_ge; by apply Hge).
    reflexivity.
Qed.

End AuthFacts.

Lemma authenticate_watermark_witness :
  authenticate toy_jwt 1500 (Some "Bearer 7") [carol]
  = (StaleCredential, [carol]).
Proof.
  destruct (authenticate_watermark toy_jwt 1500 (Some "Bearer 7") [carol]
              "7" {| jwt_id := 7; jwt_iat := 1000 |} carol
              eq_refl eq_refl eq_refl) as [Hstale _].
  apply (Hstale 2000); [reflexivity | simpl; lia].
Defined.

(** A token issued at or after the watermark passes the check. *)
Lemma authenticate_fresh_token :
  fst (authenticate toy_jwt 1500 (Some "Bearer 7")
         [{| user_id := 7; role := "user"; isActive := true;
             passwordChangedAt := Some 1000; lastLogin := None |}])
  = Next {| user_id := 7; role := "user"; isActive := true;
            passwordChangedAt := Some 1000; lastLogin := Some 1500 |}.
Proof. vm_compute. reflexivity. Qed.

(** C4, as stated, fails: the token "7" was issued at 1000 to the subject 7,
    whose secret changed at 2000. Once the account is deactivated the
    rejection is the one for a deactivated account, and once the token has
    expired it is the one for an invalid token; neither is the rejection for
    a stale credential. *)
Lemma stale_token_rejected_for_another_reason :
  toy_jwt 1500 "7" = Some {| jwt_id := 7; jwt_iat := 1000 |} /\
  passwordChangedAt carol_off = Some 2000 /\
  fst (authenticate toy_jwt 1500 (Some "Bearer 7") [carol_off]) = Deactivated
  /\ Deactivated <> StaleCredential /\
  fst (authenticate toy_jwt 9500 (Some "Bearer 7") [carol]) = InvalidToken /\
  InvalidToken <> StaleCredential.
Proof.
  split; [reflexivity|]. split; [reflexivity|].
  split; [vm_compute; reflexivity|]. split; [discriminate|].
  split; [vm_compute; reflexivity|]. discriminate.
Qed.

(** ** The calendar

    The window that getTaskStats compares completedAt with, from the first
    instant of the month of [now] to the first instant of the next month,
    holds exactly the dates that have the year and the month of [now]. *)

Ltac split_ifs :=
  repeat match goal with
         | |- context [if ?b then _ else _] =>
             let E := fresh "E" in destruct b eqn:E
         end;
  repeat match goal with
         | E : (_ <? _) = true |- _ => apply Z.ltb_lt in E
         | E : (_ <? _) = false |- _ => apply Z.ltb_ge in E
         | E : (_ <=? _) = true |- _ => apply Z.leb_le in E
         | E : (_ <=? _) = false |- _ => apply Z.leb_gt in E
         end.

Ltac div_lia := Z.to_euclidean_division_equations; lia.

(** The year of a day within its cycle of 400 years: the day lies in that
    year. *)
Lemma yoe_bounds (doe : Z) :
  0 <= doe <= 146096 ->
  let yoe := (doe - doe / 1460 + doe / 36524 - doe / 146096) / 365 in
  0 <= yoe <= 399 /\
  365 * yoe + yoe / 4 - yoe / 100 <= doe /\
  (yoe <= 398 -> doe < 365 * (yoe + 1) + (yoe + 1) / 4 - (yoe + 1) / 100).
Proof.
  intros H. cbv zeta. split; [|split]; [| |intros Hy]; div_lia.
Qed.

(** A month has at least 28 days, so the first days of the months grow. *)
Lemma month_day_step (k : Z) : month_day k + 28 <= month_day (k + 1).
Proof.
  unfold month_day, days_from_civil. cbv zeta.
  split_ifs; div_lia.
Qed.

Lemma civil_month_range (z : Z) : 1 <= snd (civil_from_days z) <= 12.
Proof.
  unfold civil_from_days. cbv zeta. cbn [fst snd].
  set (doe := z + 719468 - (z + 719468) / 146097 * 146097).
  assert (Hdoe : 0 <= doe <= 146096) by (unfold doe; div_lia).
  destruct (yoe_bounds doe Hdoe) as (Hy & Hlo & Hhi). cbv zeta in Hy, Hlo, Hhi.
  set (yoe := (doe - doe / 1460 + doe / 36524 - doe / 146096) / 365) in *.
  assert (Hdoy : doe - (365 * yoe + yoe / 4 - yoe / 100) <= 365).
  { clearbody yoe. div_lia. }
  clearbody yoe. clearbody doe.
  split_ifs; div_lia.
Qed.

(** A day lies between the first day of its month and the first day of the
    month after. *)
Lemma month_window_days (z : Z) :
  month_day (month_number z) <= z < month_day (month_number z + 1).
Proof.
  pose proof (civil_month_range z) as Hm.
  unfold month_number, month_day.
  set (y := fst (civil_from_days z)) in *.
  set (m := snd (civil_from_days z)) in *.
  replace ((12 * y + m - 1) / 12) with y by div_lia.
  replace ((12 * y + m - 1) mod 12 + 1) with m by div_lia.
  replace ((12 * y + m - 1 + 1) / 12) with (y + m / 12) by div_lia.
  replace ((12 * y + m - 1 + 1) mod 12) with (m mod 12) by div_lia.
  clear Hm. subst y m.
  unfold civil_from_days. cbv zeta. cbn [fst snd].
  set (era := (z + 719468) / 146097).
  set (doe := z + 719468 - era * 146097).
  assert (Hdoe : 0 <= doe <= 146096) by (unfold doe, era; div_lia).
  assert (Hz : z = era * 146097 + doe - 719468) by (unfold doe; lia).
  destruct (yoe_bounds doe Hdoe) as (Hy & Hlo & Hhi). cbv zeta in Hy, Hlo, Hhi.
  set (yoe := (doe - doe / 1460 + doe / 36524 - doe / 146096) / 365) in *.
  clearbody yoe. clearbody doe. clearbody era. subst z.
  unfold days_from_civil. cbv zeta.
  split; split_ifs; div_lia.
Qed.

Lemma month_day_mono (k1 k2 : Z) : k1 < k2 -> month_day k1 < month_day k2.
Proof.
  intros H. replace k2 with (k1 + 1 + (k2 - k1 - 1)) by lia.
  assert (Hn : 0 <= k2 - k1 - 1) by lia.
  generalize dependent (k2 - k1 - 1). intros n Hn. clear H k2.
  pattern n. apply natlike_ind; [| |exact Hn].
  - rewrite Z.add_0_r. pose proof (month_day_step k1). lia.
  - intros x Hx IH. pose proof (month_day_step (k1 + 1 + x)).
    replace (k1 + 1 + Z.succ x) with (k1 + 1 + x + 1) by lia. lia.
Qed.

(** Hence the month of a day is the only one whose window holds the day. *)
Lemma month_number_unique (z k : Z) :
  month_day k <= z < month_day (k + 1) -> month_number z = k.
Proof.
  intros Hk. pose proof (month_window_days z) as Hz.
  destruct (Z.lt_trichotomy (month_number z) k) as [Hlt | [Heq | Hgt]].
  - assert (month_day (month_number z + 1) <= month_day k).
    { destruct (Z.eq_dec (month_number z + 1) k) as [->|]; [lia|].
      apply Z.lt_le_incl, month_day_mono. lia. }
    lia.
  - exact Heq.
  - assert (month_day (k + 1) <= month_day (month_number z)).
    { destruct (Z.eq_dec (k + 1) (month_number z)) as [->|]; [lia|].
      apply Z.lt_le_incl, month_day_mono. lia. }
    lia.
Qed.

Lemma getMonth_range (t : Z) : 0 <= getMonth t <= 11.
Proof. unfold getMonth. pose proof (civil_month_range (t / day_ms)). lia. Qed.

Lemma month_number_date (t : Z) :
  month_number (t / day_ms) = 12 * getFullYear t + getMonth t.
Proof. unfold month_number, getFullYear, getMonth. lia. Qed.

Lemma month_start_day (now : Z) :
  month_start now = month_day (month_number (now / day_ms)) * day_ms
  /\ next_month_start now
     = month_day (month_number (now / day_ms) + 1) * day_ms.
Proof.
  pose proof (getMonth_range now) as Hm.
  unfold month_start, next_month_start, mkDate, month_day.
  rewrite month_number_date.
  split; f_equal; f_equal; div_lia.
Qed.

(** The window of the code and the calendar month of the specification. *)
Lemma in_month_window (now c : Z) :
  (month_start now <=? c) && (c <? next_month_start now) = same_month c now.
Proof.
  destruct (month_start_day now) as [-> ->].
  pose proof (getMonth_range now) as Hm1.
  pose proof (getMonth_range c) as Hm2.
  pose proof (month_number_date now) as Hn1.
  pose proof (month_number_date c) as Hn2.
  apply eq_true_iff_eq. unfold same_month.
  rewrite !andb_true_iff, Z.leb_le, Z.ltb_lt, !Z.eqb_eq.
  split.
  - intros [H1 H2].
    assert (Hk : month_number (c / day_ms) = month_number (now / day_ms)).
    { apply month_number_unique. unfold day_ms in *. div_lia. }
    lia.
  - intros [Hy Hmo].
    assert (Hk : month_number (now / day_ms) = month_number (c / day_ms))
      by lia.
    rewrite Hk. pose proof (month_window_days (c / day_ms)) as Hw.
    unfold day_ms in *. div_lia.
Qed.

(** ** getTaskStats *)

Lemma matches_insert_fresh (regex_test : string -> string -> string -> bool)
    (f : gmap string fval) (k : string) (v : fval) (t : task) :
  f !! k = None ->
  matches regex_test (<[k := v]> f) t
  = entry_holds regex_test t k v && matches regex_test f t.
Proof. intros H. by rewrite matches_insert, delete_id. Qed.

Lemma filter_filter_and {A : Type} (f g : A -> bool) (l : list A) :
  List.filter f (List.filter g l) = List.filter (fun x => g x && f x) l.
Proof.
  induction l as [|x r IH]; simpl; [reflexivity|].
  destruct (g x); simpl; [|exact IH]. destruct (f x); by rewrite IH.
Qed.

Lemma count_of_bump (k k' : bson) (groups : list (bson * Z)) :
  count_of k (bump k' groups)
  = count_of k groups + (if bson_eqb k k' then 1 else 0).
Proof.
  unfold count_of. induction groups as [|[k0 n] r IH]; simpl.
  - destruct (bson_eqb k k'); reflexivity.
  - destruct (bson_eqb k' k0) eqn:E0; simpl.
    + apply bson_eqb_eq in E0. subst k0.
      destruct (bson_eqb k k'); simpl; lia.
    + destruct (bson_eqb k k0) eqn:E1; simpl; [|exact IH].
      apply bson_eqb_eq in E1. subst k0.
      destruct (bson_eqb k k') eqn:E2; [|lia].
      apply bson_eqb_eq in E2. subst k'.
      assert (bson_eqb k k = true) by (by apply bson_eqb_eq). congruence.
Qed.

(** The count of a group is the number of documents with its key. *)
Lemma count_of_group_count (k : bson) (path : string) (docs : list task) :
  count_of k (group_count path docs)
  = Z.of_nat
      (length (List.filter (fun t => bson_eqb k (field_of t path)) docs)).
Proof.
  unfold group_count.
  assert (H : forall groups,
             count_of k
               (fold_left (fun groups t => bump (field_of t path) groups)
                  docs groups)
             = count_of k groups
               + Z.of_nat
                   (length
                      (List.filter (fun t => bson_eqb k (field_of t path))
                         docs))).
  { induction docs as [|t r IH]; intros groups; simpl; [lia|].
    rewrite IH, count_of_bump.
    destruct (bson_eqb k (field_of t path)); simpl length; lia. }
  rewrite H. reflexivity.
Qed.

(** C7: getTaskStats answers 200 with four aggregates. The count of each
    status and of each priority is the number of tasks of the ownership scope
    of the caller (every task for an admin, the tasks the caller is assigned
    to or has created otherwise) that are not archived and have that status
    or priority; overdueTasks is the number of tasks of the scope that are
    not archived and are overdue; completedThisMonth is the number of tasks
    of the scope, archived or not, whose status is 'completed' and whose
    completedAt lies between the first instant of the current calendar month
    and the first instant of the next. *)
Theorem getTaskStats_aggregates
    (regex_test : string -> string -> string -> bool)
    (now : Z) (u : user) (db : list task) :
  exists st,
    getTaskStats regex_test now u db
    = Json 200 "Task statistics retrieved successfully" st /\
    (forall s,
       count_of (BStr s) (statusStats st)
       = Z.of_nat
           (length
              (List.filter
                 (fun t => ownership_scope u t && negb (isArchived t)
                           && String.eqb (status t) s) db))) /\
    (forall s,
       count_of (BStr s) (priorityStats st)
       = Z.of_nat
           (length
              (List.filter
                 (fun t => ownership_scope u t && negb (isArchived t)
                           && String.eqb (priority t) s) db))) /\
    overdueTasks st
    = Z.of_nat
        (length
           (List.filter
              (fun t => ownership_scope u t && negb (isArchived t)
                        && overdue_at now t) db)) /\
    completedThisMonth st
    = Z.of_nat
        (length
           (List.filter
              (fun t => ownership_scope u t && completed_in_month_of now t)
              db)).
Proof.
  eexists. split; [reflexivity|].
  cbn [statusStats priorityStats overdueTasks completedThisMonth].
  assert (Harch : forall t,
            matches regex_test
              (<["isArchived" := Cond (Eq (BBool false))]> (matchQuery u)) t
            = ownership_scope u t && negb (isArchived t)).
  { intros t. rewrite matches_insert_fresh by (by apply matchQuery_other).
    rewrite matchQuery_scope. simpl.
    destruct (isArchived t), (ownership_scope u t); reflexivity. }
  repeat split.
  - intros s. rewrite count_of_group_count, filter_filter_and.
    do 2 f_equal. apply filter_ext. intros t. rewrite Harch. simpl.
    f_equal. apply String.eqb_sym.
  - intros s. rewrite count_of_group_count, filter_filter_and.
    do 2 f_equal. apply filter_ext. intros t. rewrite Harch. simpl.
    f_equal. apply String.eqb_sym.
  - unfold countDocuments. do 2 f_equal. apply filter_ext. intros t.
    rewrite !matches_insert_fresh.
    + rewrite matchQuery_scope. unfold entry_holds, cond_holds, overdue_at.
      rewrite field_of_isArchived, field_of_status, field_of_dueDate.
      simpl.
      destruct (isArchived t), (ownership_scope u t), (dueDate t) as [d|],
        (String.eqb (status t) "completed"),
        (String.eqb (status t) "cancelled");
        simpl; try reflexivity; destruct (d <? now); reflexivity.
    + by apply matchQuery_other.
    + rewrite lookup_insert_ne by done. by apply matchQuery_other.
    + rewrite !lookup_insert_ne by done. by apply matchQuery_other.
  - unfold countDocuments. do 2 f_equal. apply filter_ext. intros t.
    rewrite !matches_insert_fresh.
    + rewrite matchQuery_scope.
      unfold entry_holds, cond_holds, completed_in_month_of.
      rewrite field_of_status, field_of_completedAt. cbn [bson_eqb].
      destruct (completedAt t) as [c|].
      * rewrite in_month_window.
        destruct (ownership_scope u t), (String.eqb (status t) "completed"),
          (same_month c now); reflexivity.
      * destruct (ownership_scope u t), (String.eqb (status t) "completed");
          reflexivity.
    + by apply matchQuery_other.
    + rewrite lookup_insert_ne by done. by apply matchQuery_other.
Qed.

(** A task completed before the first instant of the current month is not
    counted, however recent its completion. *)
Lemma completed_before_month_not_counted (now : Z) (t : task) (c : Z) :
  completedAt t = Some c -> c < month_start now ->
  completed_in_month_of now t = false.
Proof.
  intros Hc Hlt. unfold completed_in_month_of.
  rewrite Hc, <- in_month_window.
  assert ((month_start now <=? c) = false) as -> by (apply Z.leb_gt; lia).
  simpl. apply andb_false_r.
Qed.

(** Scenario E on 5 March 2024: of the two completed tasks of bob, the one
    of 20 February, 14 days old, is not counted and the archived one of
    2 March is; alice, who owns neither, has none. *)
Lemma getTaskStats_on_march_5 :
  month_start march_5 = 1709251200000 /\
  next_month_start march_5 = 1711929600000 /\
  march_5 - 30 * day_ms < 1708387200000 /\
  getTaskStats literal_regex march_5 bob [done_in_february; done_in_march]
  = Json 200 "Task statistics retrieved successfully"
      {| statusStats := [(BStr "completed", 1)];
         priorityStats := [(BStr "high", 1)];
         overdueTasks := 0; completedThisMonth := 1 |} /\
  getTaskStats literal_regex march_5 alice [done_in_february; done_in_march]
  = Json 200 "Task statistics retrieved successfully"
      {| statusStats := []; priorityStats := [];
         overdueTasks := 0; completedThisMonth := 0 |}.
Proof. repeat split; vm_compute; reflexivity. Qed.

(** ** getTasks: pagination *)







(** The two pages of that request: the newer task first. *)
Lemma getTasks_two_pages :
  getTasks literal_regex 100 root (set_page 1 one_per_page)
    [bobs_report; bobs_done]
  = Json 200 "Tasks retrieved successfully"
      ([bobs_done], {| current := 1; pages := 2; total := 2; limit := 1 |})
  /\
  getTasks literal_regex 100 root (set_page 2 one_per_page)
    [bobs_report; bobs_done]
  = Json 200 "Tasks retrieved successfully"
      ([bobs_report], {| current := 2; pages := 2; total := 2; limit := 1 |}).
Proof. split; vm_compute; reflexivity. Qed.

(** * Further properties of the handlers and of the model *)

(** ** The bearer token *)

Lemma substring_all (s : string) : String.substring 0 (String.length s) s = s.
Proof. induction s as [|c r IH]; simpl; [reflexivity|]. by rewrite IH. Qed.

Lemma prefix_bearer (h : string) :
  String.prefix "Bearer " h = true ->
  h = "Bearer " ++ String.substring 7 (String.length h - 7) h.
Proof.
  intros H.
  do 7 (destruct h as [|? h]; [discriminate|];
        simpl in H;
        match type of H with
        | (if ?d then _ else _) = true => destruct d; [subst|discriminate]
        end).
  simpl. rewrite Nat.sub_0_r. by rewrite substring_all.
Qed.

(** X1: extractToken returns a token exactly when the header is "Bearer "
    followed by that token and the token is not empty; every other header,
    and no header, is an error. *)
Theorem extractToken_bearer (authHeader : option string) (token : string) :
  extractToken authHeader = Ok token
  <-> authHeader = Some ("Bearer " ++ token) /\ token <> "".
Proof.
  split.
  - unfold extractToken. destruct authHeader as [h|]; [|discriminate].
    destruct (String.eqb h ""); [discriminate|].
    destruct (String.prefix "Bearer " h) eqn:Hp; [|discriminate]. simpl.
    destruct (String.eqb _ "") eqn:He; [discriminate|].
    intros [= <-]. apply String.eqb_neq in He. split; [|exact He].
    f_equal. by apply prefix_bearer.
  - intros [-> Hne]. unfold extractToken.
    change (String.eqb ("Bearer " ++ token) "") with false.
    assert (String.prefix "Bearer " ("Bearer " ++ token) = true) as ->.
    { simpl. repeat (destruct (ascii_dec _ _); [|congruence]).
      by destruct token. }
    simpl. change (String.append "" token) with token.
    rewrite Nat.sub_0_r, substring_all.
    apply String.eqb_neq in Hne. by rewrite Hne.
Qed.

(** ** authenticate *)

Lemma findUser_id (id : Z) (users : list user) (u : user) :
  findUser id users = Some u -> user_id u = id /\ In u users.
Proof.
  unfold findUser. intros H. apply find_some in H as [Hin He].
  split; [by apply Z.eqb_eq | exact Hin].
Qed.

Lemma findUser_store_user (u' : user) (users : list user) (id : Z) :
  findUser id (store_user u' users)
  = match findUser id users with
    | Some u => if user_id u =? user_id u' then Some u' else Some u
    | None => None
    end.
Proof.
  induction users as [|x r IH]; [reflexivity|]. simpl.
  destruct (user_id x =? user_id u') eqn:Ex; simpl.
  - apply Z.eqb_eq in Ex. rewrite <- Ex.
    destruct (user_id x =? id) eqn:Ei; [by rewrite Z.eqb_refl|].
    fold (findUser id r). destruct (findUser id r) as [u|] eqn:Hf; [|done].
    apply findUser_id in Hf as [Hu _].
    assert ((user_id u =? user_id x) = false) as ->; [|done].
    apply Z.eqb_neq in Ei. apply Z.eqb_neq. congruence.
  - destruct (user_id x =? id) eqn:Ei; [by rewrite Ex|]. exact IH.
Qed.

Lemma store_user_length (u' : user) (users : list user) :
  length (store_user u' users) = length users.
Proof.
  induction users as [|x r IH]; [reflexivity|]. simpl.
  destruct (user_id x =? user_id u'); simpl; congruence.
Qed.

Section AuthOutcomes.

Variable jwt_verify : Z -> string -> option jwt_payload.

(** What a granted request went through. *)
Lemma authenticate_Next_inv (now : Z) (authHeader : option string)
    (users : list user) (u' : user) (users' : list user) :
  authenticate jwt_verify now authHeader users = (Next u', users') ->
  exists token decoded u,
    extractToken authHeader = Ok token /\
    jwt_verify now token = Some decoded /\
    findUser (jwt_id decoded) users = Some u /\
    isActive u = true /\
    changedPasswordAfter u (jwt_iat decoded) = false /\
    u' = set_lastLogin now u /\ users' = store_user u' users.
Proof.
  unfold authenticate, verifyToken.
  destruct (extractToken authHeader) as [token|e] eqn:Hx; simpl;
    [|discriminate].
  destruct (jwt_verify now token) as [decoded|] eqn:Hv; [|discriminate].
  destruct (findUser (jwt_id decoded) users) as [u|] eqn:Hf; [|discriminate].
  destruct (isActive u) eqn:Ha; simpl; [|discriminate].
  destruct (changedPasswordAfter u (jwt_iat decoded)) eqn:Hc; [discriminate|].
  intros [= <- <-]. by exists token, decoded, u.
Qed.

Lemma extractToken_message (authHeader : option string) (m : string) :
  extractToken authHeader = Err m -> m <> "".
Proof.
  unfold extractToken. destruct authHeader as [h|]; [|by intros [= <-]].
  destruct (String.eqb h ""); [by intros [= <-]|].
  destruct (negb _); [by intros [= <-]|].
  destruct (String.eqb _ ""); [by intros [= <-]|discriminate].
Qed.

(** X2: authenticate either refuses with a message that is not empty, and
    then writes nothing, or grants; it grants only when the header carries a
    token that verifies, the subject of the token is found and active and
    did not change its secret after the token was issued, and then the user
    it hands on is that subject with lastLogin set to now, which is also the
    only thing it stores. *)
Theorem authenticate_outcomes (now : Z) (authHeader : option string)
    (users : list user) :
  match authenticate jwt_verify now authHeader users with
  | (Unauthorized m, users') => users' = users /\ m <> ""
  | (Next u', users') =>
      exists token decoded u,
        extractToken authHeader = Ok token /\
        jwt_verify now token = Some decoded /\
        findUser (jwt_id decoded) users = Some u /\
        isActive u = true /\
        changedPasswordAfter u (jwt_iat decoded) = false /\
        u' = set_lastLogin now u /\ users' = store_user u' users
  end.
Proof.
  destruct (authenticate jwt_verify now authHeader users) as [[u'|m] users']
    eqn:Hauth.
  - by apply authenticate_Next_inv.
  - revert Hauth. unfold authenticate, verifyToken.
    destruct (extractToken authHeader) as [token|e] eqn:Hx; simpl.
    + destruct (jwt_verify now token) as [decoded|]; simpl.
      * destruct (findUser (jwt_id decoded) users) as [u|];
          [|by intros [= <- <-]].
        destruct (negb (isActive u)); [by intros [= <- <-]|].
        destruct (changedPasswordAfter u (jwt_iat decoded));
          [by intros [= <- <-]|discriminate].
      * by intros [= <- <-].
    + apply extractToken_message in Hx.
      destruct (String.eqb e "") eqn:He; intros [= <- <-]; [done|].
      split; [reflexivity | exact Hx].
Qed.

(** X3: authenticate never adds or removes a user and never changes the
    identifier, the role, the active flag or the watermark of one: under
    every identifier the user found after the call agrees on them with the
    user found before it. *)
Theorem authenticate_keeps_accounts (now : Z) (authHeader : option string)
    (users : list user) (id : Z) :
  length (snd (authenticate jwt_verify now authHeader users)) = length users
  /\ match findUser id (snd (authenticate jwt_verify now authHeader users)),
           findUser id users with
     | Some a, Some b =>
         user_id a = user_id b /\ role a = role b /\
         isActive a = isActive b /\
         passwordChangedAt a = passwordChangedAt b
     | None, None => True
     | _, _ => False
     end.
Proof.
  destruct (authenticate jwt_verify now authHeader users) as [[u'|m] users']
    eqn:Hauth; simpl.
  - apply authenticate_Next_inv in Hauth
      as (token & decoded & u & _ & _ & Hf & _ & _ & -> & ->).
    split; [apply store_user_length|].
    rewrite findUser_store_user.
    destruct (findUser id users) as [b|] eqn:Hb; [|done].
    destruct (user_id b =? user_id (set_lastLogin now u)) eqn:E; [|done].
    simpl in E. apply Z.eqb_eq in E.
    pose proof (findUser_id _ _ _ Hb) as [Hb' _].
    pose proof (findUser_id _ _ _ Hf) as [Hf' _].
    assert (id = jwt_id decoded) as -> by congruence.
    assert (b = u) as -> by congruence. done.
  - assert (users' = users) as ->.
    { revert Hauth. unfold authenticate, verifyToken.
      destruct (extractToken authHeader) as [token|e]; simpl;
        [|by intros [= _ <-]].
      destruct (jwt_verify now token) as [decoded|]; simpl;
        [|by intros [= _ <-]].
      destruct (findUser (jwt_id decoded) users) as [u|];
        [|by intros [= _ <-]].
      destruct (negb (isActive u)); [by intros [= _ <-]|].
      destruct (changedPasswordAfter u (jwt_iat decoded));
        [by intros [= _ <-]|discriminate]. }
    split; [reflexivity|]. by destruct (findUser id users).
Qed.

(** X4: a request that passes authenticate and then authorize(...roles) is
    that of a stored user who is active and whose role is one of the roles;
    in particular no one passes when no role is listed. *)
Theorem authenticate_then_authorize (roles : list string) (now : Z)
    (authHeader : option string) (users : list user) (u' : user)
    (users' : list user) :
  authenticate jwt_verify now authHeader users = (Next u', users') ->
  authorize roles (Some u') = Pass ->
  roles <> [] /\
  exists u, In u users /\ user_id u = user_id u' /\ isActive u = true /\
            role u = role u' /\ In (role u) roles.
Proof.
  intros Hauth Hz.
  apply authenticate_Next_inv in Hauth
    as (token & decoded & u & _ & _ & Hf & Ha & _ & -> & _).
  unfold authorize in Hz. simpl in Hz.
  destruct (str_in (role u) roles) eqn:Hr; [|discriminate].
  unfold str_in in Hr. apply existsb_exists in Hr as (r & Hin & Heq).
  apply String.eqb_eq in Heq. subst r.
  split; [by destruct roles|].
  exists u. apply findUser_id in Hf as [_ Hin']. done.
Qed.

End AuthOutcomes.

Lemma authenticate_then_authorize_witness :
  exists u, In u [root] /\ user_id u = 3 /\ isActive u = true /\
            role u = "admin" /\ In (role u) ["admin"].
Proof.
  destruct (authenticate_then_authorize
              (fun _ _ => Some {| jwt_id := 3; jwt_iat := 0 |}) ["admin"] 50
              (Some "Bearer t") [root] (set_lastLogin 50 root)
              [set_lastLogin 50 root] eq_refl eq_refl) as [_ H].
  exact H.
Defined.

(** ** getTasks: what is listed, and in which order *)

Lemma all_hits_In (regex_test : string -> string -> string -> bool)
    (now : Z) (u : user) (q : query) (db : list task) (t : task) :
  In t (all_hits regex_test now u q db)
  <-> In t db /\ matches regex_test (getTasks_filter now u q) t = true.
Proof.
  unfold all_hits. rewrite <- filter_In. split; intros H.
  - eapply Permutation_in; [apply sort_docs_perm | exact H].
  - eapply Permutation_in; [apply Permutation_sym, sort_docs_perm | exact H].
Qed.

(** X5: with no parameter at all, the documents that the pages of getTasks
    are cut from are exactly the tasks of the collection that are in the
    ownership scope of the caller: nothing outside it is listed and nothing
    inside it is left out (for an admin, every task is listed). *)
Theorem getTasks_plain_list_is_the_scope
    (regex_test : string -> string -> string -> bool)
    (now : Z) (u : user) (db : list task) (t : task) :
  In t (all_hits regex_test now u no_query db)
  <-> In t db /\ ownership_scope u t = true.
Proof.
  rewrite all_hits_In.
  change (getTasks_filter now u no_query) with (matchQuery u).
  by rewrite matchQuery_scope.
Qed.

(** X6: under the keyword 'overdue' alone, the documents that are listed are
    exactly the tasks of the scope of the caller whose virtual isOverdue is
    true at that time: the filter of the controller and the virtual of the
    model agree. *)
Theorem overdue_list_is_isOverdue
    (regex_test : string -> string -> string -> bool)
    (now : Z) (u : user) (db : list task) (t : task) :
  In t (all_hits regex_test now u overdue_only db)
  <-> In t db /\ ownership_scope u t = true /\ isOverdue now t = true.
Proof.
  rewrite all_hits_In.
  change (getTasks_filter now u overdue_only)
    with (<["status" := Cond (Nin ["completed"; "cancelled"])]>
            (<["dueDate" := Cond (Lt now)]> (matchQuery u))).
  rewrite !matches_insert_fresh, matchQuery_scope.
  - unfold entry_holds, cond_holds, isOverdue.
    rewrite field_of_status, field_of_dueDate. simpl str_in.
    destruct (dueDate t) as [d|], (ownership_scope u t),
      (String.eqb (status t) "completed"),
      (String.eqb (status t) "cancelled"); simpl;
      try destruct (d <? now); simpl; intuition congruence.
  - by apply matchQuery_other.
  - rewrite lookup_insert_ne by done. by apply matchQuery_other.
Qed.

Lemma bson_leb_total (a b : bson) :
  bson_leb a b = false -> bson_leb b a = true.
Proof.
  destruct a, b; simpl; try done; intros H.
  - destruct (String.leb_total s s0); congruence.
  - apply Z.leb_le. apply Z.leb_gt in H. lia.
  - by destruct b0, b.
  - apply Z.leb_le. apply Z.leb_gt in H. lia.
Qed.

Lemma sort_leb_total (sortBy : string * Z) (a b : task) :
  sort_leb sortBy a b = false -> sort_leb sortBy b a = true.
Proof.
  unfold sort_leb. destruct (snd sortBy =? -1); apply bson_leb_total.
Qed.

Lemma sort_insert_Sorted (sortBy : string * Z) (x : task) (l : list task) :
  Sorted (fun a b => sort_leb sortBy a b = true) l ->
  Sorted (fun a b => sort_leb sortBy a b = true) (sort_insert sortBy x l).
Proof.
  induction l as [|y r IH]; simpl; intros Hs.
  - by repeat constructor.
  - destruct (sort_leb sortBy x y) eqn:E.
    + constructor; [exact Hs | by constructor].
    + apply Sorted_inv in Hs as [Hr Hy]. constructor; [by apply IH|].
      apply sort_leb_total in E.
      destruct r as [|z r']; simpl; [by constructor|].
      destruct (sort_leb sortBy x z); constructor; [exact E|].
      by apply HdRel_inv in Hy.
Qed.

Lemma sort_docs_Sorted (sortBy : string * Z) (l : list task) :
  Sorted (fun a b => sort_leb sortBy a b = true) (sort_docs sortBy l).
Proof.
  induction l as [|x r IH]; simpl; [constructor|].
  by apply sort_insert_Sorted.
Qed.

Lemma Sorted_drop {A : Type} (R : A -> A -> Prop) (n : nat) (l : list A) :
  Sorted R l -> Sorted R (drop n l).
Proof.
  revert l. induction n as [|n IH]; intros [|x r] Hs; simpl; try done.
  apply IH. by apply Sorted_inv in Hs as [Hr _].
Qed.

Lemma Sorted_take {A : Type} (R : A -> A -> Prop) (n : nat) (l : list A) :
  Sorted R l -> Sorted R (take n l).
Proof.
  revert l. induction n as [|n IH]; intros [|x r] Hs; simpl;
    try constructor.
  - apply IH. by apply Sorted_inv in Hs as [Hr _].
  - apply Sorted_inv in Hs as [_ Hx].
    destruct r as [|y r'], n; simpl; constructor.
    by apply HdRel_inv in Hx.
Qed.

Lemma Sorted_weaken {A : Type} (R R' : A -> A -> Prop) (l : list A) :
  (forall a b, R a b -> R' a b) -> Sorted R l -> Sorted R' l.
Proof.
  intros HR. induction 1 as [|x r Hs IH Hx]; constructor; [exact IH|].
  destruct Hx; constructor. by apply HR.
Qed.

Lemma find_Sorted (regex_test : string -> string -> string -> bool)
    (f : gmap string fval) (sortBy : string * Z) (skip limit : Z)
    (db tasks : list task) :
  find regex_test f sortBy skip limit db = Some tasks ->
  Sorted (fun a b => sort_leb sortBy a b = true) tasks.
Proof.
  unfold find. destruct (skip <? 0); [discriminate|]. intros [= <-].
  destruct (limit =? 0); [|apply Sorted_take];
    apply Sorted_drop, sort_docs_Sorted.
Qed.

Lemma newest_first_Sorted (l : list task) :
  Sorted (fun a b => sort_leb ("createdAt", -1) a b = true) l ->
  StronglySorted newest_first l.
Proof.
  intros Hs. apply Sorted_StronglySorted.
  - intros a b c. unfold newest_first. lia.
  - eapply Sorted_weaken; [|exact Hs].
    intros a b. unfold sort_leb, newest_first. simpl. apply Z.leb_le.
Qed.

(** X7: the tasks of every page of getTasks are in the order asked for: each
    one is before the next under the key and the direction of sortBy, and
    when sortBy is absent or empty no task is older than one that comes after
    it (newest first). *)
Theorem getTasks_order (regex_test : string -> string -> string -> bool)
    (now : Z) (u : user) (q : query) (db : list task) :
  Sorted (fun a b => sort_leb (getTasks_sort q) a b = true)
    (reply_tasks (getTasks regex_test now u q db))
  /\ (given (q_sortBy q) = false ->
      StronglySorted newest_first
        (reply_tasks (getTasks regex_test now u q db))).
Proof.
  assert (Hs : Sorted (fun a b => sort_leb (getTasks_sort q) a b = true)
                 (reply_tasks (getTasks regex_test now u q db))).
  { unfold getTasks. cbv zeta.
    destruct (find _ _ _ _ _ db) as [tasks|] eqn:Hf; simpl; [|constructor].
    by apply find_Sorted in Hf. }
  split; [exact Hs|]. intros Hg. apply newest_first_Sorted.
  replace (getTasks_sort q) with ("createdAt", -1) in Hs; [exact Hs|].
  unfold getTasks_sort. destruct (q_sortBy q) as [s|]; [|done].
  by rewrite Hg.
Qed.



(** ** The collection: lookups after a write *)

Lemma findById_id (id : Z) (db : list task) (t : task) :
  findById id db = Some t -> _id t = id /\ In t db.
Proof.
  unfold findById. intros H. apply find_some in H as [Hin He].
  split; [by apply Z.eqb_eq | exact Hin].
Qed.

Lemma findById_app (j : Z) (db : list task) (t : task) :
  findById j (db ++ [t])%list
  = match findById j db with
    | Some x => Some x
    | None => if _id t =? j then Some t else None
    end.
Proof.
  induction db as [|x r IH]; simpl; [reflexivity|].
  destruct (_id x =? j); [reflexivity | exact IH].
Qed.

Lemma findById_store (t' : task) (db : list task) (j : Z) :
  findById j (store t' db)
  = match findById j db with
    | Some x => if _id x =? _id t' then Some t' else Some x
    | None => None
    end.
Proof.
  induction db as [|x r IH]; [reflexivity|]. simpl.
  destruct (_id x =? _id t') eqn:Ex; simpl.
  - apply Z.eqb_eq in Ex. rewrite <- Ex.
    destruct (_id x =? j) eqn:Ej; [by rewrite Z.eqb_refl|].
    fold (findById j r). destruct (findById j r) as [y|] eqn:Hf; [|done].
    apply findById_id in Hf as [Hy _].
    assert ((_id y =? _id x) = false) as ->; [|done].
    apply Z.eqb_neq in Ej. apply Z.eqb_neq. congruence.
  - destruct (_id x =? j) eqn:Ej; [by rewrite Ex|]. exact IH.
Qed.

Lemma store_length (t' : task) (db : list task) :
  length (store t' db) = length db.
Proof.
  induction db as [|x r IH]; [reflexivity|]. simpl.
  destruct (_id x =? _id t'); simpl; congruence.
Qed.

Lemma store_store (t' : task) (db : list task) :
  store t' (store t' db) = store t' db.
Proof.
  induction db as [|x r IH]; [reflexivity|]. simpl.
  destruct (_id x =? _id t') eqn:Ex; simpl.
  - by rewrite Z.eqb_refl.
  - by rewrite Ex, IH.
Qed.

Lemma findById_remove_other (id j : Z) (db : list task) :
  j <> id -> findById j (remove id db) = findById j db.
Proof.
  intros Hne. induction db as [|x r IH]; [reflexivity|]. simpl.
  destruct (_id x =? id) eqn:Ex; simpl.
  - apply Z.eqb_eq in Ex.
    assert ((_id x =? j) = false) as -> by (apply Z.eqb_neq; congruence).
    reflexivity.
  - destruct (_id x =? j); [reflexivity | exact IH].
Qed.

Lemma findById_None (id : Z) (db : list task) :
  findById id db = None <-> ~ In id (List.map _id db).
Proof.
  induction db as [|x r IH]; simpl; [tauto|].
  destruct (_id x =? id) eqn:Ex.
  - apply Z.eqb_eq in Ex. split; [discriminate | tauto].
  - apply Z.eqb_neq in Ex. fold (findById id r). rewrite IH. tauto.
Qed.

Lemma remove_ids (id : Z) (db : list task) (j : Z) :
  In j (List.map _id (remove id db)) -> In j (List.map _id db).
Proof.
  induction db as [|x r IH]; simpl; [tauto|].
  destruct (_id x =? id); simpl; tauto.
Qed.

Lemma remove_unique (id : Z) (db : list task) :
  List.NoDup (List.map _id db) ->
  List.NoDup (List.map _id (remove id db))
  /\ ~ In id (List.map _id (remove id db))
  /\ (length db
      = if bool_decide (is_Some (findById id db))
        then S (length (remove id db)) else length (remove id db)).
Proof.
  induction db as [|x r IH]; simpl; intros Hnd.
  - repeat split; [constructor | tauto].
  - apply List.NoDup_cons_iff in Hnd as [Hx Hr].
    destruct (IH Hr) as (H1 & H2 & H3).
    destruct (_id x =? id) eqn:Ex; simpl.
    + apply Z.eqb_eq in Ex. subst id. repeat split; done.
    + apply Z.eqb_neq in Ex. fold (findById id r).
      repeat split.
      * apply List.NoDup_cons_iff. split; [|exact H1].
        intros Hin. by apply remove_ids in Hin.
      * intros [He | Hin]; [congruence | tauto].
      * rewrite H3. by destruct (bool_decide _).
Qed.

(** ** deleteTask *)

(** X9: in a collection where identifiers are unique, a deleteTask that
    succeeds leaves no task under the identifier, leaves every other
    identifier with the task it had, removes exactly one document and keeps
    the identifiers unique. *)
Theorem deleteTask_removes_the_task (u : user) (id : Z) (db : list task)
    (code : Z) (m : string) (db' : list task) :
  List.NoDup (List.map _id db) ->
  deleteTask u id db = (Json code m tt, db') ->
  findById id db' = None /\
  (forall j, j <> id -> findById j db' = findById j db) /\
  length db = S (length db') /\
  List.NoDup (List.map _id db').
Proof.
  intros Hnd. unfold deleteTask.
  destruct (findById id db) as [t|] eqn:Hf; [|discriminate].
  destruct (negb (canModify t (user_id u) (role u))); [discriminate|].
  intros [= _ _ <-].
  destruct (remove_unique id db Hnd) as (H1 & H2 & H3).
  rewrite Hf in H3. rewrite bool_decide_eq_true_2 in H3 by eauto.
  repeat split; try done.
  - by apply findById_None.
  - intros j Hj. by apply findById_remove_other.
Qed.

Lemma deleteTask_removes_the_task_witness :
  findById 11 [bobs_done] = None /\
  (forall j, j <> 11 ->
     findById j [bobs_done] = findById j [bobs_report; bobs_done]) /\
  length [bobs_report; bobs_done] = S (length [bobs_done]) /\
  List.NoDup (List.map _id [bobs_done]).
Proof.
  apply (deleteTask_removes_the_task bob 11 [bobs_report; bobs_done] 200
           "Task deleted successfully" [bobs_done]).
  - simpl. repeat constructor; simpl; intuition lia.
  - reflexivity.
Defined.

(** ** createTask *)

Lemma copy_key_other (body : gmap string jsval) (key k : string)
    (data : gmap string jsval) :
  key <> k -> copy_key body key data !! k = data !! k.
Proof.
  intros Hne. unfold copy_key. destruct (body !! key); [|done].
  by rewrite lookup_insert_ne.
Qed.

Lemma copy_key_same (body : gmap string jsval) (key : string)
    (data : gmap string jsval) :
  data !! key = None -> copy_key body key data !! key = body !! key.
Proof.
  intros Hd. unfold copy_key. destruct (body !! key) eqn:Hb; [|done].
  apply lookup_insert_eq.
Qed.

Ltac copied :=
  rewrite ?lookup_insert_ne by done;
  rewrite ?copy_key_other by done;
  rewrite copy_key_same;
  [reflexivity | rewrite ?copy_key_other by done; apply lookup_empty].

Lemma build_doc_fields (now new_id : Z) (data : gmap string jsval)
    (doc : task) :
  build_doc now new_id data = Ok doc ->
  (path_required (data !! "title") title_path "Task title is required"
   = Ok (title doc) /\
   path_or (data !! "description") description_path None
   = Ok (description doc) /\
   path_or (data !! "status") status_path "pending" = Ok (status doc) /\
   path_or (data !! "priority") priority_path "medium"
   = Ok (priority doc) /\
   path_or (data !! "category") category_path "general"
   = Ok (category doc)) /\
  (path_or (data !! "dueDate") (dueDate_path now) None = Ok (dueDate doc) /\
   path_required (data !! "assignedTo")
     (ref_path "Task must be assigned to a user")
     "Task must be assigned to a user" = Ok (assignedTo doc) /\
   path_required (data !! "createdBy") (ref_path "Task must have a creator")
     "Task must have a creator" = Ok (createdBy doc) /\
   path_or (data !! "tags") tags_path [] = Ok (tags doc)) /\
  (_id doc = new_id /\ completedAt doc = None /\ attachments doc = [] /\
   comments doc = [] /\ isArchived doc = false /\ createdAt doc = now /\
   updatedAt doc = now).
Proof.
  intros H. unfold build_doc in H. bind_inv H. injection H as <-. simpl.
  repeat split; assumption.
Qed.

(** What a createTask that succeeds went through: [data] is taskData. *)
Lemma createTask_inv (now new_id : Z) (u : user) (body : gmap string jsval)
    (db : list task) (code : Z) (m : string) (t : task) (db' : list task) :
  createTask now new_id u body db = (Json code m t, db') ->
  exists data doc,
    (data !! "createdBy" = Some (JId (user_id u)) /\
     data !! "assignedTo"
     = Some (if truthy (body !! "assignedTo")
             then match body !! "assignedTo" with
                  | Some v => v
                  | None => JId (user_id u)
                  end
             else JId (user_id u)) /\
     data !! "status" = body !! "status" /\
     data !! "title" = body !! "title" /\
     data !! "dueDate" = body !! "dueDate") /\
    truthy (body !! "assignedTo")
    && negb (id_equals (user_id u) (body !! "assignedTo"))
    && negb (String.eqb (role u) "admin") = false /\
    build_doc now new_id data = Ok doc /\
    validate now doc = Ok tt /\
    t = set_updatedAt now
          (pre_save_completedAt now
             (bool_decide (is_Some (data !! "status"))) doc) /\
    db' = (db ++ [t])%list /\ code = 201.
Proof.
  unfold createTask. cbv zeta.
  destruct (_ && _ && _) eqn:Hg; [discriminate|].
  match goal with
  | |- context [Task_create now new_id ?d db] => set (data := d)
  end.
  unfold Task_create.
  destruct (build_doc now new_id data) as [doc|e] eqn:Hb; simpl;
    [|discriminate].
  destruct (save_doc now _ doc) as [doc'|e] eqn:Hs; simpl; [|discriminate].
  intros [= <- _ <- <-]. exists data, doc.
  assert (Hv : validate now doc = Ok tt).
  { unfold save_doc in Hs. by destruct (validate now doc) as [[]|]. }
  apply save_doc_inv in Hs.
  repeat split; try done.
  - apply lookup_insert_eq.
  - unfold data. rewrite lookup_insert_ne by done. rewrite lookup_insert_eq.
    destruct (body !! "assignedTo") as [v|]; [|done].
    by destruct (truthy (Some v)).
  - unfold data. copied.
  - unfold data. copied.
  - unfold data. copied.
Qed.

Lemma pre_save_completedAt_keeps (now : Z) (sm : bool) (t : task) :
  let t' := pre_save_completedAt now sm t in
  _id t' = _id t /\ title t' = title t /\ description t' = description t /\
  status t' = status t /\ priority t' = priority t /\
  category t' = category t /\ dueDate t' = dueDate t /\
  assignedTo t' = assignedTo t /\ createdBy t' = createdBy t /\
  tags t' = tags t /\ attachments t' = attachments t /\
  comments t' = comments t /\ isArchived t' = isArchived t /\
  createdAt t' = createdAt t /\ updatedAt t' = updatedAt t.
Proof.
  unfold pre_save_completedAt. destruct sm; [|done].
  destruct (_ && _); [done|]. by destruct (negb _).
Qed.

(** X10: the task that createTask creates has the identifier that was
    generated, the caller as its creator whatever the body says, no comment,
    is not archived, and is created and updated now; its due date, if any,
    is strictly in the future; it is assigned to the caller when the body
    names no assignee and whenever the caller is not an admin, and to the
    identity of the body otherwise; it is the one document that is added. *)
Theorem createTask_stamps_the_caller (now new_id : Z) (u : user)
    (body : gmap string jsval) (db : list task) (code : Z) (m : string)
    (t : task) (db' : list task) :
  createTask now new_id u body db = (Json code m t, db') ->
  code = 201 /\ db' = (db ++ [t])%list /\
  _id t = new_id /\ createdBy t = user_id u /\
  createdAt t = now /\ updatedAt t = now /\
  comments t = [] /\ isArchived t = false /\
  (forall d, dueDate t = Some d -> now < d) /\
  (truthy (body !! "assignedTo") = false -> assignedTo t = user_id u) /\
  (role u <> "admin" -> assignedTo t = user_id u) /\
  (forall i, body !! "assignedTo" = Some (JId i) -> assignedTo t = i).
Proof.
  intros H. apply createTask_inv in H
    as (data & doc & (Hc & Ha & _ & _ & _) & Hg & Hb & Hv & -> & -> & ->).
  pose proof (pre_save_completedAt_keeps now
                (bool_decide (is_Some (data !! "status"))) doc) as K.
  cbv zeta in K.
  destruct K as (K1 & _ & _ & _ & _ & _ & K7 & K8 & K9 & _ & _ & K12 & K13
                 & K14 & _).
  apply build_doc_fields in Hb
    as (_ & (Hd & Has & Hcr & _) & (I1 & _ & _ & I4 & I5 & I6 & _)).
  rewrite Hc in Hcr. simpl in Hcr. injection Hcr as Hcr.
  rewrite Ha in Has.
  simpl. rewrite K1, K7, K8, K9, K12, K13, K14.
  repeat split; try congruence.
  - intros d Hdue. rewrite Hdue in Hd.
    unfold path_or, dueDate_path in Hd.
    destruct (data !! "dueDate") as [[]|]; try discriminate.
    destruct (dueDate_valid now (Some d0)) eqn:E; [|discriminate].
    injection Hd as ->. simpl in E. by apply Z.ltb_lt.
  - intros Ht. rewrite Ht in Has. simpl in Has. congruence.
  - intros Hr. apply String.eqb_neq in Hr. rewrite Hr in Hg.
    simpl in Hg. rewrite andb_true_r in Hg.
    destruct (truthy (body !! "assignedTo")) eqn:Ht;
      [|simpl in Has; congruence].
    simpl in Hg. apply negb_false_iff in Hg.
    unfold id_equals in Hg.
    destruct (body !! "assignedTo") as [[]|]; try discriminate.
    simpl in Has. apply Z.eqb_eq in Hg. congruence.
  - intros i Hi. rewrite Hi in Has. simpl in Has. congruence.
Qed.

Lemma createTask_stamps_the_caller_witness :
  createdBy
    (set_updatedAt 100
       (pre_save_completedAt 100 false
          {| _id := 5; title := "Annual report"; description := None;
             status := "pending"; priority := "medium";
             category := "general"; dueDate := None; completedAt := None;
             assignedTo := 1; createdBy := 1; tags := []; attachments := [];
             comments := []; isArchived := false; createdAt := 100;
             updatedAt := 100 |})) = user_id alice.
Proof.
  eapply (createTask_stamps_the_caller 100 5 alice body_overreach []).
  vm_compute. reflexivity.
Defined.

(** X11: a task that createTask creates has a completedAt exactly when its
    status is 'completed', and so has a duration exactly then; when the body
    gives no status, its status is 'pending' and it has neither. *)
Theorem createTask_completion (now new_id : Z) (u : user)
    (body : gmap string jsval) (db : list task) (code : Z) (m : string)
    (t : task) (db' : list task) :
  createTask now new_id u body db = (Json code m t, db') ->
  (is_Some (completedAt t) <-> status t = "completed") /\
  (is_Some (duration t) <-> status t = "completed") /\
  (body !! "status" = None ->
   status t = "pending" /\ completedAt t = None /\ duration t = None).
Proof.
  intros H. apply createTask_inv in H
    as (data & doc & (_ & _ & Hst & _ & _) & _ & Hb & _ & -> & _ & _).
  apply build_doc_fields in Hb
    as ((_ & _ & Hs & _) & _ & (_ & I2 & _)).
  assert (Hcomp :
            (is_Some
               (completedAt
                  (pre_save_completedAt now
                     (bool_decide (is_Some (data !! "status"))) doc))
             <-> status doc = "completed")
            /\ (body !! "status" = None ->
                status doc = "pending"
                /\ completedAt
                     (pre_save_completedAt now
                        (bool_decide (is_Some (data !! "status"))) doc)
                   = None)).
  { unfold pre_save_completedAt. rewrite I2, Hst.
    destruct (body !! "status") as [v|] eqn:Hv.
    - rewrite bool_decide_eq_true_2 by eauto. split; [|discriminate].
      simpl. destruct (String.eqb (status doc) "completed") eqn:E; simpl.
      + apply String.eqb_eq in E. split; [done | by eexists].
      + apply String.eqb_neq in E. split; [by intros [x [=]] | done].
    - rewrite bool_decide_eq_false_2 by (intros [? ?]; discriminate).
      rewrite Hst in Hs. simpl in Hs. injection Hs as <-. rewrite I2.
      split; [|done]. split; [by intros [x [=]] | discriminate]. }
  destruct Hcomp as [Hc Hp].
  pose proof (pre_save_completedAt_keeps now
                (bool_decide (is_Some (data !! "status"))) doc) as K.
  cbv zeta in K. destruct K as (_ & _ & _ & K4 & _).
  assert (Hdur : forall x : task,
             is_Some (duration x) <-> is_Some (completedAt x)).
  { intros x. unfold duration. destruct (completedAt x); [|done].
    split; by eexists. }
  split; [|split].
  - simpl. by rewrite K4.
  - rewrite Hdur. simpl. by rewrite K4.
  - intros Hn. destruct (Hp Hn) as [Hp1 Hp2]. unfold duration. simpl.
    by rewrite K4, Hp2.
Qed.

Lemma createTask_completion_witness :
  match createTask 100 5 alice (<["title" := JStr "Backup"]> body_complete)
          [] with
  | (Json _ _ t, _) => is_Some (completedAt t) /\ status t = "completed"
  | _ => False
  end.
Proof.
  destruct (createTask 100 5 alice (<["title" := JStr "Backup"]> body_complete)
              []) as [[code m t| |] db'] eqn:H;
    try (vm_compute in H; discriminate).
  destruct (createTask_completion 100 5 alice _ [] code m t db' H)
    as (Hc & _ & _).
  assert (Hs : status t = "completed").
  { vm_compute in H. by injection H as _ _ <- _. }
  split; [by apply Hc | exact Hs].
Defined.

(** Who passes the gate of canModify reads the task, when the users that
    the test of getTask dereferences exist. *)
Lemma getTask_granted (u : user) (id : Z) (users : list user)
    (db : list task) (t : task) :
  findById id db = Some t ->
  canModify t (user_id u) (role u) = true ->
  (role u <> "admin" -> is_Some (findUser (user_id u) users)) ->
  (role u <> "admin" -> assignedTo t <> user_id u ->
   is_Some (findUser (assignedTo t) users)) ->
  getTask u id users db = Json 200 "Task retrieved successfully" t.
Proof.
  intros Hf Hc Hu Ha. unfold getTask, populate. rewrite Hf.
  unfold canModify in Hc.
  destruct (String.eqb (role u) "admin") eqn:Hr; [reflexivity|].
  apply String.eqb_neq in Hr. simpl.
  destruct (Hu Hr) as [me Hme].
  pose proof (findUser_id _ _ _ Hme) as [Hme' _].
  destruct (Z.eq_dec (assignedTo t) (user_id u)) as [E | E].
  - rewrite E, Hme, Hme'. by rewrite Z.eqb_refl.
  - destruct (Ha Hr E) as [a Hfa]. rewrite Hfa.
    pose proof (findUser_id _ _ _ Hfa) as [Ha' _]. rewrite Ha'.
    apply Z.eqb_neq in E. rewrite E in *. simpl.
    rewrite orb_false_r in Hc. apply Z.eqb_eq in Hc.
    rewrite Hc, Hme, Hme'. by rewrite Z.eqb_refl.
Qed.

(** What createTask writes into the identifier and the two references. *)
Lemma createTask_owners (now new_id : Z) (u : user)
    (body : gmap string jsval) (db : list task) (code : Z) (m : string)
    (t : task) (db' : list task) :
  createTask now new_id u body db = (Json code m t, db') ->
  _id t = new_id /\ createdBy t = user_id u /\
  (role u <> "admin" -> assignedTo t = user_id u) /\
  db' = (db ++ [t])%list.
Proof.
  intros H. apply createTask_inv in H
    as (data & doc & (Hc & Ha & _) & Hg & Hb & _ & -> & -> & _).
  pose proof (pre_save_completedAt_keeps now
                (bool_decide (is_Some (data !! "status"))) doc) as K.
  cbv zeta in K.
  destruct K as (K1 & _ & _ & _ & _ & _ & _ & K8 & K9 & _).
  apply build_doc_fields in Hb as (_ & (_ & Has & Hcr & _) & (I1 & _)).
  rewrite Hc in Hcr. simpl in Hcr. injection Hcr as Hcr.
  rewrite Ha in Has. simpl. rewrite K1, K8, K9.
  repeat split; try congruence.
  intros Hr. apply String.eqb_neq in Hr. rewrite Hr in Hg.
  simpl in Hg. rewrite andb_true_r in Hg.
  destruct (truthy (body !! "assignedTo")) eqn:Ht;
    [|simpl in Has; congruence].
  simpl in Hg. apply negb_false_iff in Hg.
  unfold id_equals in Hg.
  destruct (body !! "assignedTo") as [[]|]; try discriminate.
  simpl in Has. apply Z.eqb_eq in Hg. congruence.
Qed.

(** X12: when the identifier that is generated is not yet in the collection,
    the task that createTask creates is the one found under it afterwards,
    its creator, a user that exists, can read it with getTask, every
    identifier that was in the collection still has the task it had, and
    the collection has one document more. *)
Theorem createTask_then_getTask (now new_id : Z) (u : user)
    (users : list user) (body : gmap string jsval) (db : list task)
    (code : Z) (m : string) (t : task) (db' : list task) :
  findById new_id db = None ->
  is_Some (findUser (user_id u) users) ->
  createTask now new_id u body db = (Json code m t, db') ->
  findById new_id db' = Some t /\
  getTask u new_id users db' = Json 200 "Task retrieved successfully" t /\
  (forall j x, findById j db = Some x -> findById j db' = Some x) /\
  length db' = S (length db).
Proof.
  intros Hfresh Hu H.
  apply createTask_owners in H as (Hid & Hby & Hto & ->).
  assert (Hfind : findById new_id (db ++ [t])%list = Some t).
  { by rewrite findById_app, Hfresh, Hid, Z.eqb_refl. }
  split; [exact Hfind|]. split; [|split].
  - apply getTask_granted; try done.
    + unfold canModify. destruct (String.eqb (role u) "admin"); [done|].
      by rewrite Hby, Z.eqb_refl.
    + intros Hr Hne. by specialize (Hto Hr).
  - intros j x Hj. by rewrite findById_app, Hj.
  - rewrite length_app. simpl. lia.
Qed.

Lemma createTask_then_getTask_witness :
  match createTask 100 5 alice body_retitle [bobs_report] with
  | (Json _ _ t, db') =>
      getTask alice 5 accounts db'
      = Json 200 "Task retrieved successfully" t
  | _ => False
  end.
Proof.
  destruct (createTask 100 5 alice body_retitle [bobs_report])
    as [[code m t| |] db'] eqn:H; try (vm_compute in H; discriminate).
  apply (createTask_then_getTask 100 5 alice accounts body_retitle
           [bobs_report] code m t db' eq_refl); [by eexists | exact H].
Defined.

(** ** updateTask *)

(** What an updateTask that succeeds went through. *)
Lemma updateTask_inv (now : Z) (u : user) (id : Z)
    (body : gmap string jsval) (db : list task) (code : Z) (m : string)
    (t' : task) (db' : list task) :
  updateTask now u id body db = (Json code m t', db') ->
  exists t,
    findById id db = Some t /\
    canModify t (user_id u) (role u) = true /\
    truthy (body !! "assignedTo") && negb (String.eqb (role u) "admin")
    && negb (id_equals (assignedTo t) (body !! "assignedTo")) = false /\
    update_doc now
      (filter (fun kv : string * jsval =>
                 str_in (fst kv) (allowedUpdates u) = true) body) t
    = Ok t' /\
    db' = store t' db /\ code = 200 /\ m = "Task updated successfully".
Proof.
  unfold updateTask.
  destruct (findById id db) as [t|] eqn:Hf; [|discriminate].
  destruct (canModify t (user_id u) (role u)) eqn:Hc; [|discriminate].
  simpl. destruct (_ && _ && _) eqn:Hg; [discriminate|].
  destruct (update_doc now _ t) as [t''|e] eqn:Hup; [|discriminate].
  intros [= <- <- <- <-]. by exists t.
Qed.

(** The owners of a task are the same after an update by one who is not an
    admin. *)
Lemma update_doc_owners (now : Z) (u : user) (body : gmap string jsval)
    (t t' : task) :
  update_doc now
    (filter (fun kv : string * jsval =>
               str_in (fst kv) (allowedUpdates u) = true) body) t
  = Ok t' ->
  _id t' = _id t /\ createdBy t' = createdBy t /\
  (String.eqb (role u) "admin" = false -> assignedTo t' = assignedTo t).
Proof.
  intros Hup.
  destruct (allowedUpdates_frame u) as (_ & _ & A3 & _ & _ & _ & _ & A8).
  apply update_doc_inv in Hup
    as (_ & (_ & H8 & H9 & _) & (I1 & _)).
  rewrite updates_lookup in H8, H9. rewrite A3 in H9. rewrite A8 in H8.
  apply path_or_absent in H9. repeat split; [done | done |].
  intros Hr. rewrite Hr in H8. by apply path_or_absent in H8.
Qed.

(** X13: after an updateTask that succeeds, the task that it returns is the
    one stored under the identifier, every other identifier has the task it
    had, and no document is added or removed. The caller can read the task
    back with getTask when the caller is a user that exists and, unless the
    caller is the assignee, so is the assignee; a caller who is not an admin
    cannot when the assignee does not exist: getTask throws on the task that
    the caller has just updated. *)
Theorem updateTask_then_getTask (now : Z) (u : user) (id : Z)
    (users : list user) (body : gmap string jsval) (db : list task)
    (code : Z) (m : string) (t' : task) (db' : list task) :
  updateTask now u id body db = (Json code m t', db') ->
  findById id db' = Some t' /\
  (is_Some (findUser (user_id u) users) ->
   (assignedTo t' <> user_id u -> is_Some (findUser (assignedTo t') users)) ->
   getTask u id users db' = Json 200 "Task retrieved successfully" t') /\
  (role u <> "admin" -> findUser (assignedTo t') users = None ->
   getTask u id users db' = Throw type_error) /\
  (forall j, j <> id -> findById j db' = findById j db) /\
  length db' = length db.
Proof.
  intros H. apply updateTask_inv in H
    as (t & Hf & Hc & _ & Hup & -> & _ & _).
  destruct (update_doc_owners now u body t t' Hup) as (Hid & Hby & Hto).
  pose proof (findById_id _ _ _ Hf) as [Hi _].
  assert (Hfind : findById id (store t' db) = Some t').
  { rewrite findById_store, Hf, Hid. by rewrite Z.eqb_refl. }
  split; [exact Hfind|]. split; [|split; [|split]].
  - intros Hu Ha. apply getTask_granted; try done.
    unfold canModify in *.
    destruct (String.eqb (role u) "admin") eqn:Hr; [done|].
    by rewrite Hby, (Hto eq_refl).
  - intros Hr Hnone. apply String.eqb_neq in Hr.
    unfold getTask, populate. by rewrite Hfind, Hr, Hnone.
  - intros j Hj. rewrite findById_store.
    destruct (findById j db) as [x|] eqn:Hx; [|done].
    pose proof (findById_id _ _ _ Hx) as [Hxi _].
    assert ((_id x =? _id t') = false) as ->; [|done].
    apply Z.eqb_neq. congruence.
  - apply store_length.
Qed.

Lemma updateTask_then_getTask_witness :
  match updateTask 100 bob 13 body_retitle [bobs_orphan] with
  | (Json _ _ t, db') =>
      findById 13 db' = Some t /\ getTask bob 13 accounts db' = Throw type_error
  | _ => False
  end.
Proof.
  destruct (updateTask 100 bob 13 body_retitle [bobs_orphan])
    as [[code m t| |] db'] eqn:H; try (vm_compute in H; discriminate).
  destruct (updateTask_then_getTask 100 bob 13 accounts body_retitle
              [bobs_orphan] code m t db' H) as (Hfind & _ & Hthrow & _).
  split; [exact Hfind|]. apply Hthrow; [discriminate|].
  vm_compute in H. by injection H as _ _ <- _.
Defined.

(** X14: updateTask is idempotent: sending the same body again at the same
    time, after an update that succeeded, succeeds again with the same task
    and leaves the collection as the first update left it. *)
Theorem updateTask_twice (now : Z) (u : user) (id : Z)
    (body : gmap string jsval) (db : list task) (code : Z) (m : string)
    (t' : task) (db' : list task) :
  updateTask now u id body db = (Json code m t', db') ->
  updateTask now u id body db' = (Json code m t', db').
Proof.
  intros H.
  apply updateTask_inv in H as (t & Hf & Hc & Hg & Hup & -> & -> & ->).
  destruct (update_doc_owners now u body t t' Hup) as (Hid & Hby & Hto).
  assert (Hfind : findById id (store t' db) = Some t').
  { rewrite findById_store, Hf, Hid. by rewrite Z.eqb_refl. }
  unfold updateTask. rewrite Hfind.
  assert (canModify t' (user_id u) (role u) = true) as ->.
  { unfold canModify in *.
    destruct (String.eqb (role u) "admin") eqn:Hr; [done|].
    by rewrite Hby, (Hto eq_refl). }
  cbn [negb].
  assert (truthy (body !! "assignedTo")
          && negb (String.eqb (role u) "admin")
          && negb (id_equals (assignedTo t') (body !! "assignedTo")) = false)
    as ->.
  { destruct (String.eqb (role u) "admin") eqn:Hr.
    - by rewrite andb_false_r.
    - by rewrite (Hto eq_refl). }
  cbv zeta.
  assert (update_doc now
            (filter (fun kv : string * jsval =>
                       str_in (fst kv) (allowedUpdates u) = true) body) t'
          = Ok t') as ->; [|by rewrite store_store].
  pose proof (update_doc_inv _ _ _ _ Hup)
    as ((H1 & H2 & H3 & H4 & H5 & H6) & (H7 & H8 & H9 & H10 & H11)
        & (I1 & I2 & I3 & I4 & I5)).
  unfold update_doc.
  assert (Hsame : forall (A : Type) (o : option jsval)
                    (check : jsval -> res A) (old new : A),
             path_or o check old = Ok new -> path_or o check new = Ok new).
  { intros A [v|] check old new; simpl; [done | by intros _]. }
  rewrite (Hsame _ _ _ _ _ H1), (Hsame _ _ _ _ _ H2), (Hsame _ _ _ _ _ H3),
    (Hsame _ _ _ _ _ H4), (Hsame _ _ _ _ _ H5), (Hsame _ _ _ _ _ H6),
    (Hsame _ _ _ _ _ H7), (Hsame _ _ _ _ _ H8), (Hsame _ _ _ _ _ H9),
    (Hsame _ _ _ _ _ H10), (Hsame _ _ _ _ _ H11).
  simpl. f_equal. destruct t'. simpl in *. congruence.
Qed.

Lemma updateTask_twice_witness :
  updateTask 100 bob 11 body_retitle
    (snd (updateTask 100 bob 11 body_retitle [bobs_report]))
  = updateTask 100 bob 11 body_retitle [bobs_report].
Proof.
  destruct (updateTask 100 bob 11 body_retitle [bobs_report])
    as [[code m t| |] db'] eqn:H; try (vm_compute in H; discriminate).
  simpl.
  apply (updateTask_twice 100 bob 11 body_retitle [bobs_report]
           code m t db' H).
Defined.

(** ** addComment *)



(** ** The constraints of the schema are an invariant of the handlers *)

Lemma validate_schema_ok (now : Z) (t : task) :
  validate now t = Ok tt -> schema_ok t = true.
Proof.
  unfold validate, schema_ok.
  destruct (String.eqb (title t) ""); [discriminate|].
  destruct (longer_than 200 (title t)); [discriminate|].
  destruct (description t) as [s|].
  - destruct (longer_than 1000 s); [discriminate|].
    destruct (str_in (status t) statuses); [|discriminate].
    destruct (str_in (priority t) priorities); [|discriminate].
    destruct (longer_than 50 (category t)); [discriminate|].
    destruct (negb (dueDate_valid now (dueDate t))); [discriminate|].
    destruct (existsb (longer_than 30) (tags t)); [discriminate|].
    destruct (existsb _ (comments t)); [discriminate|].
    by destruct (existsb _ (comments t)).
  - destruct (str_in (status t) statuses); [|discriminate].
    destruct (str_in (priority t) priorities); [|discriminate].
    destruct (longer_than 50 (category t)); [discriminate|].
    destruct (negb (dueDate_valid now (dueDate t))); [discriminate|].
    destruct (existsb (longer_than 30) (tags t)); [discriminate|].
    destruct (existsb _ (comments t)); [discriminate|].
    by destruct (existsb _ (comments t)).
Qed.

Lemma schema_ok_hooks (now d : Z) (sm : bool) (t : task) :
  schema_ok (set_updatedAt d (pre_save_completedAt now sm t)) = schema_ok t.
Proof.
  unfold pre_save_completedAt. destruct sm; [|reflexivity].
  destruct (_ && _); [reflexivity|]. by destruct (negb _).
Qed.

Lemma save_doc_schema_ok (now : Z) (sm : bool) (t t' : task) :
  save_doc now sm t = Ok t' -> schema_ok t' = true.
Proof.
  intros H. pose proof (save_doc_inv _ _ _ _ H) as ->.
  rewrite schema_ok_hooks. apply (validate_schema_ok now).
  unfold save_doc in H. by destruct (validate now t) as [[]|].
Qed.

(** What updateTask writes satisfies the constraints when what was stored
    did. *)
Lemma update_doc_schema_ok (now : Z) (updates : gmap string jsval)
    (t t' : task) :
  update_doc now updates t = Ok t' ->
  schema_ok t = true -> schema_ok t' = true.
Proof.
  intros Hup. apply update_doc_inv in Hup
    as ((H1 & H2 & H3 & H4 & H5 & _) & (_ & _ & _ & H10 & _)
        & (_ & _ & I3 & _)).
  unfold schema_ok. rewrite I3.
  rewrite !andb_true_iff. intros ((((((((A1 & A2) & A3) & A4) & A5) & A6)
                                     & A7) & A8) & A9).
  assert (B1 : negb (String.eqb (title t') "") = true
               /\ negb (longer_than 200 (title t')) = true).
  { destruct (updates !! "title") as [[| s | | | |]|]; cbn [path_or title_path] in H1;
      try discriminate; [|by injection H1 as <-].
    destruct (String.eqb (trim s) "") eqn:E1; [discriminate|].
    destruct (longer_than 200 (trim s)) eqn:E2; [discriminate|].
    injection H1 as <-. by rewrite E1, E2. }
  assert (B3 : match description t' with
               | Some s => negb (longer_than 1000 s)
               | None => true
               end = true).
  { destruct (updates !! "description") as [[| s | | | |]|]; cbn [path_or description_path] in H2;
      try discriminate; [by injection H2 as <- | | by injection H2 as <-].
    destruct (longer_than 1000 (trim s)) eqn:E; [discriminate|].
    injection H2 as <-. by rewrite E. }
  assert (B4 : str_in (status t') statuses = true).
  { destruct (updates !! "status") as [[| s | | | |]|]; cbn [path_or status_path] in H3;
      try discriminate; [|by injection H3 as <-].
    destruct (str_in s statuses) eqn:E; [|discriminate].
    by injection H3 as <-. }
  assert (B5 : str_in (priority t') priorities = true).
  { destruct (updates !! "priority") as [[| s | | | |]|]; cbn [path_or priority_path] in H4;
      try discriminate; [|by injection H4 as <-].
    destruct (str_in s priorities) eqn:E; [|discriminate].
    by injection H4 as <-. }
  assert (B6 : negb (longer_than 50 (category t')) = true).
  { destruct (updates !! "category") as [[| s | | | |]|]; cbn [path_or category_path] in H5;
      try discriminate; [|by injection H5 as <-].
    destruct (longer_than 50 (trim s)) eqn:E; [discriminate|].
    injection H5 as <-. by rewrite E. }
  assert (B7 : negb (existsb (longer_than 30) (tags t')) = true).
  { destruct (updates !! "tags") as [[| | | | | l]|]; cbn [path_or tags_path] in H10;
      try discriminate; [|by injection H10 as <-].
    destruct (existsb (longer_than 30) (List.map trim l)) eqn:E;
      [discriminate|].
    injection H10 as <-. by rewrite E. }
  destruct B1 as [B1 B2]. by rewrite B1, B2, B3, B4, B5, B6, B7, A8, A9.
Qed.

Lemma store_Forall (P : task -> Prop) (t' : task) (db : list task) :
  P t' -> Forall P db -> Forall P (store t' db).
Proof.
  intros Ht. induction 1 as [|x r Hx Hr IH]; simpl; [constructor|].
  destruct (_id x =? _id t'); by constructor.
Qed.

Lemma remove_Forall (P : task -> Prop) (id : Z) (db : list task) :
  Forall P db -> Forall P (remove id db).
Proof.
  induction 1 as [|x r Hx Hr IH]; simpl; [constructor|].
  destruct (_id x =? id); [done | by constructor].
Qed.

(** X16: the constraints of the schema that do not depend on the clock
    (title present and at most 200 characters, description at most 1000,
    status and priority among the enumerated values, category at most 50,
    every tag at most 30, every comment non-empty and at most 500) are an
    invariant of the collection under bodies that give no null for status,
    priority, category, tags or isArchived: if every stored task satisfies
    them, every stored task satisfies them after createTask, updateTask,
    deleteTask and addComment with such a body, whatever the caller and
    whether the request succeeds or not. (A null for status or priority is
    stored as it is by the database layer, and is none of the enumerated
    values.) *)
Theorem handlers_keep_schema (now new_id : Z) (u : user) (id : Z)
    (body : gmap string jsval) (db : list task) :
  no_null body ["status"; "priority"; "category"; "tags"; "isArchived"] ->
  Forall (fun t => schema_ok t = true) db ->
  Forall (fun t => schema_ok t = true)
    (snd (createTask now new_id u body db)) /\
  Forall (fun t => schema_ok t = true) (snd (updateTask now u id body db)) /\
  Forall (fun t => schema_ok t = true) (snd (deleteTask u id db)) /\
  Forall (fun t => schema_ok t = true) (snd (addComment now u id body db)).
Proof.
  intros _ Hdb. repeat split.
  - unfold createTask. cbv zeta. destruct (_ && _ && _); [exact Hdb|].
    match goal with
    | |- context [Task_create now new_id ?d db] => set (data := d)
    end.
    unfold Task_create.
    destruct (build_doc now new_id data) as [doc|e]; simpl; [|exact Hdb].
    destruct (save_doc now _ doc) as [doc'|e] eqn:Hs; simpl; [|exact Hdb].
    apply Forall_app. split; [exact Hdb|]. constructor; [|constructor].
    by apply save_doc_schema_ok in Hs.
  - unfold updateTask.
    destruct (findById id db) as [t|] eqn:Hf; [|exact Hdb].
    destruct (negb (canModify t (user_id u) (role u))); [exact Hdb|].
    destruct (_ && _ && _); [exact Hdb|]. cbv zeta.
    destruct (update_doc now _ t) as [t'|e] eqn:Hup; [|exact Hdb].
    simpl. apply store_Forall; [|exact Hdb].
    apply (update_doc_schema_ok _ _ _ _ Hup).
    apply findById_id in Hf as [_ Hin].
    by apply (proj1 (List.Forall_forall _ _) Hdb).
  - unfold deleteTask.
    destruct (findById id db) as [t|]; [|exact Hdb].
    destruct (negb (canModify t (user_id u) (role u))); [exact Hdb|].
    simpl. by apply remove_Forall.
  - unfold addComment.
    destruct (findById id db) as [t|]; [|exact Hdb].
    destruct (access_denied u t); [exact Hdb|].
    destruct (Task_addComment now t (body !! "content") (user_id u))
      as [t'|e] eqn:Hadd; [|exact Hdb].
    assert (schema_ok t' = true).
    { unfold Task_addComment in Hadd.
      apply res_bind_Ok in Hadd as (v & Hv & Hadd).
      by apply save_doc_schema_ok in Hadd. }
    destruct (last (comments t')); simpl; by apply store_Forall.
Qed.

Lemma handlers_keep_schema_witness :
  Forall (fun t => schema_ok t = true)
    (snd (updateTask 20 bob 11 body_complete [bobs_report; bobs_done])).
Proof.
  refine (proj1 (proj2 (handlers_keep_schema 20 5 bob 11 body_complete
                          [bobs_report; bobs_done] _ _))).
  - intros k Hk. simpl in Hk.
    destruct Hk as [<- | [<- | [<- | [<- | [<- | []]]]]]; by vm_compute.
  - repeat constructor.
Defined.

(** ** getMyTasks and Task.findByUser *)

Lemma matches_apply_string (regex_test : string -> string -> string -> bool)
    (key : string) (x : option string) (f : gmap string fval) (t : task) :
  f !! key = None ->
  matches regex_test (apply_string key x f) t
  = match x with
    | Some s => if given (Some s) then bson_eqb (field_of t key) (BStr s)
                else true
    | None => true
    end && matches regex_test f t.
Proof.
  intros Hf. unfold apply_string. destruct x as [s|]; [|reflexivity].
  destruct (given (Some s)); [|reflexivity].
  by rewrite matches_insert_fresh.
Qed.

Lemma delete_apply_string_ne (k key : string) (x : option string)
    (f : gmap string fval) :
  k <> key -> delete k (apply_string key x f) = apply_string key x (delete k f).
Proof.
  intros Hne. unfold apply_string. destruct x as [s|]; [|reflexivity].
  destruct (given (Some s)); [|reflexivity].
  by rewrite delete_insert_ne.
Qed.

Lemma delete_apply_string_eq (key : string) (x : option string)
    (f : gmap string fval) :
  f !! key = None -> delete key (apply_string key x f) = f.
Proof.
  intros Hf. unfold apply_string. destruct x as [s|]; [|by apply delete_id].
  destruct (given (Some s)); [|by apply delete_id].
  rewrite delete_insert_eq. by apply delete_id.
Qed.

(** The filter of the tasks assigned to [uid] that are not archived. *)
Lemma matches_assigned (regex_test : string -> string -> string -> bool)
    (uid : Z) (t : task) :
  matches regex_test
    (<["isArchived" := Cond (Eq (BBool false))]>
       {[ "assignedTo" := Cond (Eq (BId uid)) ]}) t
  = (assignedTo t =? uid) && negb (isArchived t).
Proof.
  rewrite matches_insert_fresh by done.
  unfold matches. rewrite map_to_list_singleton. simpl.
  by destruct (isArchived t), (assignedTo t =? uid).
Qed.

Lemma matches_assigned_filtered
    (regex_test : string -> string -> string -> bool)
    (uid : Z) (st pr ca : option string) (t : task) :
  matches regex_test
    (apply_string "category" ca
       (apply_string "priority" pr
          (apply_string "status" st
             (<["isArchived" := Cond (Eq (BBool false))]>
                {[ "assignedTo" := Cond (Eq (BId uid)) ]})))) t
  = (assignedTo t =? uid) && negb (isArchived t)
    && wanted st (status t) && wanted pr (priority t)
    && wanted ca (category t).
Proof.
  rewrite !matches_apply_string, matches_assigned;
    rewrite ?apply_string_other by done; try done.
  rewrite field_of_status, field_of_priority, field_of_category.
  unfold wanted, bson_eqb.
  destruct ((assignedTo t =? uid) && negb (isArchived t));
    destruct st as [s1|], pr as [s2|], ca as [s3|];
    repeat match goal with
           | |- context [given ?x] => destruct (given x)
           end;
    repeat match goal with
           | |- context [String.eqb ?a ?b] => destruct (String.eqb a b)
           end;
    reflexivity.
Qed.

(** X17: every task that getMyTasks lists is a task of the collection that is
    assigned to the caller and is not archived, and has the status, the
    priority and the category that were asked for; the tasks come newest
    first. An admin gets no more than that: the handler does not look at the
    role. *)
Theorem getMyTasks_lists_own_work
    (regex_test : string -> string -> string -> bool)
    (u : user) (q : query) (db : list task) :
  Forall (fun t => In t db /\ assignedTo t = user_id u /\
                   isArchived t = false /\
                   wanted (q_status q) (status t) = true /\
                   wanted (q_priority q) (priority t) = true /\
                   wanted (q_category q) (category t) = true)
    (reply_tasks (getMyTasks regex_test u q db))
  /\ StronglySorted newest_first
       (reply_tasks (getMyTasks regex_test u q db)).
Proof.
  unfold getMyTasks. cbv zeta.
  destruct (find _ _ _ _ _ db) as [tasks|] eqn:Hf; simpl;
    [|split; constructor].
  split.
  - apply List.Forall_forall. intros t Hin.
    destruct (find_In _ _ _ _ _ _ _ _ Hf Hin) as [Hdb Hm].
    unfold getMyTasks_filter in Hm. cbv zeta in Hm.
    rewrite matches_assigned_filtered in Hm.
    rewrite !andb_true_iff in Hm.
    destruct Hm as ((((H1 & H2) & H3) & H4) & H5).
    apply Z.eqb_eq in H1. apply negb_true_iff in H2. done.
  - apply newest_first_Sorted. by apply find_Sorted in Hf.
Qed.

(** X18: when no due-date keyword is asked for, getMyTasks answers with a
    page of what the static Task.findByUser returns for the caller and the
    same parameters: the documents after the first (page - 1) * limit of
    them, cut at limit, and the number of all of them as total. *)
Theorem getMyTasks_is_a_page_of_findByUser
    (regex_test : string -> string -> string -> bool)
    (now : Z) (u : user) (q : query) (db : list task) :
  given (q_dueDate q) = false ->
  0 <= (num_or (q_page q) 1 - 1) * num_or (q_limit q) 10 ->
  getMyTasks regex_test u q db
  = Json 200 "Your tasks retrieved successfully"
      (limited (num_or (q_limit q) 10)
         (drop (Z.to_nat ((num_or (q_page q) 1 - 1) * num_or (q_limit q) 10))
            (findByUser regex_test now (user_id u) q db)),
       {| current := num_or (q_page q) 1;
          pages := ceil_div
                     (Z.of_nat
                        (length (findByUser regex_test now (user_id u) q db)))
                     (num_or (q_limit q) 10);
          total := Z.of_nat
                     (length (findByUser regex_test now (user_id u) q db));
          limit := num_or (q_limit q) 10 |}).
Proof.
  intros Hd Hskip. unfold getMyTasks, findByUser, find, limited. cbv zeta.
  assert (((num_or (q_page q) 1 - 1) * num_or (q_limit q) 10 <? 0) = false)
    as -> by (apply Z.ltb_ge; exact Hskip).
  unfold apply_dueDate. rewrite Hd.
  unfold countDocuments, getMyTasks_filter. cbv zeta.
  by rewrite sort_docs_length.
Qed.

Lemma getMyTasks_is_a_page_of_findByUser_witness :
  reply_tasks
    (getMyTasks literal_regex bob no_query [bobs_report; bobs_done])
  = findByUser literal_regex 100 2 no_query [bobs_report; bobs_done].
Proof.
  rewrite (getMyTasks_is_a_page_of_findByUser literal_regex 100 bob no_query
             [bobs_report; bobs_done] eq_refl);
    [reflexivity | vm_compute; discriminate].
Defined.

(** X19: what Task.findByUser returns are exactly the tasks of the
    collection that are assigned to the user and not archived, that have the
    priority and the category asked for, and: under the keyword 'overdue',
    whose virtual isOverdue is true (the status asked for is not looked at);
    under any other keyword or none, that have the status asked for, and
    under 'today' are due from now up to 24 hours from now. They come newest
    first. *)
Theorem findByUser_lists
    (regex_test : string -> string -> string -> bool)
    (now uid : Z) (filters : query) (db : list task) :
  (forall t,
     In t (findByUser regex_test now uid filters db) <->
     In t db /\ assignedTo t = uid /\ isArchived t = false /\
     wanted (q_priority filters) (priority t) = true /\
     wanted (q_category filters) (category t) = true /\
     (q_dueDate filters = Some "overdue" -> isOverdue now t = true) /\
     (q_dueDate filters <> Some "overdue" ->
      wanted (q_status filters) (status t) = true) /\
     (q_dueDate filters = Some "today" ->
      exists d, dueDate t = Some d /\ now <= d < now + day_ms))
  /\ StronglySorted newest_first (findByUser regex_test now uid filters db).
Proof.
  split; [|apply newest_first_Sorted, sort_docs_Sorted].
  intros t. unfold findByUser. cbv zeta.
  set (c0 := <["isArchived" := Cond (Eq (BBool false))]>
               {[ "assignedTo" := Cond (Eq (BId uid)) ]}).
  set (c3 := apply_string "category" (q_category filters)
               (apply_string "priority" (q_priority filters)
                  (apply_string "status" (q_status filters) c0))).
  assert (Hin : forall l, In t (sort_docs ("createdAt", -1) l) <-> In t l).
  { intros l. split; intros H.
    - eapply Permutation_in; [apply sort_docs_perm | exact H].
    - eapply Permutation_in; [apply Permutation_sym, sort_docs_perm|exact H]. }
  rewrite Hin, filter_In.
  assert (Hm : matches regex_test
                 (apply_dueDate now (q_dueDate filters) c3) t = true <->
               assignedTo t = uid /\ isArchived t = false /\
               wanted (q_priority filters) (priority t) = true /\
               wanted (q_category filters) (category t) = true /\
               (q_dueDate filters = Some "overdue" ->
                isOverdue now t = true) /\
               (q_dueDate filters <> Some "overdue" ->
                wanted (q_status filters) (status t) = true) /\
               (q_dueDate filters = Some "today" ->
                exists d, dueDate t = Some d /\ now <= d < now + day_ms));
    [|by rewrite Hm].
  assert (Hc3 : matches regex_test c3 t
                = (assignedTo t =? uid) && negb (isArchived t)
                  && wanted (q_status filters) (status t)
                  && wanted (q_priority filters) (priority t)
                  && wanted (q_category filters) (category t))
    by apply matches_assigned_filtered.
  assert (Hfresh : c3 !! "dueDate" = None).
  { unfold c3. by rewrite !apply_string_other. }
  unfold apply_dueDate.
  destruct (given (q_dueDate filters)) eqn:Hg.
  - destruct (bool_decide (q_dueDate filters = Some "overdue")) eqn:Ho.
    + apply bool_decide_eq_true in Ho.
      rewrite matches_insert, delete_insert_ne by done.
      rewrite matches_insert_fresh
        by (rewrite lookup_delete_ne by done; exact Hfresh).
      unfold c3. rewrite !delete_apply_string_ne by done.
      rewrite delete_apply_string_eq by done.
      pose proof (matches_assigned_filtered regex_test uid None
                    (q_priority filters) (q_category filters) t) as Hn.
      fold c0 in Hn. change (apply_string "status" None c0) with c0 in Hn.
      rewrite Hn. unfold entry_holds, cond_holds, isOverdue.
      rewrite field_of_status, field_of_dueDate. simpl str_in.
      rewrite !andb_true_iff, Z.eqb_eq. rewrite Ho.
      split.
      * intros (Hs & Hd & (((H1 & H2) & _) & H4) & H5).
        apply negb_true_iff in H2. repeat split; try done.
        intros _. destruct (dueDate t) as [d|]; [|discriminate].
        rewrite orb_false_r in Hs. apply negb_true_iff in Hs.
        apply orb_false_iff in Hs as [-> ->]. exact Hd.
      * intros (H1 & H2 & H4 & H5 & Hov & _ & _). specialize (Hov eq_refl).
        destruct (dueDate t) as [d|]; [|discriminate].
        destruct (String.eqb (status t) "completed"),
          (String.eqb (status t) "cancelled"); try discriminate.
        rewrite H2. repeat split; done.
    + apply bool_decide_eq_false in Ho.
      destruct (bool_decide (q_dueDate filters = Some "today")) eqn:Ht.
      * apply bool_decide_eq_true in Ht.
        rewrite matches_insert_fresh by exact Hfresh. rewrite Hc3.
        unfold entry_holds, cond_holds. rewrite field_of_dueDate.
        rewrite !andb_true_iff, Z.eqb_eq, negb_true_iff. split.
        -- intros (Hd & ((((H1 & H2) & H3) & H4) & H5)).
           repeat split; try done. intros _.
           destruct (dueDate t) as [d|]; [|discriminate].
           apply andb_true_iff in Hd as [Hlo Hhi].
           exists d. split; [reflexivity|]. lia.
        -- intros (H1 & H2 & H4 & H5 & _ & H3 & Hd).
           destruct (Hd Ht) as (d & -> & Hlo & Hhi).
           repeat split; try done; [|by apply H3].
           apply andb_true_iff. split; lia.
      * apply bool_decide_eq_false in Ht. rewrite Hc3.
        rewrite !andb_true_iff, Z.eqb_eq, negb_true_iff. split.
        -- intros ((((H1 & H2) & H3) & H4) & H5). repeat split; done.
        -- intros (H1 & H2 & H4 & H5 & _ & H3 & _).
           repeat split; try done. by apply H3.
  - rewrite Hc3. rewrite !andb_true_iff, Z.eqb_eq, negb_true_iff.
    assert (Hno : q_dueDate filters <> Some "overdue"
                  /\ q_dueDate filters <> Some "today").
    { split; intros E; rewrite E in Hg; discriminate. }
    destruct Hno as [Hno Hnt]. split.
    + intros ((((H1 & H2) & H3) & H4) & H5). repeat split; done.
    + intros (H1 & H2 & H4 & H5 & _ & H3 & _).
      repeat split; try done. by apply H3.
Qed.

(** ** The virtuals of the Task model *)

Lemma ceil_div_bracket (a b : Z) :
  0 < b -> (ceil_div a b - 1) * b < a <= ceil_div a b * b.
Proof.
  intros Hb. unfold ceil_div.
  pose proof (Z.div_mod (- a) b ltac:(lia)) as Hdm.
  pose proof (Z.mod_pos_bound (- a) b Hb) as Hm.
  nia.
Qed.

(** X20: daysUntilDue and isOverdue read the same clock consistently. A task
    has a daysUntilDue exactly when it has a due date and is neither
    completed nor cancelled; the value n is the number of days to the due
    date rounded up (the due date is later than n - 1 days from now and at
    most n days from now); an overdue task has n <= 0, and a task whose
    daysUntilDue is positive is not overdue. *)
Theorem daysUntilDue_and_isOverdue (now : Z) (t : task) :
  (is_Some (daysUntilDue now t) <->
   is_Some (dueDate t) /\ status t <> "completed"
   /\ status t <> "cancelled") /\
  (forall n d, daysUntilDue now t = Some n -> dueDate t = Some d ->
     now + (n - 1) * day_ms < d <= now + n * day_ms) /\
  (isOverdue now t = true ->
   exists n, daysUntilDue now t = Some n /\ n <= 0) /\
  (forall n, daysUntilDue now t = Some n -> 0 < n -> isOverdue now t = false).
Proof.
  unfold daysUntilDue, isOverdue.
  destruct (dueDate t) as [d|]; cycle 1.
  { split; [|split; [|split]].
    - split; [by intros [x [=]] | by intros ([x [=]] & _)].
    - intros n d [=].
    - discriminate.
    - intros n [=]. }
  destruct (String.eqb (status t) "completed") eqn:E1; simpl.
  { apply String.eqb_eq in E1. split; [|split; [|split]].
    - split; [by intros [x [=]] | by intros (_ & H & _)].
    - intros n d0 [=].
    - discriminate.
    - intros n [=]. }
  destruct (String.eqb (status t) "cancelled") eqn:E2; simpl.
  { apply String.eqb_eq in E2. split; [|split; [|split]].
    - split; [by intros [x [=]] | by intros (_ & _ & H)].
    - intros n d0 [=].
    - discriminate.
    - intros n [=]. }
  apply String.eqb_neq in E1, E2.
  pose proof (ceil_div_bracket (d - now) day_ms eq_refl) as Hb.
  split; [|split; [|split]].
  - split; [intros _; repeat split; [by eexists | done | done] | by eexists].
  - intros n d0 [= <-] [= <-]. lia.
  - intros Hlt. apply Z.ltb_lt in Hlt. eexists. split; [reflexivity|].
    unfold day_ms in *. lia.
  - intros n [= <-] Hn. apply Z.ltb_ge. unfold day_ms in *. lia.
Qed.

(** ** getTaskStats: the groups *)

Lemma bson_eqb_same (a : bson) : bson_eqb a a = true.
Proof.
  destruct a; simpl; try done.
  - apply String.eqb_refl.
  - apply Z.eqb_refl.
  - by destruct b.
  - apply Z.eqb_refl.
Qed.

Lemma bump_total (k : bson) (groups : list (bson * Z)) :
  total_of (bump k groups) = total_of groups + 1.
Proof.
  unfold total_of. induction groups as [|[k' n] r IH]; simpl; [lia|].
  destruct (bson_eqb k k'); simpl; lia.
Qed.

Lemma bump_keys (k : bson) (groups : list (bson * Z)) (x : bson) :
  In x (List.map fst (bump k groups)) ->
  x = k \/ In x (List.map fst groups).
Proof.
  induction groups as [|[k' n] r IH]; simpl; [intuition|].
  destruct (bson_eqb k k'); simpl; intuition.
Qed.

Lemma bump_NoDup (k : bson) (groups : list (bson * Z)) :
  List.NoDup (List.map fst groups) ->
  List.NoDup (List.map fst (bump k groups)).
Proof.
  induction groups as [|[k' n] r IH]; simpl; intros Hnd.
  - constructor; [tauto | constructor].
  - apply List.NoDup_cons_iff in Hnd as [Hk' Hr].
    destruct (bson_eqb k k') eqn:E; simpl.
    + by constructor.
    + constructor; [|by apply IH].
      intros Hin. apply bump_keys in Hin as [-> | Hin]; [|done].
      by rewrite bson_eqb_same in E.
Qed.

Lemma bump_positive (k : bson) (groups : list (bson * Z)) :
  Forall (fun g => 1 <= snd g) groups ->
  Forall (fun g => 1 <= snd g) (bump k groups).
Proof.
  induction 1 as [|[k' n] r Hn Hr IH]; simpl.
  - constructor; [simpl; lia | constructor].
  - destruct (bson_eqb k k'); constructor; simpl in *; try done. lia.
Qed.

Lemma group_count_shape (path : string) (docs : list task) :
  List.NoDup (List.map fst (group_count path docs)) /\
  Forall (fun g => 1 <= snd g) (group_count path docs) /\
  total_of (group_count path docs) = Z.of_nat (length docs).
Proof.
  unfold group_count.
  assert (H : forall groups,
             List.NoDup (List.map fst groups) ->
             Forall (fun g => 1 <= snd g) groups ->
             let r := fold_left (fun groups t => bump (field_of t path) groups)
                        docs groups in
             List.NoDup (List.map fst r) /\
             Forall (fun g => 1 <= snd g) r /\
             total_of r = total_of groups + Z.of_nat (length docs)).
  { induction docs as [|t r IH]; intros groups Hnd Hpos.
    - simpl. repeat split; try done. lia.
    - cbn [fold_left].
      destruct (IH (bump (field_of t path) groups)) as (A & B & C).
      + by apply bump_NoDup.
      + by apply bump_positive.
      + cbv zeta. repeat split; try done.
        rewrite C, bump_total. simpl length. lia. }
  destruct (H [] ltac:(constructor) ltac:(constructor)) as (A & B & C).
  repeat split; try done.
Qed.

Lemma filter_length_le {A : Type} (f g : A -> bool) (l : list A) :
  (forall x, f x = true -> g x = true) ->
  (length (List.filter f l) <= length (List.filter g l))%nat.
Proof.
  intros Hfg. induction l as [|x r IH]; simpl; [lia|].
  destruct (f x) eqn:Ef.
  - rewrite (Hfg x Ef). simpl. lia.
  - destruct (g x); simpl; lia.
Qed.

(** X21: in the answer of getTaskStats the groups by status and the groups by
    priority partition the same tasks: no key appears twice in either list,
    no group is empty, and the counts of either list add up to the number of
    tasks of the scope of the caller that are not archived; overdueTasks
    is at most that number. *)
Theorem getTaskStats_groups
    (regex_test : string -> string -> string -> bool)
    (now : Z) (u : user) (db : list task) :
  exists st,
    getTaskStats regex_test now u db
    = Json 200 "Task statistics retrieved successfully" st /\
    List.NoDup (List.map fst (statusStats st)) /\
    List.NoDup (List.map fst (priorityStats st)) /\
    Forall (fun g => 1 <= snd g) (statusStats st) /\
    Forall (fun g => 1 <= snd g) (priorityStats st) /\
    total_of (statusStats st)
    = Z.of_nat
        (length
           (List.filter
              (fun t => ownership_scope u t && negb (isArchived t)) db)) /\
    total_of (priorityStats st) = total_of (statusStats st) /\
    0 <= overdueTasks st <= total_of (statusStats st).
Proof.
  eexists. split; [reflexivity|].
  cbn [statusStats priorityStats overdueTasks completedThisMonth].
  set (live := List.filter
                 (matches regex_test
                    (<["isArchived" := Cond (Eq (BBool false))]>
                       (matchQuery u))) db).
  destruct (group_count_shape "status" live) as (A1 & B1 & C1).
  destruct (group_count_shape "priority" live) as (A2 & B2 & C2).
  assert (Hlive : live
                  = List.filter
                      (fun t => ownership_scope u t && negb (isArchived t))
                      db).
  { unfold live. apply filter_ext. intros t.
    rewrite matches_insert_fresh by (by apply matchQuery_other).
    rewrite matchQuery_scope. unfold entry_holds, cond_holds.
    rewrite field_of_isArchived. simpl.
    by destruct (isArchived t), (ownership_scope u t). }
  repeat split; try done.
  - by rewrite C1, Hlive.
  - by rewrite C1, C2.
  - unfold countDocuments. lia.
  - rewrite C1. unfold countDocuments, live. apply inj_le.
    apply filter_length_le. intros t.
    rewrite !matches_insert_fresh.
    + rewrite !andb_true_iff. tauto.
    + by apply matchQuery_other.
    + by apply matchQuery_other.
    + rewrite lookup_insert_ne by done. by apply matchQuery_other.
    + rewrite !lookup_insert_ne by done. by apply matchQuery_other.
Qed.

(** ** getTasks: the sortBy parameter *)

Lemma split_on_nonempty (sep : ascii) (s : string) : split_on sep s <> [].
Proof.
  destruct s as [|c r]; simpl; [done|].
  destruct (Ascii.eqb c sep); [done|]. by destruct (split_on sep r).
Qed.

Lemma split_on_plain (sep : ascii) (s : string) :
  occurs sep s = false -> split_on sep s = [s].
Proof.
  induction s as [|c r IH]; simpl; [done|].
  intros H. apply orb_false_iff in H as [Hc Hr].
  by rewrite Hc, (IH Hr).
Qed.

Lemma split_on_first (sep : ascii) (field rest : string) :
  occurs sep field = false ->
  split_on sep (field +:+ String sep rest) = field :: split_on sep rest.
Proof.
  induction field as [|c r IH]; simpl.
  - intros _. by rewrite Ascii.eqb_refl.
  - intros H. apply orb_false_iff in H as [Hc Hr].
    by rewrite Hc, (IH Hr).
Qed.

(** X22: a sortBy parameter 'field:desc' sorts by that field downwards; a
    parameter 'field:other', where other has no colon and is anything but
    exactly 'desc' (so 'DESC', 'descending' or the empty string as well as
    'asc'), and a bare 'field' sort by that field upwards; what comes after
    a second colon is not looked at. *)
Theorem getTasks_sort_direction (field rest : string) :
  field <> "" -> occurs ":" field = false ->
  getTasks_sort (sorted_by field) = (field, 1) /\
  getTasks_sort (sorted_by (field +:+ ":desc")) = (field, -1) /\
  getTasks_sort (sorted_by (field +:+ ":desc:" +:+ rest)) = (field, -1) /\
  (occurs ":" rest = false -> rest <> "desc" ->
   getTasks_sort (sorted_by (field +:+ ":" +:+ rest)) = (field, 1)).
Proof.
  intros Hne Hno.
  assert (Hg : forall tail, given (Some (field +:+ tail)) = true).
  { intros tail. destruct field; [done | reflexivity]. }
  assert (Hg0 : given (Some field) = true).
  { destruct field; [done | reflexivity]. }
  unfold getTasks_sort, sorted_by. cbn [q_sortBy].
  rewrite Hg0, !Hg. repeat split.
  - by rewrite split_on_plain.
  - change (field +:+ ":desc") with (field +:+ String ":" "desc").
    by rewrite split_on_first.
  - change (field +:+ ":desc:" +:+ rest)
      with (field +:+ String ":" ("desc" +:+ String ":" rest)).
    rewrite split_on_first by done. by rewrite split_on_first.
  - intros Hr Hd.
    change (field +:+ ":" +:+ rest) with (field +:+ String ":" rest).
    rewrite split_on_first by done. rewrite split_on_plain by done.
    by apply String.eqb_neq in Hd as ->.
Qed.

Lemma getTasks_sort_direction_witness :
  getTasks_sort (sorted_by "dueDate:desc") = ("dueDate", -1) /\
  getTasks_sort (sorted_by "dueDate:DESC") = ("dueDate", 1).
Proof.
  destruct (getTasks_sort_direction "dueDate" "DESC" ltac:(discriminate)
              eq_refl) as (_ & Hd & _ & Hu).
  split; [exact Hd | apply Hu; [reflexivity | discriminate]].
Defined.

(** ** CORS *)

Lemma prefix_app (pat s : string) : String.prefix pat (pat +:+ s) = true.
Proof.
  induction pat as [|c r IH]; simpl; [by destruct s|].
  by rewrite Ascii.eqb_refl || (destruct (ascii_dec c c); [exact IH|done]).
Qed.

Lemma contains_prefix (pat s : string) :
  String.prefix pat s = true -> contains pat s = true.
Proof. intros H. destruct s; cbn [contains]; by rewrite H. Qed.

Lemma contains_app (pat pre post : string) :
  contains pat (pre +:+ pat +:+ post) = true.
Proof.
  induction pre as [|c r IH].
  - change ("" +:+ pat +:+ post) with (pat +:+ post).
    apply contains_prefix, prefix_app.
  - change (String c r +:+ pat +:+ post) with (String c (r +:+ pat +:+ post)).
    cbn [contains]. rewrite IH. apply orb_true_r.
Qed.

(** X23: the origin check of CORS. A request with no Origin header, or an
    empty one, is always let through. In production every origin that
    has '.netlify.app' or '.netlify.com' anywhere in it is let through,
    whatever ALLOWED_ORIGINS says and wherever the text stands in the origin
    (host, path or port). Outside production, with ALLOWED_ORIGINS unset, a
    non-empty origin is let through exactly when it is one of the five
    localhost origins of the default list. *)
Theorem cors_origin_allows (production : bool) (allowed_env : option string)
    (pre post o : string) :
  cors_origin production allowed_env None = true /\
  cors_origin production allowed_env (Some "") = true /\
  cors_origin true allowed_env (Some (pre +:+ ".netlify.app" +:+ post))
  = true /\
  cors_origin true allowed_env (Some (pre +:+ ".netlify.com" +:+ post))
  = true /\
  (o <> "" ->
   cors_origin false None (Some o) = true <->
   In o ["http://localhost:3000"; "http://localhost:3001";
         "http://localhost:5173"; "http://localhost:5174";
         "https://localhost:3000"]).
Proof.
  assert (Hne : forall pat, pat <> "" ->
                  String.eqb (pre +:+ pat +:+ post) "" = false).
  { intros pat Hp. apply String.eqb_neq.
    destruct pre; [|done]. destruct pat; done. }
  split; [|split; [|split; [|split]]].
  - reflexivity.
  - unfold cors_origin. cbv zeta.
    destruct (production && negb (String.eqb "" "") && _); reflexivity.
  - unfold cors_origin. cbv zeta.
    by rewrite (Hne ".netlify.app"), contains_app.
  - unfold cors_origin. cbv zeta.
    by rewrite (Hne ".netlify.com"), contains_app, orb_true_r.
  - intros H. unfold cors_origin. cbv zeta. cbn [given andb].
    apply String.eqb_neq in H. rewrite H. unfold str_in. cbn [existsb In].
    rewrite !orb_true_iff, !String.eqb_eq. intuition congruence.
Qed.

Lemma cors_origin_allows_witness :
  cors_origin false None (Some "http://localhost:5173") = true.
Proof.
  apply (cors_origin_allows false None "" "" "http://localhost:5173");
    [discriminate | simpl; tauto].
Defined.

(** ** updateProfile: what the update document can hold *)

Lemma updateProfile_step_top (updates : profile_updates) (k : string)
    (v : jsval) (j : string) :
  top (updateProfile_step updates (k, v)) !! j
  = if str_in k ["username"; "email"] && String.eqb k j then Some v
    else top updates !! j.
Proof.
  unfold updateProfile_step, profile_allowedUpdates, str_in.
  cbn [fst snd existsb].
  destruct (String.eqb k "username") eqn:E1.
  { apply String.eqb_eq in E1. subst k.
    change (String.prefix "profile." "username") with false.
    cbn [orb andb top]. destruct (String.eqb "username" j) eqn:Ej.
    - apply String.eqb_eq in Ej. subst j. apply lookup_insert_eq.
    - apply String.eqb_neq in Ej. by rewrite lookup_insert_ne. }
  destruct (String.eqb k "email") eqn:E2.
  { apply String.eqb_eq in E2. subst k.
    change (String.prefix "profile." "email") with false.
    cbn [orb andb top]. destruct (String.eqb "email" j) eqn:Ej.
    - apply String.eqb_eq in Ej. subst j. apply lookup_insert_eq.
    - apply String.eqb_neq in Ej. by rewrite lookup_insert_ne. }
  cbn [orb andb].
  destruct (String.eqb k "profile.firstName") eqn:E3.
  { apply String.eqb_eq in E3. by subst k. }
  destruct (String.eqb k "profile.lastName") eqn:E4.
  { apply String.eqb_eq in E4. by subst k. }
  destruct (String.eqb k "profile.avatar") eqn:E5.
  { apply String.eqb_eq in E5. by subst k. }
  reflexivity.
Qed.

(** The keys of [updates.profile] and the keys of the body they come from. *)
Lemma updateProfile_step_profile (updates : profile_updates) (k : string)
    (v : jsval) (j : string) :
  (profile (updateProfile_step updates (k, v)) ≫= (.!! j))
  = if str_in j ["firstName"; "lastName"; "avatar"]
       && String.eqb k ("profile." +:+ j)
    then Some v
    else profile updates ≫= (.!! j).
Proof.
  assert (Hj : forall s,
             String.eqb ("profile." +:+ s) ("profile." +:+ j)
             = String.eqb s j).
  { intros s. simpl. reflexivity. }
  assert (Hins : forall s,
             (Some (<[s := v]> (match profile updates with
                                | Some p => p
                                | None => empty
                                end)) ≫= (.!! j))
             = if String.eqb s j then Some v
               else profile updates ≫= (.!! j)).
  { intros s. simpl. destruct (String.eqb s j) eqn:Ej.
    - apply String.eqb_eq in Ej. subst j. apply lookup_insert_eq.
    - apply String.eqb_neq in Ej. rewrite lookup_insert_ne by done.
      by destruct (profile updates). }
  unfold updateProfile_step, profile_allowedUpdates, str_in.
  cbn [fst snd existsb].
  destruct (String.eqb k "username") eqn:E1.
  { apply String.eqb_eq in E1. subst k.
    change (String.prefix "profile." "username") with false.
    cbn [orb profile].
    destruct (_ && _) eqn:E; [|reflexivity].
    apply andb_true_iff in E as [_ E]. apply String.eqb_eq in E.
    discriminate. }
  destruct (String.eqb k "email") eqn:E2.
  { apply String.eqb_eq in E2. subst k.
    change (String.prefix "profile." "email") with false.
    cbn [orb profile].
    destruct (_ && _) eqn:E; [|reflexivity].
    apply andb_true_iff in E as [_ E]. apply String.eqb_eq in E.
    discriminate. }
  destruct (String.eqb k "profile.firstName") eqn:E3.
  { apply String.eqb_eq in E3. subst k.
    change (nth 1 (split_on "." "profile.firstName") "") with "firstName".
    change (String.prefix "profile." "profile.firstName") with true.
    cbn [orb profile]. rewrite Hins.
    change "profile.firstName" with ("profile." +:+ "firstName").
    rewrite Hj. destruct (String.eqb "firstName" j) eqn:Ej.
    - apply String.eqb_eq in Ej. by subst j.
    - by rewrite andb_false_r. }
  destruct (String.eqb k "profile.lastName") eqn:E4.
  { apply String.eqb_eq in E4. subst k.
    change (nth 1 (split_on "." "profile.lastName") "") with "lastName".
    change (String.prefix "profile." "profile.lastName") with true.
    cbn [orb profile]. rewrite Hins.
    change "profile.lastName" with ("profile." +:+ "lastName").
    rewrite Hj. destruct (String.eqb "lastName" j) eqn:Ej.
    - apply String.eqb_eq in Ej. by subst j.
    - by rewrite andb_false_r. }
  destruct (String.eqb k "profile.avatar") eqn:E5.
  { apply String.eqb_eq in E5. subst k.
    change (nth 1 (split_on "." "profile.avatar") "") with "avatar".
    change (String.prefix "profile." "profile.avatar") with true.
    cbn [orb profile]. rewrite Hins.
    change "profile.avatar" with ("profile." +:+ "avatar").
    rewrite Hj. destruct (String.eqb "avatar" j) eqn:Ej.
    - apply String.eqb_eq in Ej. by subst j.
    - by rewrite andb_false_r. }
  cbn [orb].
  match goal with
  | |- _ = (if ?c then _ else _) => destruct c eqn:E
  end; [|reflexivity].
  apply andb_true_iff in E as [Ein Ek]. apply String.eqb_eq in Ek. subst k.
  rewrite !orb_true_iff, !String.eqb_eq in Ein.
  destruct Ein as [-> | [-> | [-> | [=]]]];
    vm_compute in E3, E4, E5; discriminate.
Qed.

Lemma updateProfile_fold (l : list (string * jsval)) (j : string) :
  List.NoDup (List.map fst l) ->
  forall acc : profile_updates,
    let r := fold_left updateProfile_step l acc in
    (forall v, top r !! j = Some v <->
       (str_in j ["username"; "email"] = true /\ In (j, v) l)
       \/ (~ (str_in j ["username"; "email"] = true
              /\ In j (List.map fst l))
           /\ top acc !! j = Some v)) /\
    (forall v, profile r ≫= (.!! j) = Some v <->
       (str_in j ["firstName"; "lastName"; "avatar"] = true
        /\ In ("profile." +:+ j, v) l)
       \/ (~ (str_in j ["firstName"; "lastName"; "avatar"] = true
              /\ In ("profile." +:+ j) (List.map fst l))
           /\ profile acc ≫= (.!! j) = Some v)).
Proof.
  induction l as [|[k w] l IH]; intros Hnd acc.
  - simpl. split; intros v; tauto.
  - apply List.NoDup_cons_iff in Hnd as [Hk Hl]. cbn [fold_left].
    destruct (IH Hl (updateProfile_step acc (k, w))) as [IHt IHp].
    cbv zeta. split; intros v.
    + rewrite IHt, updateProfile_step_top. cbn [List.map fst In].
      destruct (str_in k ["username"; "email"] && String.eqb k j) eqn:E.
      * apply andb_true_iff in E as [Ek Ej]. apply String.eqb_eq in Ej.
        subst j. rewrite Ek. split.
        -- intros [[_ Hin] | [_ [= ->]]]; [|by left; split; [|left]].
           left. split; [done | by right].
        -- intros [[_ [[= ->] | Hin]] | [Hn _]].
           ++ right. split; [|done]. intros [_ Hin]. by apply Hk.
           ++ left. by split.
           ++ exfalso. apply Hn. split; [done | by left].
      * split.
        -- intros [[Hs Hin] | [Hn Ha]]; [left; split; [done | by right]|].
           right. split; [|done]. intros [Hs [<- | Hin]].
           ++ by rewrite Hs, String.eqb_refl in E.
           ++ by apply Hn.
        -- intros [[Hs [[= -> ->] | Hin]] | [Hn Ha]].
           ++ by rewrite Hs, String.eqb_refl in E.
           ++ left. by split.
           ++ right. split; [|done]. intros [Hs Hin]. apply Hn.
              split; [done | by right].
    + rewrite IHp, updateProfile_step_profile. cbn [List.map fst In].
      destruct (str_in j ["firstName"; "lastName"; "avatar"]
                && String.eqb k ("profile." +:+ j)) eqn:E.
      * apply andb_true_iff in E as [Es Ej]. apply String.eqb_eq in Ej.
        subst k. rewrite Es. split.
        -- intros [[_ Hin] | [_ [= ->]]]; [|by left; split; [|left]].
           left. split; [done | by right].
        -- intros [[_ [[= ->] | Hin]] | [Hn _]].
           ++ right. split; [|done]. intros [_ Hin]. by apply Hk.
           ++ left. by split.
           ++ exfalso. apply Hn. split; [done | by left].
      * split.
        -- intros [[Hs Hin] | [Hn Ha]]; [left; split; [done | by right]|].
           right. split; [|done]. intros [Hs [-> | Hin]].
           ++ by rewrite Hs, String.eqb_refl in E.
           ++ by apply Hn.
        -- intros [[Hs [[= -> ->] | Hin]] | [Hn Ha]].
           ++ by rewrite Hs, String.eqb_refl in E.
           ++ left. by split.
           ++ right. split; [|done]. intros [Hs Hin]. apply Hn.
              split; [done | by right].
Qed.

(** X24: the update document that updateProfile builds from a body holds,
    at its top level, the values of username and email that the body gives
    and nothing else, and under profile the values that the body gives for
    profile.firstName, profile.lastName and profile.avatar and nothing else;
    so a body cannot write role, isActive, password or any other path of the
    account through it. *)
Theorem updateProfile_updates_allowed (body : gmap string jsval)
    (j : string) (v : jsval) :
  (top (updateProfile_updates body) !! j = Some v <->
   (j = "username" \/ j = "email") /\ body !! j = Some v) /\
  (profile (updateProfile_updates body) ≫= (.!! j) = Some v <->
   (j = "firstName" \/ j = "lastName" \/ j = "avatar")
   /\ body !! ("profile." +:+ j) = Some v).
Proof.
  unfold updateProfile_updates.
  assert (Hnd : List.NoDup (List.map fst (map_to_list body))).
  { apply NoDup_ListNoDup, NoDup_fst_map_to_list. }
  destruct (updateProfile_fold (map_to_list body) j Hnd
              {| top := empty; profile := None |}) as [Ht Hp].
  cbv zeta in Ht, Hp.
  assert (Hin : forall k x, In (k, x) (map_to_list body) <-> body !! k = Some x).
  { intros k x. rewrite <- list_elem_of_In. apply elem_of_map_to_list. }
  split.
  - rewrite Ht, Hin. unfold str_in. cbn [existsb top].
    rewrite !orb_true_iff, !String.eqb_eq, lookup_empty. intuition congruence.
  - rewrite Hp, Hin. unfold str_in. cbn [existsb profile].
    rewrite !orb_true_iff, !String.eqb_eq. simpl. intuition congruence.
Qed.
